(** * EzDawg: signed-request authentication, plan lifecycle and agent provisioning

    A shallow embedding of the TypeScript sources

    - [backend/lib/signature-verify]   ([verifySignature])
    - [backend/services/db.service]    (the Supabase queries)
    - [backend/services/sip.service]   ([createSIP], [updateSIPStatus])
    - [app/api/sip/route.ts]           ([PATCH])
    - [lib/storage/agent-storage]      ([getAgentPrivateKey], [saveAgentPrivateKey])
    - [lib/hyperliquid/agent-service]  ([getOrCreateAgentPrivateKey],
                                        [checkAgentApproval], [approveAgentIfNeeded],
                                        [initializeAgent])

    followed by the properties of the specification that concern them. *)

From stdpp Require Import base numbers list strings gmap.
From Stdlib Require Import ZArith QArith Lia Sorted Permutation.

Local Open Scope string_scope.
Local Open Scope Z_scope.

(** ** Outcomes, the runtime and the effect monad

    A JavaScript call either returns a value or throws; an [await] on a
    rejected promise throws at the point of the [await].  The thrown value is
    an [Error], of which only the message is ever inspected. *)

Inductive outcome (A : Type) : Type :=
| Returns (a : A)
| Throws (e : string).
Arguments Returns {A} a.
Arguments Throws {A} e.

Inductive level : Set := ConsoleLog | ConsoleWarn | ConsoleError.

(** What a process can observe and change: the wall clock read by
    [Date.now()], the lines written to the console (oldest first, one entry
    per call with its arguments), and the process' own store [S]: the
    database for the server, local storage and the exchange for the browser.
    The clock is an input; nothing in the modelled code sets it. *)
Record Runtime (S : Type) : Type := mkRuntime {
  clock : Z;
  console : list (level * list string);
  store : S
}.
Arguments mkRuntime {S} clock console store.
Arguments clock {S} r.
Arguments console {S} r.
Arguments store {S} r.

Definition M (S A : Type) : Type := Runtime S -> outcome A * Runtime S.

Definition ret {S A} (a : A) : M S A := fun w => (Returns a, w).

Definition bind {S A B} (c : M S A) (k : A -> M S B) : M S B :=
  fun w =>
    match c w with
    | (Returns a, w') => k a w'
    | (Throws e, w') => (Throws e, w')
    end.

Notation "'let*' x ':=' c 'in' k" := (bind c (fun x => k))
  (at level 10, x name, c at level 100, k at level 200).
Notation "'do' c 'then' k" := (bind c (fun _ => k))
  (at level 10, c at level 100, k at level 200).

(** [throw new Error(e)] *)
Definition throw {S A} (e : string) : M S A := fun w => (Throws e, w).

(** [try { body } catch (error) { handler }]: effects of [body] up to the
    throw are kept. *)
Definition try_catch {S A} (body : M S A) (handler : string -> M S A) : M S A :=
  fun w =>
    match body w with
    | (Returns a, w') => (Returns a, w')
    | (Throws e, w') => handler e w'
    end.

(** [await p] for a promise of an external collaborator whose settlement is
    given. *)
Definition await {S A} (p : outcome A) : M S A := fun w => (p, w).

Definition Date_now {S} : M S Z := fun w => (Returns (clock w), w).

Definition console_write {S} (l : level) (args : list string) : M S unit :=
  fun w => (Returns tt, mkRuntime (clock w) ((console w ++ [(l, args)])%list) (store w)).

Definition get_store {S} : M S S := fun w => (Returns (store w), w).

Definition put_store {S} (s : S) : M S unit :=
  fun w => (Returns tt, mkRuntime (clock w) (console w) s).

(** [x] where JavaScript tests a string-or-absent value for truth ([if (x)],
    [!x], [x || y]): the string when it is present and not empty. *)
Definition truthy (x : option string) : option string :=
  match x with
  | Some "" => None
  | _ => x
  end.

(** The same test on a message. *)
Definition truthy_text (x : option (list N)) : option (list N) :=
  match x with
  | Some [] => None
  | _ => x
  end.

(** Whether a text holds the code point zero, which Postgres takes in no
    [text] value. *)
Fixpoint has_nul (s : string) : bool :=
  match s with
  | EmptyString => false
  | String c s' => Ascii.eqb c Ascii.zero || has_nul s'
  end.

(** A text with its letters [A] to [Z] in lower case. *)
Definition lower_ascii (c : Ascii.ascii) : Ascii.ascii :=
  let n := Ascii.nat_of_ascii c in
  if (Nat.leb 65 n && Nat.leb n 90)%bool then Ascii.ascii_of_nat (n + 32) else c.

Fixpoint lower (s : string) : string :=
  match s with
  | EmptyString => EmptyString
  | String c s' => String (lower_ascii c) (lower s')
  end.

(** ** JavaScript strings

    The signed message is inspected character by character, so it is a
    sequence of UTF-16 code units.  Every other string of the program
    (addresses, identifiers, keys, error texts) is only compared, stored or
    passed on, and is kept as a [string]. *)

Fixpoint utf16 (s : string) : list N :=
  match s with
  | EmptyString => []
  | String a s' => Ascii.N_of_ascii a :: utf16 s'
  end.

(** The line feed of a template literal's [\n]. *)
Definition newline : list N := [10%N].

(** [\d] (no unicode flag): the ASCII digits. *)
Definition is_digit (c : N) : bool := ((48 <=? c) && (c <=? 57))%N.

(** [\s]: ECMAScript WhiteSpace and LineTerminator code points. *)
Definition is_space (c : N) : bool :=
  (((9 <=? c) && (c <=? 13)) || (c =? 32) || (c =? 160) || (c =? 0x1680)
   || ((0x2000 <=? c) && (c <=? 0x200a)) || (c =? 0x2028) || (c =? 0x2029)
   || (c =? 0x202f) || (c =? 0x205f) || (c =? 0x3000) || (c =? 0xfeff))%N.

Fixpoint strip_prefix (p s : list N) : option (list N) :=
  match p, s with
  | [], _ => Some s
  | a :: p', b :: s' => if (a =? b)%N then strip_prefix p' s' else None
  | _ :: _, [] => None
  end.

Fixpoint while_true (f : N -> bool) (s : list N) : list N :=
  match s with
  | c :: s' => if f c then c :: while_true f s' else []
  | [] => []
  end.

Fixpoint skip_while (f : N -> bool) (s : list N) : list N :=
  match s with
  | c :: s' => if f c then skip_while f s' else s
  | [] => []
  end.

Module SignatureVerify.

Definition SIGNATURE_EXPIRY_MS : Z := 60000.

Record VerifySignatureResult : Type := mkVerify {
  valid : bool;
  address : option string;
  error : option string
}.

(** The regular expression [/Nonce:\s*(\d+)/] tried at the start of [s]:
    the literal, the longest run of white space, the longest run of digits,
    which must not be empty.  Both quantifiers are greedy and the two
    character classes are disjoint, so giving back white space or digits
    never turns a failure into a match.  The result is capture group 1. *)
Definition nonce_here (s : list N) : option (list N) :=
  match strip_prefix (utf16 "Nonce:") s with
  | Some rest =>
      match while_true is_digit (skip_while is_space rest) with
      | [] => None
      | ds => Some ds
      end
  | None => None
  end.

(** [message.match(/Nonce:\s*(\d+)/)]: no [g] flag and no anchor, so the
    match is the one at the leftmost position that has one; [None] is
    [null]. *)
Fixpoint nonceMatch (message : list N) : option (list N) :=
  match nonce_here message with
  | Some ds => Some ds
  | None =>
      match message with
      | [] => None
      | _ :: rest => nonceMatch rest
      end
  end.

(** What it means for a message to contain a match of the pattern, read
    off the pattern itself: the literal, any white space, one or more
    digits, anywhere in the message. *)
Definition contains_nonce_pattern (message : list N) : Prop :=
  exists pre ws ds post,
    message = (pre ++ utf16 "Nonce:" ++ ws ++ ds ++ post)%list
    /\ forallb is_space ws = true
    /\ forallb is_digit ds = true
    /\ ds <> [].

(** The text after the last line feed of a message. *)
Fixpoint final_line (message : list N) : list N :=
  match message with
  | [] => []
  | c :: rest =>
      if existsb (N.eqb 10) rest then final_line rest else
      if (c =? 10)%N then rest else message
  end.

(** [parseInt(ds, 10)] on a string of decimal digits (capture group 1 is
    one).  The value is kept as the integer the digits denote; a double
    holds it exactly up to 2^53, and the two comparisons below are against
    integers, so they are the same on the rounded value. *)
Definition parseInt (ds : list N) : Z :=
  fold_left (fun acc c => 10 * acc + (Z.of_N c - 48)) ds 0.

Section Verify.
Context {S : Type}.
(** viem's [recoverMessageAddress({message, signature})]: returns the
    signer's address or throws on a malformed signature. *)
Variable recoverMessageAddress : list N -> string -> outcome string.

Definition verifySignature (message : list N) (signature : string)
  : M S VerifySignatureResult :=
  try_catch
    (match nonceMatch message with
     | None => ret (mkVerify false None (Some "Message missing nonce"))
     | Some digits =>
         let nonce := parseInt digits in
         let* now := Date_now in
         let age := now - nonce in
         if age >? SIGNATURE_EXPIRY_MS then
           ret (mkVerify false None (Some "Signature expired"))
         else if age <? -5000 then
           ret (mkVerify false None (Some "Invalid nonce timestamp"))
         else
           let* recoveredAddress := await (recoverMessageAddress message signature) in
           ret (mkVerify true (Some recoveredAddress) None)
     end)
    (fun err =>
       do console_write ConsoleError ["Signature verification error:"; err] then
       ret (mkVerify false None (Some "Signature verification failed"))).
End Verify.

(** [createSignatureMessage] with the nonce it reads from the clock made a
    parameter: action, the parameters as [key: value] joined by [", "], and
    the nonce line.  [params] lists the entries in the order
    [Object.entries] yields them. *)
Fixpoint join (sep : list N) (parts : list (list N)) : list N :=
  match parts with
  | [] => []
  | [p] => p
  | p :: ps => (p ++ sep ++ join sep ps)%list
  end.

Fixpoint digits_of_pos (fuel : nat) (n : Z) (acc : list N) : list N :=
  match fuel with
  | O => acc
  | S fuel' =>
      let acc' := Z.to_N (48 + n mod 10) :: acc in
      if n / 10 =? 0 then acc' else digits_of_pos fuel' (n / 10) acc'
  end.

(** Decimal rendering of a non-negative integer, as a template literal
    interpolates it. *)
Definition decimal (n : Z) : list N := digits_of_pos (Z.to_nat (Z.log2 n) + 1) n [].

Definition createSignatureMessage (nonce : Z) (action : list N)
    (params : list (list N * list N)) : list N :=
  let paramsStr :=
    join (utf16 ", ")
         (map (fun kv => (fst kv ++ utf16 ": " ++ snd kv)%list) params) in
  (action ++ newline ++ paramsStr ++ newline ++ utf16 "Nonce: "
          ++ decimal nonce)%list.

End SignatureVerify.

(** ** The plan store: [db.service] over the [sips] migration *)

Module Db.

Inductive Status : Set := active | paused | cancelled.

Definition status_text (s : Status) : string :=
  match s with
  | active => "active"
  | paused => "paused"
  | cancelled => "cancelled"
  end.

(** A JavaScript [number]: a finite value (every finite double is a
    rational), [NaN], or an infinity. *)
Inductive number : Set :=
| Num (q : Q)
| NaN
| Infinity (negative : bool).

(** [a < b] for a finite [b]. *)
Definition number_lt (a : number) (b : Q) : bool :=
  match a with
  | Num q => negb (Qle_bool b q)
  | NaN => false
  | Infinity negative => negative
  end.

Record User : Type := mkUser {
  u_id : string;
  wallet_address : string;
  u_created_at : Z
}.

Record SIP : Type := mkSIP {
  id : string;
  user_id : string;
  asset_name : string;
  asset_index : Z;
  monthly_amount_usdc : number;
  status : Status;
  created_at : Z;
  updated_at : Z
}.

(** The hosted database as the server sees it: the two tables, how many
    identifiers [gen_random_uuid()] has handed out, and for the requests
    still to come whether each one fails before it is executed (network or
    service outage; [true] is a failure, no entry is a success).
    [createClient], whose module is not among the sources, is taken to
    build the client object, to send nothing and to return: every run below
    is a run with a client. *)
Record Database : Type := mkDatabase {
  users : list User;
  sips : list SIP;
  uuids_issued : nat;
  outages : list bool
}.

(** The two ordered queries of the service. *)
Inductive Query : Set := UserPlans | ActivePlans.

(** What Postgres decides: the identifiers it generates; the value that a
    text denotes as input for a [uuid] column ([None] for a text that is not
    a uuid; several spellings denote one value); and, in a query ordered by
    [created_at], which of two rows created at the same time comes first. *)
Record Postgres : Type := mkPostgres {
  gen_random_uuid : nat -> string;
  uuid_value : string -> option N;
  comes_first : Query -> SIP -> SIP -> bool
}.

(** Whether a text is accepted as a uuid. *)
Definition uuid_in (pg : Postgres) (s : string) : bool :=
  match uuid_value pg s with
  | Some _ => true
  | None => false
  end.

(** Equality on a [uuid] column: the two texts denote the same value.  The
    rows keep the text of an id; every comparison of ids is this one. *)
Definition same_uuid (pg : Postgres) (a b : string) : bool :=
  match uuid_value pg a, uuid_value pg b with
  | Some x, Some y => (x =? y)%N
  | _, _ => false
  end.

(** Equality of wallet addresses, which takes no account of case. *)
Definition same_address (a b : string) : bool := String.eqb (lower a) (lower b).

(** The user whose address is [walletAddress] in another spelling takes the
    new spelling: the updated row and the updated table. *)
Fixpoint respell (walletAddress : string) (users : list User)
  : option (User * list User) :=
  match users with
  | [] => None
  | u :: rest =>
      if same_address (wallet_address u) walletAddress then
        let u' := mkUser (u_id u) walletAddress (u_created_at u) in
        Some (u', u' :: rest)
      else
        match respell walletAddress rest with
        | Some (u', rest') => Some (u', u :: rest')
        | None => None
        end
  end.

(** The values of the [status] column. *)
Definition status_of_text (s : string) : option Status :=
  if String.eqb s "active" then Some active
  else if String.eqb s "paused" then Some paused
  else if String.eqb s "cancelled" then Some cancelled
  else None.

Section Queries.
Variable pg : Postgres.

(** One round trip to the database: the next entry of [outages] is
    used up, and the answer is [true] when the statement gets to be
    executed. *)
Definition round_trip : M Database bool :=
  let* db := get_store in
  do put_store (mkDatabase (users db) (sips db) (uuids_issued db) (tl (outages db))) then
  ret (negb (hd false (outages db))).

(** Modelled from the spec: the [users] table, whose migration is not
    among the sources.  A user is "identified by a blockchain wallet
    address (case-insensitive hex string)" and "created implicitly on first
    interaction (upsert on address)".  The row has the columns of the [User]
    interface; [wallet_address] is the conflict target and is compared
    without regard to case, so that at most one row is in conflict with a
    new one.  An upsert merges the given column into that row: a row with
    this very spelling stays as it is, a row with another spelling of the
    address takes the new spelling; without a row in conflict one is
    inserted. *)
Definition users_upsert (walletAddress : string) : M Database User :=
  let* db := get_store in
  match find (fun u => String.eqb (wallet_address u) walletAddress) (users db) with
  | Some u => ret u
  | None =>
      match respell walletAddress (users db) with
      | Some (u, merged) =>
          do put_store (mkDatabase merged (sips db) (uuids_issued db) (outages db)) then
          ret u
      | None =>
          let* now := Date_now in
          let u := mkUser (gen_random_uuid pg (uuids_issued db)) walletAddress now in
          do put_store (mkDatabase (users db ++ [u])%list (sips db)
                                   (S (uuids_issued db)) (outages db)) then
          ret u
      end
  end.

Definition getUserByWallet (walletAddress : string) : M Database (option User) :=
  let* executed := round_trip in
  if executed then
    let* data := users_upsert walletAddress in
    ret (Some data)
  else
    do console_write ConsoleError ["Failed to get/create user:"] then
    ret None.

(** The constraints of the [sips] table on an inserted row: [user_id]
    references [users(id)], [asset_name] is a [text], [asset_index] is an
    [int], and [monthly_amount_usdc] is a non-null decimal of at least 1000
    ([NaN] and the infinities serialise to [null]). *)
Definition sips_accepts (db : Database) (userId assetName : string) (assetIndex : Z)
    (monthlyAmountUsdc : number) : bool :=
  existsb (fun u => same_uuid pg (u_id u) userId) (users db)
  && negb (has_nul assetName)
  && (- 2 ^ 31 <=? assetIndex) && (assetIndex <? 2 ^ 31)
  && match monthlyAmountUsdc with
     | Num q => Qle_bool 1000 q
     | _ => false
     end.

Definition createSIP (userId assetName : string) (assetIndex : Z)
    (monthlyAmountUsdc : number) : M Database (option SIP) :=
  let* executed := round_trip in
  let* db := get_store in
  if executed && sips_accepts db userId assetName assetIndex monthlyAmountUsdc then
    let* now := Date_now in
    let data := mkSIP (gen_random_uuid pg (uuids_issued db)) userId assetName
                      assetIndex monthlyAmountUsdc active now now in
    do put_store (mkDatabase (users db) (sips db ++ [data])%list
                             (S (uuids_issued db)) (outages db)) then
    ret (Some data)
  else
    do console_write ConsoleError ["Failed to create SIP:"] then
    ret None.

(** [update({status, updated_at}).eq('id', sipId)] on one row. *)
Definition apply_update (sipId : string) (status : Status) (now : Z) (row : SIP) : SIP :=
  if same_uuid pg (id row) sipId then
    mkSIP (id row) (user_id row) (asset_name row) (asset_index row)
          (monthly_amount_usdc row) status (created_at row) now
  else row.

(** Every row with that id is overwritten; matching no row is not an
    error, a [sipId] that is not a uuid is. *)
Definition updateSIPStatus (sipId : string) (status : Status) : M Database bool :=
  let* now := Date_now in
  let* executed := round_trip in
  if executed && uuid_in pg sipId then
    let* db := get_store in
    do put_store (mkDatabase (users db) (map (apply_update sipId status now) (sips db))
                             (uuids_issued db) (outages db)) then
    ret true
  else
    do console_write ConsoleError ["Failed to update SIP status:"] then
    ret false.

(** [updateSIPStatus] as it runs for any text: the type of [status] is not
    checked at run time, and [PATCH] passes on what the body holds.  For a
    text that is a value of the column this is [updateSIPStatus]; for any
    other text the statement is refused if the text holds the code point
    zero, and else by the CHECK of the column as soon as it reaches a
    row. *)
Definition updateSIPStatus_any (sipId status : string) : M Database bool :=
  match status_of_text status with
  | Some declared => updateSIPStatus sipId declared
  | None =>
      let* now := Date_now in
      let* executed := round_trip in
      let* db := get_store in
      if executed && uuid_in pg sipId && negb (has_nul status)
         && negb (existsb (fun row => same_uuid pg (id row) sipId) (sips db)) then
        ret true
      else
        do console_write ConsoleError ["Failed to update SIP status:"] then
        ret false
  end.
End Queries.

End Db.

(** ** The plan service: [sip.service] *)

Module SipService.

Record SIPResult : Type := mkResult {
  success : bool;
  sip : option Db.SIP;
  message : option string;
  error : option string
}.

Record CreateSIPParams : Type := mkParams {
  walletAddress : string;
  assetName : string;
  assetIndex : Z;
  monthlyAmountUsdc : Db.number
}.

Definition failure (e : string) : SIPResult := mkResult false None None (Some e).

Section Service.
Variable pg : Db.Postgres.

Definition createSIP (params : CreateSIPParams) : M Db.Database SIPResult :=
  if Db.number_lt (monthlyAmountUsdc params) 1000 then
    ret (failure "Monthly investment must be at least 1000 USDC")
  else
    let* user := Db.getUserByWallet pg (walletAddress params) in
    match user with
    | None => ret (failure "User not found")
    | Some user =>
        let* sip := Db.createSIP pg (Db.u_id user) (assetName params)
                                  (assetIndex params) (monthlyAmountUsdc params) in
        match sip with
        | None => ret (failure "Failed to create SIP")
        | Some sip =>
            ret (mkResult true (Some sip) (Some "SIP created successfully") None)
        end
    end.

Definition updateSIPStatus (sipId : string) (status : Db.Status)
  : M Db.Database SIPResult :=
  let* success := Db.updateSIPStatus pg sipId status in
  if negb success then
    ret (failure "Failed to update SIP status")
  else
    ret (mkResult true None
           (Some ("SIP " ++ match status with
                            | Db.active => "resumed"
                            | _ => Db.status_text status
                            end)%string)
           None).

(** The same for any text, as [PATCH] calls it; the message is
    [SIP ${status === 'active' ? 'resumed' : status}]. *)
Definition updateSIPStatus_any (sipId status : string) : M Db.Database SIPResult :=
  match Db.status_of_text status with
  | Some declared => updateSIPStatus sipId declared
  | None =>
      let* success := Db.updateSIPStatus_any pg sipId status in
      if negb success then
        ret (failure "Failed to update SIP status")
      else
        ret (mkResult true None (Some ("SIP " ++ status)%string) None)
  end.
End Service.

End SipService.

(** ** The HTTP boundary: [PATCH /api/sip] *)

Module Route.

(** The parsed JSON body.  [None] is an absent field.  The handler does not
    validate [status]: it is whatever text the body holds. *)
Record PatchBody : Type := mkPatch {
  sipId : option string;
  status : option string;
  message : option (list N);
  signature : option string
}.

Inductive Json : Type :=
| ErrorJson (error : option string)
| ResultJson (result : SipService.SIPResult).

Record NextResponse : Type := mkResponse {
  body : Json;
  http_status : Z
}.

(** [a || b] on an optional string. *)
Definition or_else (a : option string) (b : string) : string :=
  match truthy a with
  | Some s => s
  | None => b
  end.

Section Handlers.
Variable pg : Db.Postgres.
Variable recoverMessageAddress : list N -> string -> outcome string.

(** [request] is the settlement of [request.json()]. *)
Definition PATCH (request : outcome PatchBody) : M Db.Database NextResponse :=
  try_catch
    (let* json := await request in
     match truthy (sipId json), truthy (status json),
           truthy_text (message json), truthy (signature json) with
     | Some sipId, Some status, Some message, Some signature =>
         let* verifyResult :=
           SignatureVerify.verifySignature recoverMessageAddress message signature in
         if negb (SignatureVerify.valid verifyResult) then
           ret (mkResponse
                  (ErrorJson (Some (or_else (SignatureVerify.error verifyResult)
                                            "Invalid signature")))
                  401)
         else
           let* result := SipService.updateSIPStatus_any pg sipId status in
           if negb (SipService.success result) then
             ret (mkResponse (ErrorJson (SipService.error result)) 500)
           else
             ret (mkResponse (ResultJson result) 200)
     | _, _, _, _ =>
         ret (mkResponse (ErrorJson (Some "Missing required fields")) 400)
     end)
    (fun err =>
       do console_write ConsoleError ["Update SIP error:"; err] then
       ret (mkResponse (ErrorJson (Some (or_else (Some err) "Internal server error")))
                       500)).
End Handlers.

End Route.

(** ** The browser: local storage and the exchange *)

(** [localStorage] is [None] where [typeof window === "undefined"] (server
    rendering).  Writes are assumed to fit the storage quota.  [keys_drawn]
    counts the keypairs generated so far, [approvals] the authorization
    transactions submitted to the exchange (agent address and label, oldest
    first). *)
Record Browser : Type := mkBrowser {
  localStorage : option (gmap string string);
  keys_drawn : nat;
  approvals : list (string * string)
}.

Module AgentStorage.

Definition storageKey (userAddress : string) : string :=
  ("agentPrivateKey-" ++ userAddress)%string.

Definition getAgentPrivateKey (userAddress : string) : M Browser (option string) :=
  let* b := get_store in
  match localStorage b with
  | None => ret None
  | Some items => ret (items !! storageKey userAddress)
  end.

Definition saveAgentPrivateKey (userAddress privateKey : string) : M Browser unit :=
  let* b := get_store in
  match localStorage b with
  | None => throw "Cannot save private key in non-browser environment"
  | Some items =>
      put_store (mkBrowser (Some (<[storageKey userAddress := privateKey]> items))
                           (keys_drawn b) (approvals b))
  end.

End AgentStorage.

(** ** Agent provisioning: [agent-service] *)

Module AgentService.

Record PrivateKeyAccount : Type := mkAccount {
  account_address : string;
  account_privateKey : string
}.

Record ExtraAgent : Type := mkAgent {
  agent_address : string;
  agent_name : string;
  validUntil : Z
}.

(** [hl.InfoClient]: [extraAgents({user})] throws when the exchange cannot
    be reached, and otherwise yields the delegate list or nothing. *)
Record InfoClient : Type := mkInfo {
  extraAgents : string -> outcome (option (list ExtraAgent))
}.

(** [hl.ExchangeClient]: how [approveAgent({agentAddress, agentName})]
    settles. *)
Record ExchangeClient : Type := mkExchange {
  approveAgent : string -> string -> outcome unit
}.

Record AgentInitResult : Type := mkInit {
  agentAddress : string;
  initialized : bool
}.

Record InitializeAgentParams : Type := mkInitParams {
  userAddress : string;
  infoClient : option InfoClient;
  exchangeClient : option ExchangeClient;
  initExchangeClient : M Browser unit;
  initAgentClient : PrivateKeyAccount -> M Browser unit
}.

Section Service.
(** Modelled from the spec: [generateAgentWallet] of [lib/crypto/wallet],
    which is not among the sources: it "generates a fresh asymmetric
    keypair".  The private key of the n-th keypair drawn in this browser
    is [generateAgentWallet n]. *)
Variable generateAgentWallet : nat -> string.
(** viem's [privateKeyToAccount]: the address derived from the key; it
    throws on a key that is not 32 bytes of hex. *)
Variable privateKeyToAccount : string -> outcome string.

Definition draw_key : M Browser string :=
  let* b := get_store in
  do put_store (mkBrowser (localStorage b) (S (keys_drawn b)) (approvals b)) then
  ret (generateAgentWallet (keys_drawn b)).

Definition getOrCreateAgentPrivateKey (userAddress : string) : M Browser string :=
  let* existingKey := AgentStorage.getAgentPrivateKey userAddress in
  match truthy existingKey with
  | Some existingKey => ret existingKey
  | None =>
      let* privateKey := draw_key in
      do AgentStorage.saveAgentPrivateKey userAddress privateKey then
      ret privateKey
  end.

Definition createAgentAccount (privateKey : string) : M Browser PrivateKeyAccount :=
  let* address := await (privateKeyToAccount privateKey) in
  ret (mkAccount address privateKey).

Definition checkAgentApproval (infoClient : option InfoClient)
    (userAddress agentAddress : string) : M Browser bool :=
  match infoClient with
  | None => ret false
  | Some infoClient =>
      try_catch
        (let* resp := await (extraAgents infoClient userAddress) in
         match resp with
         | None => ret false
         | Some resp =>
             let found :=
               find (fun agent => String.eqb (agent_address agent) agentAddress) resp in
             ret (match found with Some _ => true | None => false end)
         end)
        (fun err =>
           do console_write ConsoleWarn ["Failed to check agent approval status:"; err] then
           ret false)
  end.

(** The submission of the authorization transaction is recorded before
    its settlement is known. *)
Definition submit_approval (client : ExchangeClient) (agentAddress agentName : string)
  : M Browser unit :=
  let* b := get_store in
  do put_store (mkBrowser (localStorage b) (keys_drawn b)
                          (approvals b ++ [(agentAddress, agentName)])%list) then
  await (approveAgent client agentAddress agentName).

Definition approveAgentIfNeeded (exchangeClient : option ExchangeClient)
    (agentAddress : string) (isApproved : bool) : M Browser unit :=
  if isApproved then
    console_write ConsoleLog ["Agent already approved, skipping approval step"]
  else
    match exchangeClient with
    | None => throw "Exchange client not initialized"
    | Some client =>
        try_catch
          (do submit_approval client agentAddress "EzDawg Agent" then
           console_write ConsoleLog ["Agent approved successfully"])
          (fun err =>
             console_write ConsoleWarn
               ["Agent approval failed (might already be approved):"; err])
    end.

(** The client handed on to step 5 is the one destructured from [params]
    on entry. *)
Definition initializeAgent (params : InitializeAgentParams) : M Browser AgentInitResult :=
  let* agentPrivateKey := getOrCreateAgentPrivateKey (userAddress params) in
  do (match exchangeClient params with
      | None => initExchangeClient params
      | Some _ => ret tt
      end) then
  let* agentAccount := createAgentAccount agentPrivateKey in
  let* isApproved :=
    checkAgentApproval (infoClient params) (userAddress params)
                       (account_address agentAccount) in
  do approveAgentIfNeeded (exchangeClient params) (account_address agentAccount)
                          isApproved then
  do initAgentClient params agentAccount then
  ret (mkInit (account_address agentAccount) true).
End Service.

End AgentService.

(** ** Sample inputs *)

Module Sample.

(** A database that accepts the 36-character form of a uuid in either
    case, numbers the ids it generates, and puts rows created at the same
    time in table order. *)
Definition pg : Db.Postgres :=
  Db.mkPostgres
    (fun n => ("5f0c2a9e-0000-4000-8000-00000000000"
                 ++ String (Ascii.ascii_of_nat (48 + n mod 10)) "")%string)
    (fun s => if Nat.eqb (String.length s) 36
              then Some (fold_left (fun v c => (256 * v + c)%N) (utf16 (lower s)) 0%N)
              else None)
    (fun _ _ _ => true).

Definition recover : list N -> string -> outcome string :=
  fun _ _ => Returns "0xA11CE".

Definition plan_id : string := "5f0c2a9e-0000-4000-8000-000000000001".
Definition other_plan_id : string := "5f0c2a9e-0000-4000-8000-000000000002".

Definition alice : Db.User := Db.mkUser "5f0c2a9e-0000-4000-8000-000000000000" "0xA11CE" 10.

Definition plan (status : Db.Status) (updated : Z) : Db.SIP :=
  Db.mkSIP plan_id (Db.u_id alice) "BTC" 3 (Db.Num 1500) status 20 updated.

Definition other_plan : Db.SIP :=
  Db.mkSIP other_plan_id (Db.u_id alice) "ETH" 4 (Db.Num 2000) Db.paused 25 25.

(** The server at time [now], holding Alice, her cancelled plan and a
    second plan of hers. *)
Definition server (now : Z) : Runtime Db.Database :=
  mkRuntime now [] (Db.mkDatabase [alice] [plan Db.cancelled 40; other_plan] 3 []).

(** A server with no user and no plan yet. *)
Definition fresh_server (now : Z) : Runtime Db.Database :=
  mkRuntime now [] (Db.mkDatabase [] [] 0 []).

(** The message a client signs at [nonce] to set plan [sipId] to [status]. *)
Definition update_message (nonce : Z) (sipId status : string) : list N :=
  SignatureVerify.createSignatureMessage nonce (utf16 "Update SIP")
    [(utf16 "sipId", utf16 sipId); (utf16 "status", utf16 status)].

(** A key generator and the address derivation, on made-up keys. *)
Definition generateAgentWallet (n : nat) : string :=
  ("0x4c0883a69102937d6231471b5dbb6204fe512961708279f2e3e8a5d4b8e3e3"
     ++ String (Ascii.ascii_of_nat (48 + n mod 10)) "0")%string.

Definition privateKeyToAccount (privateKey : string) : outcome string :=
  if Nat.eqb (String.length privateKey) 66 then Returns "0xA6E27" else
  Throws "invalid private key".

(** A browser with an empty local storage, and a process without
    [window]. *)
Definition browser : Runtime Browser := mkRuntime 0 [] (mkBrowser (Some ∅) 0 []).
Definition no_window : Runtime Browser := mkRuntime 0 [] (mkBrowser None 0 []).

(** An exchange that knows no delegate of anybody, one that accepts an
    approval and one that refuses it. *)
Definition info : AgentService.InfoClient :=
  AgentService.mkInfo (fun _ => Returns (Some [])).
Definition accepting : AgentService.ExchangeClient :=
  AgentService.mkExchange (fun _ _ => Returns tt).
Definition refusing : AgentService.ExchangeClient :=
  AgentService.mkExchange (fun _ _ => Throws "Extra agent already used").

(** The parameters of a cold start: the store has no exchange client yet,
    and [initExchangeClient] creates one in the store. *)
Definition cold_start : AgentService.InitializeAgentParams :=
  AgentService.mkInitParams "0xA11CE" (Some info) None (ret tt) (fun _ => ret tt).

End Sample.

(** ** The remaining queries of [db.service] *)

Module DbReads.

(** [.order('created_at', { ascending: false })]: [row] goes before the
    first row that is older than it, or that was created at the same time
    and that Postgres, for this query, puts after it. *)
Fixpoint insert_newest (first : Db.SIP -> Db.SIP -> bool) (row : Db.SIP)
    (sorted : list Db.SIP) : list Db.SIP :=
  match sorted with
  | [] => [row]
  | r :: rest =>
      if (Db.created_at r <? Db.created_at row)
         || ((Db.created_at r =? Db.created_at row) && first row r)
      then row :: sorted
      else r :: insert_newest first row rest
  end.

Definition newest_first (first : Db.SIP -> Db.SIP -> bool) (rows : list Db.SIP)
  : list Db.SIP :=
  fold_right (insert_newest first) [] rows.

Definition is_active (s : Db.Status) : bool :=
  match s with
  | Db.active => true
  | _ => false
  end.

Section Reads.
Variable pg : Db.Postgres.

(** [select('*').eq('user_id', userId).order(...)]; [user_id] is a uuid
    column, so a [userId] that is not a uuid is an error, and the rows
    selected are those whose [user_id] has the value of [userId]. *)
Definition getUserSIPs (userId : string) : M Db.Database (list Db.SIP) :=
  let* executed := Db.round_trip in
  if executed && Db.uuid_in pg userId then
    let* db := get_store in
    ret (newest_first (Db.comes_first pg Db.UserPlans)
           (List.filter (fun row => Db.same_uuid pg (Db.user_id row) userId) (Db.sips db)))
  else
    do console_write ConsoleError ["Failed to get user SIPs:"] then
    ret [].

Definition getActiveSIPs (userId : string) : M Db.Database (list Db.SIP) :=
  let* executed := Db.round_trip in
  if executed && Db.uuid_in pg userId then
    let* db := get_store in
    ret (newest_first (Db.comes_first pg Db.ActivePlans)
           (List.filter (fun row => is_active (Db.status row))
              (List.filter (fun row => Db.same_uuid pg (Db.user_id row) userId)
                           (Db.sips db))))
  else
    do console_write ConsoleError ["Failed to get active SIPs:"] then
    ret [].
End Reads.

(** What the [sips] migration guarantees of every stored row, given the
    rows of [users]. *)
Definition row_ok (pg : Db.Postgres) (users : list Db.User) (row : Db.SIP) : Prop :=
  (exists u, In u users /\ Db.same_uuid pg (Db.u_id u) (Db.user_id row) = true)
  /\ - 2 ^ 31 <= Db.asset_index row < 2 ^ 31
  /\ exists q, Db.monthly_amount_usdc row = Db.Num q /\ Qle_bool 1000 q = true.

Definition constraints_hold (pg : Db.Postgres) (db : Db.Database) : Prop :=
  Forall (row_ok pg (Db.users db)) (Db.sips db).

End DbReads.

(** ** The remaining operations of [sip.service] *)

Module SipReads.
Section Service.
Variable pg : Db.Postgres.

Definition getUserSIPs (walletAddress : string) : M Db.Database (list Db.SIP) :=
  let* user := Db.getUserByWallet pg walletAddress in
  match user with
  | None => ret []
  | Some user => DbReads.getUserSIPs pg (Db.u_id user)
  end.

Definition getActiveSIPs (walletAddress : string) : M Db.Database (list Db.SIP) :=
  let* user := Db.getUserByWallet pg walletAddress in
  match user with
  | None => ret []
  | Some user => DbReads.getActiveSIPs pg (Db.u_id user)
  end.
End Service.
End SipReads.

(** ** The other handlers of [/api/sip] *)

Module RouteMore.

Record PostBody : Type := mkPost {
  assetName : option string;
  assetIndex : option Z;
  monthlyAmountUsdc : option Db.number;
  message : option (list N);
  signature : option string
}.

(** [x] where a number-or-absent value is tested for truth: zero and [NaN]
    are false. *)
Definition truthy_number (x : option Db.number) : option Db.number :=
  match x with
  | Some (Db.Num q) => if Qeq_bool q 0 then None else x
  | Some Db.NaN => None
  | _ => x
  end.

Inductive GetJson : Type :=
| GetError (error : option string)
| SipsJson (sips : list Db.SIP).

Record GetResponse : Type := mkGet {
  get_body : GetJson;
  get_status : Z
}.

(** [verifyResult.address!]: the address of a result that has one.  A
    valid result always has ([verifySignature] builds it with the recovered
    address); the empty text stands for the [undefined] that is never
    met. *)
Definition asserted (address : option string) : string :=
  match address with
  | Some a => a
  | None => ""
  end.

Section Handlers.
Variable pg : Db.Postgres.
Variable recoverMessageAddress : list N -> string -> outcome string.

(** [request] is the settlement of [request.json()]. *)
Definition POST (request : outcome PostBody) : M Db.Database Route.NextResponse :=
  try_catch
    (let* json := await request in
     match truthy (assetName json), assetIndex json, truthy_number (monthlyAmountUsdc json),
           truthy_text (message json), truthy (signature json) with
     | Some assetName, Some assetIndex, Some monthlyAmountUsdc,
       Some message, Some signature =>
         let* verifyResult :=
           SignatureVerify.verifySignature recoverMessageAddress message signature in
         if negb (SignatureVerify.valid verifyResult) then
           ret (Route.mkResponse
                  (Route.ErrorJson
                     (Some (Route.or_else (SignatureVerify.error verifyResult)
                                          "Invalid signature")))
                  401)
         else
           let walletAddress := asserted (SignatureVerify.address verifyResult) in
           let* result :=
             SipService.createSIP pg
               (SipService.mkParams walletAddress assetName assetIndex
                                    monthlyAmountUsdc) in
           if negb (SipService.success result) then
             ret (Route.mkResponse (Route.ErrorJson (SipService.error result)) 500)
           else
             ret (Route.mkResponse (Route.ResultJson result) 200)
     | _, _, _, _, _ =>
         ret (Route.mkResponse (Route.ErrorJson (Some "Missing required fields")) 400)
     end)
    (fun err =>
       do console_write ConsoleError ["SIP creation error:"; err] then
       ret (Route.mkResponse
              (Route.ErrorJson (Some (Route.or_else (Some err) "Internal server error")))
              500)).

(** [walletAddress] is [request.nextUrl.searchParams.get('walletAddress')]. *)
Definition GET (walletAddress : option string) : M Db.Database GetResponse :=
  try_catch
    (match truthy walletAddress with
     | None => ret (mkGet (GetError (Some "Wallet address required")) 400)
     | Some walletAddress =>
         let* sips := SipReads.getUserSIPs pg walletAddress in
         ret (mkGet (SipsJson sips) 200)
     end)
    (fun err =>
       do console_write ConsoleError ["Get SIPs error:"; err] then
       ret (mkGet (GetError (Some (Route.or_else (Some err) "Internal server error"))) 500)).
End Handlers.

End RouteMore.

(** ** The client side of the plan API: [lib/hyperliquid/sip-service] *)

Module SipClient.

(** Whether the literal [Nonce:] occurs in a text. *)
Fixpoint has_literal (s : list N) : bool :=
  match strip_prefix (utf16 "Nonce:") s with
  | Some _ => true
  | None =>
      match s with
      | [] => false
      | _ :: rest => has_literal rest
      end
  end.

(** The first two lines of the message signed for a status update. *)
Definition update_header (sipId : string) (status : Db.Status) : list N :=
  (utf16 "Update SIP" ++ newline
     ++ SignatureVerify.join (utf16 ", ")
          [(utf16 "sipId" ++ utf16 ": " ++ utf16 sipId)%list;
           (utf16 "status" ++ utf16 ": " ++ utf16 (Db.status_text status))%list])%list.

Section Client.
Context {S : Type}.
(** [fetch('/api/sip', {method: 'PATCH', ...})] as the client sees it: the
    response of the server to the body, or a network error. *)
Variable fetch : Route.PatchBody -> outcome Route.NextResponse.
(** The wallet's [signMessage]; it throws when the user declines. *)
Variable signMessage : list N -> outcome string.

(** [response.ok]: a status from 200 to 299. *)
Definition ok (response : Route.NextResponse) : bool :=
  (200 <=? Route.http_status response) && (Route.http_status response <=? 299).

(** [createSignatureMessage] of this file is the one of
    [signature-verify], word for word. *)
Definition updateSIPStatus (sipId : string) (status : Db.Status)
  : M S SipService.SIPResult :=
  try_catch
    (let* nonce := Date_now in
     let message :=
       SignatureVerify.createSignatureMessage nonce (utf16 "Update SIP")
         [(utf16 "sipId", utf16 sipId);
          (utf16 "status", utf16 (Db.status_text status))] in
     let* signature := await (signMessage message) in
     let* response :=
       await (fetch (Route.mkPatch (Some sipId) (Some (Db.status_text status))
                                   (Some message) (Some signature))) in
     match Route.body response with
     | Route.ErrorJson error =>
         ret (SipService.mkResult false None None
                (if ok response then error
                 else Some (Route.or_else error "Failed to update SIP")))
     | Route.ResultJson result =>
         if ok response then ret result
         else ret (SipService.mkResult false None None
                     (Some (Route.or_else (SipService.error result)
                                          "Failed to update SIP")))
     end)
    (fun err =>
       do console_write ConsoleError ["Update SIP error:"; err] then
       ret (SipService.mkResult false None None
              (Some (Route.or_else (Some err) "Failed to update SIP")))).
End Client.

End SipClient.

(** ** The rest of [agent-storage] *)

Module AgentStorageMore.

Definition removeAgentPrivateKey (userAddress : string) : M Browser unit :=
  let* b := get_store in
  match localStorage b with
  | None => ret tt
  | Some items =>
      put_store (mkBrowser (Some (delete (AgentStorage.storageKey userAddress) items))
                           (keys_drawn b) (approvals b))
  end.

Definition hasAgentPrivateKey (userAddress : string) : M Browser bool :=
  let* key := AgentStorage.getAgentPrivateKey userAddress in
  ret (match key with Some _ => true | None => false end).

End AgentStorageMore.

(** ** The query hooks: [lib/hyperliquid/hooks] *)

Module Hooks.

(** [retryDelay] of [useInitializeAgent]:
    [Math.min(1000 * 2 ** attemptIndex, 30000)]. *)
Definition retryDelay (attemptIndex : nat) : Z :=
  Z.min (1000 * 2 ^ Z.of_nat attemptIndex) 30000.

(** The query function of [useGetAgentStatus]; [address] is the connected
    wallet, if any.  Nothing is caught here. *)
Definition agentStatus (infoClient : option AgentService.InfoClient)
    (address agentAddress : option string) : M Browser bool :=
  match truthy address, truthy agentAddress, infoClient with
  | Some address, Some agentAddress, Some infoClient =>
      let* resp := await (AgentService.extraAgents infoClient address) in
      match resp with
      | None => ret false
      | Some resp =>
          let found :=
            find (fun agent => String.eqb (AgentService.agent_address agent) agentAddress)
                 resp in
          ret (match found with Some _ => true | None => false end)
      end
  | _, _, _ => ret false
  end.

End Hooks.

(** ** The agent wallets of [db.service] *)

Module AgentWallets.

Record AgentWallet : Type := mkWallet {
  id : string;
  user_id : string;
  agent_address : string;
  encrypted_private_key : string;
  approved : bool;
  created_at : Z
}.

(** The database with its third table. *)
Record Vault : Type := mkVault {
  base : Db.Database;
  agent_wallets : list AgentWallet
}.

(** A computation on the other tables, run on the whole database. *)
Definition on_base {A} (c : M Db.Database A) : M Vault A :=
  fun w =>
    match c (mkRuntime (clock w) (console w) (base (store w))) with
    | (o, w') =>
        (o, mkRuntime (clock w') (console w')
              (mkVault (store w') (agent_wallets (store w))))
    end.

Section Queries.
Variable pg : Db.Postgres.
(** Modelled from the spec: the constraints of the [agent_wallets] table,
    whose migration is not among the sources ("AgentWallet: one-to-one with
    User"): whether the table, as it stands, takes a new row.  Its
    [user_id] column is taken to be a uuid, as that of [sips] is, and is
    compared by value. *)
Variable agent_wallets_accepts : list AgentWallet -> AgentWallet -> bool.

(** [.single()] is an error unless exactly one row is selected. *)
Definition single {A} (rows : list A) : option A :=
  match rows with
  | [row] => Some row
  | _ => None
  end.

Definition getAgentWallet (userId : string) : M Vault (option AgentWallet) :=
  let* executed := on_base Db.round_trip in
  if executed && Db.uuid_in pg userId then
    let* v := get_store in
    ret (single (List.filter (fun row => Db.same_uuid pg (user_id row) userId)
                             (agent_wallets v)))
  else ret None.

Definition createAgentWallet (userId agentAddress encryptedPrivateKey : string)
  : M Vault (option AgentWallet) :=
  let* executed := on_base Db.round_trip in
  let* v := get_store in
  let* now := Date_now in
  let data := mkWallet (Db.gen_random_uuid pg (Db.uuids_issued (base v))) userId
                       agentAddress encryptedPrivateKey false now in
  if executed && agent_wallets_accepts (agent_wallets v) data then
    do put_store
         (mkVault (Db.mkDatabase (Db.users (base v)) (Db.sips (base v))
                                 (S (Db.uuids_issued (base v))) (Db.outages (base v)))
                  (agent_wallets v ++ [data])%list) then
    ret (Some data)
  else
    do console_write ConsoleError ["Failed to create agent wallet:"] then
    ret None.

Definition set_approved (userId : string) (value : bool) (row : AgentWallet) : AgentWallet :=
  if Db.same_uuid pg (user_id row) userId then
    mkWallet (id row) (user_id row) (agent_address row) (encrypted_private_key row)
             value (created_at row)
  else row.

Definition updateAgentApproval (userId : string) (value : bool) : M Vault bool :=
  let* executed := on_base Db.round_trip in
  if executed && Db.uuid_in pg userId then
    let* v := get_store in
    do put_store (mkVault (base v) (map (set_approved userId value) (agent_wallets v))) then
    ret true
  else
    do console_write ConsoleError ["Failed to update agent approval:"] then
    ret false.

Definition getAgentPrivateKey (userId : string) : M Vault (option string) :=
  let* agentWallet := getAgentWallet userId in
  match agentWallet with
  | None => ret None
  | Some agentWallet => ret (Some (encrypted_private_key agentWallet))
  end.
End Queries.

End AgentWallets.

(** ** More sample inputs *)

Module Scenario.

(** A wallet that signs anything, and one whose user declines. *)
Definition signMessage : list N -> outcome string := fun _ => Returns "0x5160".
Definition declined : list N -> outcome string :=
  fun _ => Throws "User rejected the request".

(** The network between Alice's browser and a server at time [now] whose
    database is in the state of [Sample.server]. *)
Definition fetch (now : Z) (request : Route.PatchBody) : outcome Route.NextResponse :=
  fst (Route.PATCH Sample.pg Sample.recover (Returns request) (Sample.server now)).

(** Alice's browser at time [now]. *)
Definition browser (now : Z) : Runtime Browser :=
  mkRuntime now [] (mkBrowser (Some ∅) 0 []).

(** An exchange on which Alice has already made the sample agent her
    delegate. *)
Definition approving_info : AgentService.InfoClient :=
  AgentService.mkInfo (fun _ => Returns (Some [AgentService.mkAgent "0xA6E27" "EzDawg Agent" 0])).

(** A vault with Alice and no agent wallet, and a table that takes one
    wallet per user. *)
Definition vault (now : Z) : Runtime AgentWallets.Vault :=
  mkRuntime now []
    (AgentWallets.mkVault (Db.mkDatabase [Sample.alice] [] 1 []) []).

(** A start at which the agent is already approved and the store has no
    exchange client, and a start with a client whose approval is refused. *)
Definition approved_start : AgentService.InitializeAgentParams :=
  AgentService.mkInitParams "0xA11CE" (Some approving_info) None (ret tt) (fun _ => ret tt).

Definition refused_start : AgentService.InitializeAgentParams :=
  AgentService.mkInitParams "0xA11CE" (Some Sample.info) (Some Sample.refusing) (ret tt)
                            (fun _ => ret tt).

(** Alice's browser once her agent key is drawn and stored. *)
Definition browser_with_key : Runtime Browser :=
  mkRuntime 0 []
    (mkBrowser
       (Some (<[AgentStorage.storageKey "0xA11CE" := Sample.generateAgentWallet 0]> ∅))
       1 []).

(** The message a client signs at [nonce] to create a plan. *)
Definition create_message (nonce : Z) (asset monthlyAmount : string) : list N :=
  SignatureVerify.createSignatureMessage nonce (utf16 "Create SIP")
    [(utf16 "asset", utf16 asset); (utf16 "monthlyAmount", utf16 monthlyAmount)].

(** Alice's agent wallet, not yet approved, and a vault that holds it. *)
Definition alice_wallet : AgentWallets.AgentWallet :=
  AgentWallets.mkWallet "5f0c2a9e-0000-4000-8000-000000000001" (Db.u_id Sample.alice)
                        "0xA6E27" "c1ph3r" false 70.

Definition vault_with_wallet (now : Z) : Runtime AgentWallets.Vault :=
  mkRuntime now []
    (AgentWallets.mkVault (Db.mkDatabase [Sample.alice] [] 2 []) [alice_wallet]).

Definition one_per_user (rows : list AgentWallets.AgentWallet)
    (row : AgentWallets.AgentWallet) : bool :=
  negb (existsb (fun r => Db.same_uuid Sample.pg (AgentWallets.user_id r)
                                         (AgentWallets.user_id row))
                rows).

End Scenario.

(** * Properties *)

(** ** The effect monad *)

Lemma bind_returns {S A B} (c : M S A) (k : A -> M S B) w a w' :
  c w = (Returns a, w') -> bind c k w = k a w'.
Proof. intros H. unfold bind. now rewrite H. Qed.

Lemma bind_throws {S A B} (c : M S A) (k : A -> M S B) w e w' :
  c w = (Throws e, w') -> bind c k w = (Throws e, w').
Proof. intros H. unfold bind. now rewrite H. Qed.

(** A [try] block whose handler cannot throw never throws. *)
Lemma try_catch_total {S A} (body : M S A) (handler : string -> M S A) w :
  (forall e w1, exists a w2, handler e w1 = (Returns a, w2)) ->
  exists a w2, try_catch body handler w = (Returns a, w2).
Proof.
  intros Hh. unfold try_catch. destruct (body w) as [[a|e] w1]; eauto.
Qed.

(** ** Scanning *)

Lemma strip_prefix_Some p s rest :
  strip_prefix p s = Some rest <-> s = (p ++ rest)%list.
Proof.
  revert s. induction p as [|a p IH]; intros s; simpl.
  - split; [now intros [= ->] | now intros ->].
  - destruct s as [|b s]; [split; discriminate|].
    destruct (N.eqb_spec a b) as [->|Hne].
    + rewrite IH. split; [now intros -> | now intros [= ->]].
    + split; [discriminate | intros [= -> _]; congruence].
Qed.

Lemma while_skip f s : s = (while_true f s ++ skip_while f s)%list.
Proof.
  induction s as [|c s IH]; simpl; [reflexivity|].
  destruct (f c); simpl; [now f_equal | reflexivity].
Qed.

Lemma while_true_forallb f s : forallb f (while_true f s) = true.
Proof.
  induction s as [|c s IH]; simpl; [reflexivity|].
  destruct (f c) eqn:E; simpl; [now rewrite E | reflexivity].
Qed.

Lemma skipped_forallb f s :
  exists ws, s = (ws ++ skip_while f s)%list /\ forallb f ws = true.
Proof.
  induction s as [|c s (ws & E & F)]; simpl.
  - now exists [].
  - destruct (f c) eqn:Ec.
    + exists (c :: ws). simpl. rewrite Ec, F. split; [now f_equal | reflexivity].
    + now exists [].
Qed.

Lemma skip_while_app f ws c rest :
  forallb f ws = true -> f c = false ->
  skip_while f (ws ++ c :: rest) = c :: rest.
Proof.
  induction ws as [|a ws IH]; simpl; intros Hws Hc.
  - now rewrite Hc.
  - apply andb_true_iff in Hws as [-> Hws]. now apply IH.
Qed.

Lemma digit_not_space c : is_digit c = true -> is_space c = false.
Proof.
  unfold is_digit, is_space. rewrite andb_true_iff, !N.leb_le. intros [Hlo Hhi].
  repeat match goal with
         | |- (_ || _)%bool = false => apply orb_false_intro
         | |- (_ =? _)%N = false => apply N.eqb_neq; lia
         | |- ((_ <=? _)%N && _)%bool = false => apply andb_false_iff
         end.
  - right. apply N.leb_gt. lia.
  - left. apply N.leb_gt. lia.
Qed.

(** ** Signature verification *)

Section SignatureFacts.
Import SignatureVerify.
Context {S : Type}.
Variable recover : list N -> string -> outcome string.

(** A match at the start of [s] reads the literal, white space and then
    the digits it captures. *)
Lemma nonce_here_Some s ds :
  nonce_here s = Some ds ->
  exists ws post,
    s = (utf16 "Nonce:" ++ ws ++ ds ++ post)%list
    /\ forallb is_space ws = true /\ forallb is_digit ds = true /\ ds <> [].
Proof.
  unfold nonce_here. destruct (strip_prefix _ s) as [rest|] eqn:Hp; [|discriminate].
  apply strip_prefix_Some in Hp.
  destruct (skipped_forallb is_space rest) as (ws & Hrest & Hws).
  pose proof (while_skip is_digit (skip_while is_space rest)) as Hsplit.
  pose proof (while_true_forallb is_digit (skip_while is_space rest)) as Hds.
  destruct (while_true is_digit (skip_while is_space rest)) as [|d ds'] eqn:Hw;
    [discriminate|].
  intros [= <-]. exists ws, (skip_while is_digit (skip_while is_space rest)).
  repeat split; [|assumption..|discriminate].
  rewrite Hp. f_equal. rewrite Hrest at 1. f_equal. exact Hsplit.
Qed.

(** Greedy scanning misses no match at the start of [s]. *)
Lemma nonce_here_complete ws ds post :
  forallb is_space ws = true -> forallb is_digit ds = true -> ds <> [] ->
  nonce_here (utf16 "Nonce:" ++ ws ++ ds ++ post)%list <> None.
Proof.
  intros Hws Hds Hne. unfold nonce_here.
  destruct (strip_prefix _ _) as [rest|] eqn:Hp.
  - apply strip_prefix_Some in Hp. apply app_inv_head in Hp. subst rest.
    destruct ds as [|d ds]; [congruence|]. simpl in Hds.
    apply andb_true_iff in Hds as [Hd _].
    change (ws ++ (d :: ds) ++ post)%list with (ws ++ d :: (ds ++ post))%list.
    rewrite skip_while_app by auto using digit_not_space.
    simpl. rewrite Hd. discriminate.
  - exfalso. assert (Some (ws ++ ds ++ post)%list = None) as E; [|discriminate E].
    rewrite <- Hp. symmetry. now apply strip_prefix_Some.
Qed.

Lemma nonceMatch_nil : nonceMatch [] = None.
Proof. reflexivity. Qed.

Lemma nonceMatch_cons c message :
  nonceMatch (c :: message) =
  match nonce_here (c :: message) with
  | Some ds => Some ds
  | None => nonceMatch message
  end.
Proof. reflexivity. Qed.

Lemma nonceMatch_Some message ds :
  nonceMatch message = Some ds ->
  exists pre rest, message = (pre ++ rest)%list /\ nonce_here rest = Some ds.
Proof.
  induction message as [|c message IH].
  - rewrite nonceMatch_nil. discriminate.
  - rewrite nonceMatch_cons. destruct (nonce_here (c :: message)) eqn:E.
    + intros [= ->]. now exists [], (c :: message).
    + intros H. destruct (IH H) as (pre & rest & -> & Hr).
      now exists (c :: pre), rest.
Qed.

Lemma nonceMatch_app pre rest :
  nonce_here rest <> None -> nonceMatch (pre ++ rest)%list <> None.
Proof.
  intros Hr. induction pre as [|c pre IH].
  - destruct rest as [|c rest]; [now contradict Hr|].
    change ([] ++ c :: rest)%list with (c :: rest). rewrite nonceMatch_cons.
    destruct (nonce_here (c :: rest)); congruence.
  - change ((c :: pre) ++ rest)%list with (c :: (pre ++ rest))%list.
    rewrite nonceMatch_cons.
    destruct (nonce_here (c :: pre ++ rest)); [discriminate | exact IH].
Qed.

(** [message.match] is [null] exactly on the messages that contain no
    match of the pattern. *)
Lemma nonceMatch_None_iff message :
  nonceMatch message = None <-> ~ contains_nonce_pattern message.
Proof.
  split.
  - intros Hnone (pre & ws & ds & post & -> & Hws & Hds & Hne).
    apply (nonceMatch_app pre (utf16 "Nonce:" ++ ws ++ ds ++ post)%list); [|exact Hnone].
    now apply nonce_here_complete.
  - intros Hno. destruct (nonceMatch message) as [ds|] eqn:E; [|reflexivity].
    exfalso. apply Hno. apply nonceMatch_Some in E as (pre & rest & -> & Hr).
    apply nonce_here_Some in Hr as (ws & post & -> & Hws & Hds & Hne).
    now exists pre, ws, ds, post.
Qed.

(** The capture group is a non-empty string of digits. *)
Lemma nonceMatch_digits message ds :
  nonceMatch message = Some ds -> forallb is_digit ds = true /\ ds <> [].
Proof.
  intros H. apply nonceMatch_Some in H as (pre & rest & _ & Hr).
  apply nonce_here_Some in Hr as (ws & post & _ & _ & Hds & Hne). now split.
Qed.

(** [verifySignature], step by step. *)
Lemma verifySignature_run message signature (w : Runtime S) :
  verifySignature recover message signature w =
  match nonceMatch message with
  | None => (Returns (mkVerify false None (Some "Message missing nonce")), w)
  | Some digits =>
      if clock w - parseInt digits >? SIGNATURE_EXPIRY_MS then
        (Returns (mkVerify false None (Some "Signature expired")), w)
      else if clock w - parseInt digits <? -5000 then
        (Returns (mkVerify false None (Some "Invalid nonce timestamp")), w)
      else
        match recover message signature with
        | Returns a => (Returns (mkVerify true (Some a) None), w)
        | Throws e =>
            (Returns (mkVerify false None (Some "Signature verification failed")),
             mkRuntime (clock w)
                       (console w ++ [(ConsoleError, ["Signature verification error:"; e])])
                       (store w))
        end
  end.
Proof.
  unfold verifySignature, try_catch. destruct (nonceMatch message) as [digits|];
    [|reflexivity].
  unfold bind, Date_now, ret, await, console_write.
  destruct (clock w - parseInt digits >? SIGNATURE_EXPIRY_MS); [reflexivity|].
  destruct (clock w - parseInt digits <? -5000); [reflexivity|].
  destruct (recover message signature); reflexivity.
Qed.

(** A message without a match of the pattern is answered with the
    missing-nonce error, whatever the clock and the signature. *)
Lemma verifySignature_missing_nonce message signature (w : Runtime S) :
  ~ contains_nonce_pattern message ->
  verifySignature recover message signature w =
  (Returns (mkVerify false None (Some "Message missing nonce")), w).
Proof.
  intros H. apply nonceMatch_None_iff in H. now rewrite verifySignature_run, H.
Qed.

(** A valid answer requires a nonce within the window and a recovered
    address. *)
Lemma verifySignature_valid_inv message signature (w : Runtime S) r w' :
  verifySignature recover message signature w = (Returns r, w') ->
  valid r = true ->
  w' = w /\ exists a, recover message signature = Returns a
                      /\ r = mkVerify true (Some a) None.
Proof.
  rewrite verifySignature_run. destruct (nonceMatch message) as [digits|].
  - destruct (_ >? _); [intros [= <- <-]; discriminate|].
    destruct (_ <? _); [intros [= <- <-]; discriminate|].
    destruct (recover message signature) as [a|e]; intros [= <- <-]; [|discriminate].
    intros _. split; [reflexivity|]. now exists a.
  - intros [= <- <-]. discriminate.
Qed.
End SignatureFacts.

Section SignatureClaims.
Import SignatureVerify.
Context {S : Type}.
Variable recover : list N -> string -> outcome string.

(** C3.  With [age = now - nonce] for the nonce [verifySignature] extracts:
    when [age > 60000] the answer is the expiry error, and nothing else
    happens; when [age = 60000] the answer is not the expiry error: it is
    valid exactly when the address recovery succeeds. *)
Theorem verifySignature_expiry_window message signature (w : Runtime S) digits :
  nonceMatch message = Some digits ->
  (clock w - parseInt digits > 60000 ->
   verifySignature recover message signature w =
   (Returns (mkVerify false None (Some "Signature expired")), w))
  /\ (clock w - parseInt digits = 60000 ->
      exists r w',
        verifySignature recover message signature w = (Returns r, w')
        /\ error r <> Some "Signature expired"
        /\ (valid r = true <-> exists a, recover message signature = Returns a)).
Proof.
  intros Hm. rewrite verifySignature_run, Hm. unfold SIGNATURE_EXPIRY_MS. split.
  - intros Hage. destruct (Z.gtb_spec (clock w - parseInt digits) 60000); [reflexivity|lia].
  - intros ->. cbn [Z.gtb Z.ltb Z.compare Pos.compare Pos.compare_cont].
    destruct (recover message signature) as [a|e]; eexists _, _;
      (split; [reflexivity|]); (split; [discriminate|]); cbn.
    + split; eauto.
    + split; [discriminate | intros [a [=]]].
Qed.

(** C4.  When [age < -5000] the answer is the future-nonce error; when
    [age = -4999] neither freshness check rejects and the answer is valid
    exactly when the address recovery succeeds; and the future-nonce error
    is only ever given for an age that the expiry check, which comes
    first, has let through. *)
Theorem verifySignature_future_nonce message signature (w : Runtime S) digits :
  nonceMatch message = Some digits ->
  (clock w - parseInt digits < -5000 ->
   verifySignature recover message signature w =
   (Returns (mkVerify false None (Some "Invalid nonce timestamp")), w))
  /\ (clock w - parseInt digits = -4999 ->
      exists r w',
        verifySignature recover message signature w = (Returns r, w')
        /\ error r <> Some "Signature expired"
        /\ error r <> Some "Invalid nonce timestamp"
        /\ (valid r = true <-> exists a, recover message signature = Returns a))
  /\ (forall r w',
        verifySignature recover message signature w = (Returns r, w') ->
        error r = Some "Invalid nonce timestamp" ->
        ~ clock w - parseInt digits > SIGNATURE_EXPIRY_MS
        /\ clock w - parseInt digits < -5000).
Proof.
  intros Hm. rewrite verifySignature_run, Hm. unfold SIGNATURE_EXPIRY_MS.
  split; [|split].
  - intros Hage.
    destruct (Z.gtb_spec (clock w - parseInt digits) 60000); [lia|].
    destruct (Z.ltb_spec (clock w - parseInt digits) (-5000)); [reflexivity|lia].
  - intros ->. cbn [Z.gtb Z.ltb Z.compare Pos.compare Pos.compare_cont].
    destruct (recover message signature) as [a|e]; eexists _, _;
      (split; [reflexivity|]); (split; [discriminate|]);
      (split; [discriminate|]); cbn.
    + split; eauto.
    + split; [discriminate | intros [a [=]]].
  - intros r w'.
    destruct (Z.gtb_spec (clock w - parseInt digits) 60000);
      [intros [= <- <-]; discriminate|].
    destruct (Z.ltb_spec (clock w - parseInt digits) (-5000)).
    + intros _ _. split; lia.
    + destruct (recover message signature); intros [= <- <-]; discriminate.
Qed.

(** C10.  For every message and signature [verifySignature] returns a
    result and does not throw; if the address recovery throws the result
    is not valid, and it is the verification-failed result whenever the
    nonce is within the window, so that the recovery is attempted; a valid
    result carries an address, which is the address that the recovery has
    returned for this message and this signature. *)
Theorem verifySignature_total message signature (w : Runtime S) :
  exists r w',
    verifySignature recover message signature w = (Returns r, w')
    /\ (valid r = true ->
        exists a, recover message signature = Returns a /\ address r = Some a)
    /\ (forall e, recover message signature = Throws e ->
          valid r = false
          /\ forall digits,
               nonceMatch message = Some digits ->
               -5000 <= clock w - parseInt digits <= SIGNATURE_EXPIRY_MS ->
               r = mkVerify false None (Some "Signature verification failed")).
Proof.
  rewrite verifySignature_run. unfold SIGNATURE_EXPIRY_MS.
  destruct (nonceMatch message) as [digits|].
  - destruct (Z.gtb_spec (clock w - parseInt digits) 60000).
    { eexists _, _. split; [reflexivity|]. split; [discriminate|].
      intros e _. split; [reflexivity|]. intros d [= <-]. lia. }
    destruct (Z.ltb_spec (clock w - parseInt digits) (-5000)).
    { eexists _, _. split; [reflexivity|]. split; [discriminate|].
      intros e _. split; [reflexivity|]. intros d [= <-]. lia. }
    destruct (recover message signature) as [a|e].
    + eexists _, _. split; [reflexivity|]. split; [now exists a|]. discriminate.
    + eexists _, _. split; [reflexivity|]. split; [discriminate|].
      intros e' _. split; reflexivity.
  - eexists _, _. split; [reflexivity|]. split; [discriminate|].
    intros e _. split; [reflexivity|]. discriminate.
Qed.
End SignatureClaims.

(** C2.  The message [createSignatureMessage] builds at 1700000000000 ms
    for the update of a plan whose id is the text [Nonce: 1] ends with the
    line [Nonce: 1700000000000], whose integer is 1700000000000; yet the
    nonce [verifySignature] extracts is 1, the first match: verified at the
    very millisecond of signing, the message is answered with the expiry
    error. *)
Theorem verifySignature_reads_first_nonce
    (recover : list N -> string -> outcome string) (signature : string) :
  let message :=
    SignatureVerify.createSignatureMessage 1700000000000 (utf16 "Update SIP")
      [(utf16 "sipId", utf16 "Nonce: 1"); (utf16 "status", utf16 "active")] in
  let w := mkRuntime 1700000000000 [] tt in
  SignatureVerify.final_line message = utf16 "Nonce: 1700000000000"
  /\ option_map SignatureVerify.parseInt
       (SignatureVerify.nonceMatch (SignatureVerify.final_line message))
     = Some 1700000000000
  /\ option_map SignatureVerify.parseInt (SignatureVerify.nonceMatch message) = Some 1
  /\ SignatureVerify.verifySignature recover message signature w =
     (Returns (SignatureVerify.mkVerify false None (Some "Signature expired")), w).
Proof.
  intros message w. split; [|split; [|split]].
  - vm_compute. reflexivity.
  - vm_compute. reflexivity.
  - vm_compute. reflexivity.
  - rewrite verifySignature_run.
    replace (SignatureVerify.nonceMatch message) with (Some (utf16 "1"))
      by (vm_compute; reflexivity).
    reflexivity.
Qed.

(** Witness for C3: a nonce of 1000 read at 61001 ms and at 61000 ms. *)
Lemma verifySignature_expiry_window_witness :
  SignatureVerify.verifySignature Sample.recover
    (Sample.update_message 1000 Sample.plan_id "paused") "0x5160" (mkRuntime 61001 [] tt) =
  (Returns (SignatureVerify.mkVerify false None (Some "Signature expired")),
   mkRuntime 61001 [] tt)
  /\ exists r w',
       SignatureVerify.verifySignature Sample.recover
         (Sample.update_message 1000 Sample.plan_id "paused") "0x5160"
         (mkRuntime 61000 [] tt)
       = (Returns r, w')
       /\ SignatureVerify.error r <> Some "Signature expired"
       /\ (SignatureVerify.valid r = true <->
           exists a, Sample.recover (Sample.update_message 1000 Sample.plan_id "paused")
                                    "0x5160" = Returns a).
Proof.
  split.
  - apply (proj1 (verifySignature_expiry_window Sample.recover
                    (Sample.update_message 1000 Sample.plan_id "paused") "0x5160"
                    (mkRuntime 61001 [] tt) (utf16 "1000") eq_refl)).
    reflexivity.
  - apply (proj2 (verifySignature_expiry_window Sample.recover
                    (Sample.update_message 1000 Sample.plan_id "paused") "0x5160"
                    (mkRuntime 61000 [] tt) (utf16 "1000") eq_refl)).
    reflexivity.
Defined.

(** Witness for C4: a nonce of 100000 read 5001 ms and 4999 ms early. *)
Lemma verifySignature_future_nonce_witness :
  SignatureVerify.verifySignature Sample.recover
    (Sample.update_message 100000 Sample.plan_id "paused") "0x5160" (mkRuntime 94999 [] tt) =
  (Returns (SignatureVerify.mkVerify false None (Some "Invalid nonce timestamp")),
   mkRuntime 94999 [] tt)
  /\ exists r w',
       SignatureVerify.verifySignature Sample.recover
         (Sample.update_message 100000 Sample.plan_id "paused") "0x5160"
         (mkRuntime 95001 [] tt)
       = (Returns r, w')
       /\ SignatureVerify.error r <> Some "Signature expired"
       /\ SignatureVerify.error r <> Some "Invalid nonce timestamp"
       /\ (SignatureVerify.valid r = true <->
           exists a, Sample.recover (Sample.update_message 100000 Sample.plan_id "paused")
                                    "0x5160" = Returns a).
Proof.
  split.
  - apply (proj1 (verifySignature_future_nonce Sample.recover
                    (Sample.update_message 100000 Sample.plan_id "paused") "0x5160"
                    (mkRuntime 94999 [] tt) (utf16 "100000") eq_refl)).
    reflexivity.
  - apply (proj1 (proj2 (verifySignature_future_nonce Sample.recover
                           (Sample.update_message 100000 Sample.plan_id "paused") "0x5160"
                           (mkRuntime 95001 [] tt) (utf16 "100000") eq_refl))).
    reflexivity.
Defined.

(** ** The plan store and the plan service *)

Section PlanFacts.
Variable pg : Db.Postgres.

Lemma round_trip_run (w : Runtime Db.Database) :
  Db.round_trip w =
  (Returns (negb (hd false (Db.outages (store w)))),
   mkRuntime (clock w) (console w)
     (Db.mkDatabase (Db.users (store w)) (Db.sips (store w))
                    (Db.uuids_issued (store w)) (tl (Db.outages (store w))))).
Proof. reflexivity. Qed.

(** [db.updateSIPStatus], step by step: the current status of the row is
    never read. *)
Lemma db_updateSIPStatus_run sipId status (w : Runtime Db.Database) :
  Db.updateSIPStatus pg sipId status w =
  if negb (hd false (Db.outages (store w))) && Db.uuid_in pg sipId then
    (Returns true,
     mkRuntime (clock w) (console w)
       (Db.mkDatabase (Db.users (store w))
          (map (Db.apply_update pg sipId status (clock w)) (Db.sips (store w)))
          (Db.uuids_issued (store w)) (tl (Db.outages (store w)))))
  else
    (Returns false,
     mkRuntime (clock w) (console w ++ [(ConsoleError, ["Failed to update SIP status:"])])
       (Db.mkDatabase (Db.users (store w)) (Db.sips (store w))
                      (Db.uuids_issued (store w)) (tl (Db.outages (store w))))).
Proof.
  unfold Db.updateSIPStatus, bind, Date_now. rewrite round_trip_run.
  destruct (negb (hd false (Db.outages (store w))) && Db.uuid_in pg sipId); reflexivity.
Qed.

(** Ids are compared by value: a uuid is the same as itself, and the
    comparison is symmetric and transitive. *)
Lemma same_uuid_refl s : Db.uuid_in pg s = true -> Db.same_uuid pg s s = true.
Proof.
  unfold Db.uuid_in, Db.same_uuid. destruct (Db.uuid_value pg s); [|discriminate].
  intros _. apply N.eqb_refl.
Qed.

Lemma same_uuid_sym a b : Db.same_uuid pg a b = Db.same_uuid pg b a.
Proof.
  unfold Db.same_uuid. destruct (Db.uuid_value pg a), (Db.uuid_value pg b); auto.
  apply N.eqb_sym.
Qed.

Lemma same_uuid_trans a b c :
  Db.same_uuid pg a b = true -> Db.same_uuid pg b c = true -> Db.same_uuid pg a c = true.
Proof.
  unfold Db.same_uuid.
  destruct (Db.uuid_value pg a), (Db.uuid_value pg b), (Db.uuid_value pg c);
    try discriminate.
  intros H1%N.eqb_eq H2%N.eqb_eq. apply N.eqb_eq. congruence.
Qed.

Lemma same_uuid_in a b :
  Db.same_uuid pg a b = true -> Db.uuid_in pg a = true /\ Db.uuid_in pg b = true.
Proof.
  unfold Db.same_uuid, Db.uuid_in.
  destruct (Db.uuid_value pg a), (Db.uuid_value pg b); try discriminate. auto.
Qed.

Lemma updateSIPStatus_run sipId status (w : Runtime Db.Database) :
  SipService.updateSIPStatus pg sipId status w =
  match Db.updateSIPStatus pg sipId status w with
  | (Returns true, w') =>
      (Returns (SipService.mkResult true None
                  (Some ("SIP " ++ match status with
                                   | Db.active => "resumed"
                                   | _ => Db.status_text status
                                   end)%string) None), w')
  | (Returns false, w') => (Returns (SipService.failure "Failed to update SIP status"), w')
  | (Throws e, w') => (Throws e, w')
  end.
Proof.
  unfold SipService.updateSIPStatus, bind.
  destruct (Db.updateSIPStatus pg sipId status w) as [[[|]|e] w']; reflexivity.
Qed.

(** A row with the id of the request carries the requested status after
    the update; any other row is left as it was. *)
Lemma apply_update_hit sipId status now row :
  Db.id row = sipId ->
  Db.uuid_in pg sipId = true ->
  Db.status (Db.apply_update pg sipId status now row) = status
  /\ Db.id (Db.apply_update pg sipId status now row) = sipId.
Proof.
  intros <- Huuid. unfold Db.apply_update. now rewrite same_uuid_refl.
Qed.

Lemma apply_update_same sipId status now row :
  Db.same_uuid pg (Db.id row) sipId = true ->
  Db.apply_update pg sipId status now row =
  Db.mkSIP (Db.id row) (Db.user_id row) (Db.asset_name row) (Db.asset_index row)
           (Db.monthly_amount_usdc row) status (Db.created_at row) now.
Proof. intros H. unfold Db.apply_update. now rewrite H. Qed.

Lemma apply_update_miss sipId status now row :
  Db.same_uuid pg (Db.id row) sipId = false ->
  Db.apply_update pg sipId status now row = row.
Proof. intros H. unfold Db.apply_update. now rewrite H. Qed.

(** The update of one row, with the comparison of the ids written out. *)
Lemma apply_update_by_value sipId status now row :
  Db.apply_update pg sipId status now row =
  match Db.uuid_value pg (Db.id row), Db.uuid_value pg sipId with
  | Some x, Some y =>
      if (x =? y)%N
      then Db.mkSIP (Db.id row) (Db.user_id row) (Db.asset_name row) (Db.asset_index row)
                    (Db.monthly_amount_usdc row) status (Db.created_at row) now
      else row
  | _, _ => row
  end.
Proof.
  unfold Db.apply_update, Db.same_uuid.
  destruct (Db.uuid_value pg (Db.id row)), (Db.uuid_value pg sipId); reflexivity.
Qed.

Lemma apply_update_id sipId status now row :
  Db.id (Db.apply_update pg sipId status now row) = Db.id row.
Proof. unfold Db.apply_update. now destruct (Db.same_uuid pg (Db.id row) sipId). Qed.

(** C1, as the service implements it.  Whatever the current status of a
    plan, [cancelled] included, a transition request that the database
    executes succeeds, and afterwards every plan with the id of the
    request has the requested status. *)
Theorem updateSIPStatus_overwrites_any_status sipId target row
    (w : Runtime Db.Database) :
  In row (Db.sips (store w)) ->
  Db.id row = sipId ->
  hd false (Db.outages (store w)) = false ->
  Db.uuid_in pg sipId = true ->
  exists r w',
    SipService.updateSIPStatus pg sipId target w = (Returns r, w')
    /\ SipService.success r = true
    /\ In (Db.apply_update pg sipId target (clock w) row) (Db.sips (store w'))
    /\ Db.status (Db.apply_update pg sipId target (clock w) row) = target
    /\ forall row', In row' (Db.sips (store w')) -> Db.id row' = sipId ->
                    Db.status row' = target.
Proof.
  intros Hin Hid Hup Huuid.
  rewrite updateSIPStatus_run, db_updateSIPStatus_run, Hup, Huuid. cbn [negb andb].
  eexists _, _. split; [reflexivity|]. split; [reflexivity|]. cbn [store Db.sips].
  split; [now apply in_map|]. split; [now apply apply_update_hit|].
  intros row' Hin' Hid'. apply in_map_iff in Hin' as (row0 & <- & _).
  rewrite apply_update_id in Hid'. now apply apply_update_hit.
Qed.
End PlanFacts.

(** Witness for C1 as amended: Alice's cancelled plan, set to [active] at
    time 50. *)
Lemma updateSIPStatus_overwrites_any_status_witness :
  exists r w',
    SipService.updateSIPStatus Sample.pg Sample.plan_id Db.active (Sample.server 50)
    = (Returns r, w')
    /\ SipService.success r = true
    /\ In (Db.apply_update Sample.pg Sample.plan_id Db.active 50
                           (Sample.plan Db.cancelled 40))
          (Db.sips (store w'))
    /\ Db.status (Db.apply_update Sample.pg Sample.plan_id Db.active 50
                                  (Sample.plan Db.cancelled 40))
       = Db.active
    /\ forall row', In row' (Db.sips (store w')) -> Db.id row' = Sample.plan_id ->
                    Db.status row' = Db.active.
Proof.
  apply (updateSIPStatus_overwrites_any_status Sample.pg Sample.plan_id Db.active
           (Sample.plan Db.cancelled 40) (Sample.server 50)).
  - simpl. left. reflexivity.
  - reflexivity.
  - reflexivity.
  - reflexivity.
Defined.

(** Counterexample to C1: the request to resume Alice's cancelled plan is
    not rejected, and the plan is [active] afterwards. *)
Lemma updateSIPStatus_resumes_cancelled_plan :
  In (Sample.plan Db.cancelled 40) (Db.sips (store (Sample.server 50)))
  /\ SipService.updateSIPStatus Sample.pg Sample.plan_id Db.active (Sample.server 50)
     = (Returns (SipService.mkResult true None (Some "SIP resumed") None),
        mkRuntime 50 []
          (Db.mkDatabase [Sample.alice] [Sample.plan Db.active 50; Sample.other_plan] 3 [])).
Proof.
  split.
  - simpl. left. reflexivity.
  - vm_compute. reflexivity.
Qed.

Section CreateFacts.
Variable pg : Db.Postgres.

(** What [db.createSIP] returns is the row it has inserted: owned by the
    given user, with the given asset and amount, status [active] and both
    time stamps at the time of creation. *)
Lemma db_createSIP_Some userId assetName assetIndex amount
    (w : Runtime Db.Database) row w' :
  Db.createSIP pg userId assetName assetIndex amount w = (Returns (Some row), w') ->
  row = Db.mkSIP (Db.gen_random_uuid pg (Db.uuids_issued (store w))) userId assetName
                 assetIndex amount Db.active (clock w) (clock w)
  /\ Db.sips (store w') = (Db.sips (store w) ++ [row])%list
  /\ Db.sips_accepts pg (store w) userId assetName assetIndex amount = true.
Proof.
  unfold Db.createSIP, bind. rewrite round_trip_run. cbn [get_store store].
  unfold Db.sips_accepts at 1. cbn [Db.users].
  fold (Db.sips_accepts pg (store w) userId assetName assetIndex amount).
  destruct (negb (hd false (Db.outages (store w)))); cbn [andb].
  - destruct (Db.sips_accepts pg (store w) userId assetName assetIndex amount) eqn:Hacc.
    + cbn. intros [= <- <-]. cbn. auto.
    + cbn. discriminate.
  - cbn. discriminate.
Qed.

(** The amount check comes first: below the minimum nothing is asked of
    the database. *)
Lemma createSIP_below_minimum params (w : Runtime Db.Database) :
  Db.number_lt (SipService.monthlyAmountUsdc params) 1000 = true ->
  SipService.createSIP pg params w =
  (Returns (SipService.failure "Monthly investment must be at least 1000 USDC"), w).
Proof. intros H. unfold SipService.createSIP. now rewrite H. Qed.

Lemma createSIP_at_least_minimum params (w : Runtime Db.Database) user w1 row w2 :
  Db.number_lt (SipService.monthlyAmountUsdc params) 1000 = false ->
  Db.getUserByWallet pg (SipService.walletAddress params) w = (Returns (Some user), w1) ->
  Db.createSIP pg (Db.u_id user) (SipService.assetName params)
               (SipService.assetIndex params) (SipService.monthlyAmountUsdc params) w1
  = (Returns (Some row), w2) ->
  SipService.createSIP pg params w =
  (Returns (SipService.mkResult true (Some row) (Some "SIP created successfully") None), w2).
Proof.
  intros Hmin Huser Hrow. unfold SipService.createSIP. rewrite Hmin.
  rewrite (bind_returns _ _ _ _ _ Huser). now rewrite (bind_returns _ _ _ _ _ Hrow).
Qed.

(** C7.  Below 1000 [createSIP] answers with the minimum-amount failure
    and leaves the server as it was, so no plan is inserted.  At exactly
    1000, once the user is resolved and the row is persisted, it answers
    with success and the created record, which is stored, carries the
    amount and has status [active]. *)
Theorem createSIP_minimum_amount params (w : Runtime Db.Database) :
  (Db.number_lt (SipService.monthlyAmountUsdc params) 1000 = true ->
   SipService.createSIP pg params w =
   (Returns (SipService.failure "Monthly investment must be at least 1000 USDC"), w))
  /\ (SipService.monthlyAmountUsdc params = Db.Num 1000 ->
      forall user w1 row w2,
        Db.getUserByWallet pg (SipService.walletAddress params) w
        = (Returns (Some user), w1) ->
        Db.createSIP pg (Db.u_id user) (SipService.assetName params)
                     (SipService.assetIndex params) (Db.Num 1000) w1
        = (Returns (Some row), w2) ->
        SipService.createSIP pg params w =
        (Returns (SipService.mkResult true (Some row)
                    (Some "SIP created successfully") None), w2)
        /\ Db.status row = Db.active
        /\ Db.monthly_amount_usdc row = Db.Num 1000
        /\ Db.user_id row = Db.u_id user
        /\ In row (Db.sips (store w2))).
Proof.
  split; [apply createSIP_below_minimum|].
  intros Hamount user w1 row w2 Huser Hrow. split.
  - apply (createSIP_at_least_minimum params w user w1 row w2);
      rewrite ?Hamount; auto.
  - apply db_createSIP_Some in Hrow as (-> & Hsips & _). cbn.
    repeat split. rewrite Hsips. apply in_app_iff. right. now left.
Qed.
End CreateFacts.

(** Witness for C7: 999 and 1000 USDC a month into BTC, asked by Alice of a
    server that has never seen her. *)
Lemma createSIP_minimum_amount_witness :
  SipService.createSIP Sample.pg (SipService.mkParams "0xA11CE" "BTC" 3 (Db.Num 999))
                       (Sample.fresh_server 30)
  = (Returns (SipService.failure "Monthly investment must be at least 1000 USDC"),
     Sample.fresh_server 30)
  /\ exists row w2,
       SipService.createSIP Sample.pg (SipService.mkParams "0xA11CE" "BTC" 3 (Db.Num 1000))
                            (Sample.fresh_server 30)
       = (Returns (SipService.mkResult true (Some row)
                     (Some "SIP created successfully") None), w2)
       /\ Db.status row = Db.active
       /\ Db.monthly_amount_usdc row = Db.Num 1000
       /\ Db.user_id row = "5f0c2a9e-0000-4000-8000-000000000000"
       /\ In row (Db.sips (store w2)).
Proof.
  split.
  - apply (proj1 (createSIP_minimum_amount Sample.pg
                    (SipService.mkParams "0xA11CE" "BTC" 3 (Db.Num 999))
                    (Sample.fresh_server 30))).
    reflexivity.
  - eexists _, _.
    eapply (proj2 (createSIP_minimum_amount Sample.pg
                     (SipService.mkParams "0xA11CE" "BTC" 3 (Db.Num 1000))
                     (Sample.fresh_server 30)) eq_refl
              (Db.mkUser "5f0c2a9e-0000-4000-8000-000000000000" "0xA11CE" 30)).
    + vm_compute. reflexivity.
    + vm_compute. reflexivity.
Defined.

Section CreateReachable.
Variable pg : Db.Postgres.

(** What [respell] gives is a row of the old table with the new spelling
    of its address, at its old place; ids are as they were. *)
Lemma respell_Some walletAddress users u merged :
  Db.respell walletAddress users = Some (u, merged) ->
  In u merged
  /\ map Db.u_id merged = map Db.u_id users
  /\ exists old,
       In old users
       /\ Db.same_address (Db.wallet_address old) walletAddress = true
       /\ u = Db.mkUser (Db.u_id old) walletAddress (Db.u_created_at old).
Proof.
  revert u merged. induction users as [|x rest IH]; intros u merged; [discriminate|].
  cbn [Db.respell].
  destruct (Db.same_address (Db.wallet_address x) walletAddress) eqn:Hx.
  - intros [= <- <-]. split; [now left|]. split; [reflexivity|].
    exists x. split; [now left|]. now split.
  - destruct (Db.respell walletAddress rest) as [[u' rest']|]; [|discriminate].
    intros [= <- <-]. destruct (IH u' rest' eq_refl) as (Hin & Hids & old & Hold & Hsame & ->).
    split; [now right|]. split; [cbn; now rewrite Hids|].
    exists old. split; [now right|]. now split.
Qed.


(** A request for the user that reaches the database resolves her: the
    row is found, respelt or inserted, and is in the table afterwards; its
    id is that of a row of the table before, or a newly generated one. *)
Lemma getUserByWallet_resolves walletAddress (w : Runtime Db.Database) :
  hd false (Db.outages (store w)) = false ->
  exists user w1,
    Db.getUserByWallet pg walletAddress w = (Returns (Some user), w1)
    /\ In user (Db.users (store w1))
    /\ Db.outages (store w1) = tl (Db.outages (store w))
    /\ Db.sips (store w1) = Db.sips (store w)
    /\ (In (Db.u_id user) (map Db.u_id (Db.users (store w)))
        \/ Db.u_id user = Db.gen_random_uuid pg (Db.uuids_issued (store w))).
Proof.
  intros Hup. unfold Db.getUserByWallet, bind. rewrite round_trip_run, Hup.
  cbn [negb]. unfold Db.users_upsert, bind. cbn [get_store store Db.users].
  destruct (find _ (Db.users (store w))) as [u|] eqn:Hfind.
  - eexists _, _. split; [reflexivity|]. cbn. apply find_some in Hfind as [Hin _].
    split; [exact Hin|]. split; [reflexivity|]. split; [reflexivity|].
    left. now apply in_map.
  - destruct (Db.respell walletAddress (Db.users (store w))) as [[u merged]|] eqn:Hre.
    + eexists _, _. split; [reflexivity|]. cbn.
      apply respell_Some in Hre as (Hin & _ & old & Hold & _ & ->).
      split; [exact Hin|]. split; [reflexivity|]. split; [reflexivity|].
      left. cbn. now apply in_map.
    + eexists _, _. split; [reflexivity|]. cbn.
      split; [apply in_app_iff; right; now left|]. split; [reflexivity|].
      split; [reflexivity|]. now right.
Qed.

(** With the database reachable for both requests, ids that are uuids, an
    asset name that is a text, an asset index that fits an [int] and an
    amount of at least 1000, [createSIP] succeeds. *)
Lemma createSIP_succeeds walletAddress assetName assetIndex q
    (w : Runtime Db.Database) :
  hd false (Db.outages (store w)) = false ->
  hd false (tl (Db.outages (store w))) = false ->
  (forall u, In u (Db.users (store w)) -> Db.uuid_in pg (Db.u_id u) = true) ->
  (forall n, Db.uuid_in pg (Db.gen_random_uuid pg n) = true) ->
  has_nul assetName = false ->
  - 2 ^ 31 <= assetIndex < 2 ^ 31 ->
  Qle_bool 1000 q = true ->
  exists row w2,
    SipService.createSIP pg
      (SipService.mkParams walletAddress assetName assetIndex (Db.Num q)) w
    = (Returns (SipService.mkResult true (Some row)
                  (Some "SIP created successfully") None), w2)
    /\ Db.status row = Db.active
    /\ Db.sips (store w2) = (Db.sips (store w) ++ [row])%list.
Proof.
  intros Hup1 Hup2 Hids Hgen Hnul Hidx Hq.
  destruct (getUserByWallet_resolves walletAddress w Hup1)
    as (user & w1 & Huser & Hin & Hout & Hsips & Hid).
  assert (Db.uuid_in pg (Db.u_id user) = true) as Huuid.
  { destruct Hid as [Hold | ->]; [|apply Hgen].
    apply in_map_iff in Hold as (old & <- & Hold). now apply Hids. }
  assert (Db.sips_accepts pg (store w1) (Db.u_id user) assetName assetIndex (Db.Num q)
          = true) as Hacc.
  { unfold Db.sips_accepts. rewrite Hq, Hnul.
    replace (existsb _ (Db.users (store w1))) with true.
    - replace (- 2 ^ 31 <=? assetIndex) with true by (symmetry; apply Z.leb_le; lia).
      replace (assetIndex <? 2 ^ 31) with true by (symmetry; apply Z.ltb_lt; lia).
      reflexivity.
    - symmetry. apply existsb_exists. exists user. split; [exact Hin|].
      now apply same_uuid_refl. }
  destruct (Db.createSIP pg (Db.u_id user) assetName assetIndex (Db.Num q) w1)
    as [o w2] eqn:Hrow.
  assert (exists row, o = Returns (Some row)) as [row ->].
  { revert Hrow. unfold Db.createSIP, bind. rewrite round_trip_run.
    cbn [get_store store]. unfold Db.sips_accepts in *. cbn [Db.users] in *.
    rewrite Hout, Hup2, Hacc. cbn. intros [= <- _]. eauto. }
  exists row, w2. split.
  - apply (createSIP_at_least_minimum pg _ w user w1 row w2); cbn; auto.
    now rewrite Hq.
  - apply db_createSIP_Some in Hrow as (-> & Hs & _). rewrite Hs, Hsips. now split.
Qed.
End CreateReachable.

(** An asset name that holds the code point zero is no [text]: the row is
    refused, and the service answers with its failure. *)
Example createSIP_refuses_nul :
  fst (SipService.createSIP Sample.pg
         (SipService.mkParams "0xA11CE" (String Ascii.zero "BTC") 3 (Db.Num 1500))
         (Sample.server 50))
  = Returns (SipService.failure "Failed to create SIP").
Proof. vm_compute. reflexivity. Qed.

(** ** The HTTP boundary *)

Section RouteFacts.
Variable pg : Db.Postgres.
Variable recover : list N -> string -> outcome string.

Lemma truthy_Some s : s <> "" -> truthy (Some s) = Some s.
Proof. destruct s; [congruence | reflexivity]. Qed.

Lemma truthy_text_Some (m : list N) : m <> [] -> truthy_text (Some m) = Some m.
Proof. destruct m; [congruence | reflexivity]. Qed.

(** The service's [updateSIPStatus] always returns; when it reports
    success the table is the old one with the update applied to the rows
    of that id. *)
Lemma updateSIPStatus_returns sipId status (w : Runtime Db.Database) :
  exists r w',
    SipService.updateSIPStatus pg sipId status w = (Returns r, w')
    /\ (SipService.success r = true ->
        Db.sips (store w')
        = map (Db.apply_update pg sipId status (clock w)) (Db.sips (store w))).
Proof.
  rewrite updateSIPStatus_run, db_updateSIPStatus_run.
  destruct (negb (hd false (Db.outages (store w))) && Db.uuid_in pg sipId);
    eexists _, _; (split; [reflexivity|]); cbn; [reflexivity | discriminate].
Qed.

(** The texts of the three values of the column are read back as those
    values, and none of them is empty. *)
Lemma status_of_text_status_text status :
  Db.status_of_text (Db.status_text status) = Some status.
Proof. now destruct status. Qed.

Lemma status_text_truthy status :
  truthy (Some (Db.status_text status)) = Some (Db.status_text status).
Proof. now destruct status. Qed.

Lemma updateSIPStatus_any_declared sipId status :
  SipService.updateSIPStatus_any pg sipId (Db.status_text status)
  = SipService.updateSIPStatus pg sipId status.
Proof. unfold SipService.updateSIPStatus_any. now rewrite status_of_text_status_text. Qed.

(** Whatever text the body holds for the status, the service returns, and
    it leaves the users as they were. *)
Lemma updateSIPStatus_any_returns sipId status (w : Runtime Db.Database) :
  exists r w',
    SipService.updateSIPStatus_any pg sipId status w = (Returns r, w')
    /\ Db.users (store w') = Db.users (store w).
Proof.
  unfold SipService.updateSIPStatus_any.
  destruct (Db.status_of_text status) as [declared|] eqn:Htext.
  - rewrite updateSIPStatus_run, db_updateSIPStatus_run.
    destruct (negb (hd false (Db.outages (store w))) && Db.uuid_in pg sipId);
      eexists _, _; split; reflexivity.
  - unfold bind at 1. unfold Db.updateSIPStatus_any. rewrite Htext.
    unfold bind, Date_now. rewrite round_trip_run. cbn [get_store store Db.sips].
    match goal with
    | |- context [if ?c then _ else _] => destruct c
    end; eexists _, _; split; reflexivity.
Qed.

(** Once the signature is accepted, the handler answers with what the
    service does for the [sipId] and [status] of the body. *)
Lemma PATCH_authenticated message signature v w1 sipId status
    (w : Runtime Db.Database) :
  SignatureVerify.verifySignature recover message signature w = (Returns v, w1) ->
  SignatureVerify.valid v = true ->
  message <> [] -> signature <> "" -> sipId <> "" ->
  exists r w',
    SipService.updateSIPStatus pg sipId status w = (Returns r, w')
    /\ Route.PATCH pg recover
         (Returns (Route.mkPatch (Some sipId) (Some (Db.status_text status))
                                 (Some message) (Some signature)))
         w
       = (Returns (if SipService.success r
                   then Route.mkResponse (Route.ResultJson r) 200
                   else Route.mkResponse (Route.ErrorJson (SipService.error r)) 500),
          w')
    /\ (SipService.success r = true ->
        Db.sips (store w')
        = map (Db.apply_update pg sipId status (clock w)) (Db.sips (store w))).
Proof.
  intros Hv Hvalid Hm Hs Hid.
  destruct (verifySignature_valid_inv recover _ _ _ _ _ Hv Hvalid) as (-> & a & _ & ->).
  destruct (updateSIPStatus_returns sipId status w) as (r & w' & Hr & Hrows).
  exists r, w'. split; [exact Hr|]. split; [|exact Hrows].
  unfold Route.PATCH, try_catch, bind at 1, await.
  cbn [Route.sipId Route.status Route.message Route.signature].
  rewrite (truthy_Some sipId Hid), (truthy_Some signature Hs), (truthy_text_Some message Hm),
    status_text_truthy.
  rewrite (bind_returns _ _ _ _ _ Hv). cbn [SignatureVerify.valid negb].
  rewrite updateSIPStatus_any_declared.
  rewrite (bind_returns _ _ _ _ _ Hr). now destruct (SipService.success r).
Qed.

(** The run of an authenticated request that the database executes: the
    answer is 200 with the message of the service, the clock and the
    console are untouched, one outage flag is consumed, and the table holds
    each row of the id with the status of the body and the time of the
    request, and every other row as it was. *)
Lemma PATCH_applies_body message signature v w1 sipId status
    (w : Runtime Db.Database) :
  SignatureVerify.verifySignature recover message signature w = (Returns v, w1) ->
  SignatureVerify.valid v = true ->
  message <> [] -> signature <> "" -> sipId <> "" ->
  hd false (Db.outages (store w)) = false ->
  Db.uuid_in pg sipId = true ->
  Route.PATCH pg recover
    (Returns (Route.mkPatch (Some sipId) (Some (Db.status_text status))
                            (Some message) (Some signature))) w
  = (Returns (Route.mkResponse
                (Route.ResultJson
                   (SipService.mkResult true None
                      (Some ("SIP " ++ match status with
                                       | Db.active => "resumed"
                                       | _ => Db.status_text status
                                       end)%string) None)) 200),
     mkRuntime (clock w) (console w)
       (Db.mkDatabase (Db.users (store w))
          (map (fun row =>
                  match Db.uuid_value pg (Db.id row), Db.uuid_value pg sipId with
                  | Some x, Some y =>
                      if (x =? y)%N
                      then Db.mkSIP (Db.id row) (Db.user_id row) (Db.asset_name row)
                                    (Db.asset_index row) (Db.monthly_amount_usdc row)
                                    status (Db.created_at row) (clock w)
                      else row
                  | _, _ => row
                  end)
               (Db.sips (store w)))
          (Db.uuids_issued (store w)) (tl (Db.outages (store w))))).
Proof.
  intros Hv Hvalid Hm Hs Hid Hup Huuid.
  destruct (PATCH_authenticated message signature v w1 sipId status w Hv Hvalid Hm Hs Hid)
    as (r & w' & Hr & -> & _).
  revert Hr. rewrite updateSIPStatus_run, db_updateSIPStatus_run, Hup, Huuid.
  cbn [negb andb]. intros [= <- <-]. cbn [SipService.success].
  do 3 f_equal. apply map_ext. intros row. apply apply_update_by_value.
Qed.

(** C6.  Two [PATCH] bodies with the same accepted message and signature
    and any two plan ids and statuses, sent to a server whose database
    executes the update: both runs are authenticated, both answer 200, and
    each leaves the table with the rows of its own body's [sipId] set to its
    own body's [status] and stamped with the time of the request, every
    other row being as it was; what the signed message says of the plan and
    the status is never read. *)
Theorem PATCH_signature_not_bound_to_body message signature v w1
    sipId1 status1 sipId2 status2 (w : Runtime Db.Database) :
  SignatureVerify.verifySignature recover message signature w = (Returns v, w1) ->
  SignatureVerify.valid v = true ->
  message <> [] -> signature <> "" -> sipId1 <> "" -> sipId2 <> "" ->
  hd false (Db.outages (store w)) = false ->
  Db.uuid_in pg sipId1 = true -> Db.uuid_in pg sipId2 = true ->
  Route.PATCH pg recover
    (Returns (Route.mkPatch (Some sipId1) (Some (Db.status_text status1))
                            (Some message) (Some signature))) w
  = (Returns (Route.mkResponse
                (Route.ResultJson
                   (SipService.mkResult true None
                      (Some ("SIP " ++ match status1 with
                                       | Db.active => "resumed"
                                       | _ => Db.status_text status1
                                       end)%string) None)) 200),
     mkRuntime (clock w) (console w)
       (Db.mkDatabase (Db.users (store w))
          (map (fun row =>
                  match Db.uuid_value pg (Db.id row), Db.uuid_value pg sipId1 with
                  | Some x, Some y =>
                      if (x =? y)%N
                      then Db.mkSIP (Db.id row) (Db.user_id row) (Db.asset_name row)
                                    (Db.asset_index row) (Db.monthly_amount_usdc row)
                                    status1 (Db.created_at row) (clock w)
                      else row
                  | _, _ => row
                  end)
               (Db.sips (store w)))
          (Db.uuids_issued (store w)) (tl (Db.outages (store w)))))
  /\ Route.PATCH pg recover
       (Returns (Route.mkPatch (Some sipId2) (Some (Db.status_text status2))
                               (Some message) (Some signature))) w
     = (Returns (Route.mkResponse
                   (Route.ResultJson
                      (SipService.mkResult true None
                         (Some ("SIP " ++ match status2 with
                                          | Db.active => "resumed"
                                          | _ => Db.status_text status2
                                          end)%string) None)) 200),
        mkRuntime (clock w) (console w)
          (Db.mkDatabase (Db.users (store w))
             (map (fun row =>
                     match Db.uuid_value pg (Db.id row), Db.uuid_value pg sipId2 with
                     | Some x, Some y =>
                         if (x =? y)%N
                         then Db.mkSIP (Db.id row) (Db.user_id row) (Db.asset_name row)
                                       (Db.asset_index row) (Db.monthly_amount_usdc row)
                                       status2 (Db.created_at row) (clock w)
                         else row
                     | _, _ => row
                     end)
                  (Db.sips (store w)))
             (Db.uuids_issued (store w)) (tl (Db.outages (store w))))).
Proof.
  intros Hv Hvalid Hm Hs Hid1 Hid2 Hup Huuid1 Huuid2. split.
  - unfold Route.PATCH, try_catch, bind at 1, await.
    destruct (verifySignature_valid_inv recover _ _ _ _ _ Hv Hvalid) as (-> & a & _ & ->).
    cbn [Route.sipId Route.status Route.message Route.signature].
    rewrite (truthy_Some sipId1 Hid1), (truthy_Some signature Hs),
      (truthy_text_Some message Hm), status_text_truthy.
    rewrite (bind_returns _ _ _ _ _ Hv). cbn [SignatureVerify.valid negb].
    rewrite updateSIPStatus_any_declared. unfold bind at 1.
    rewrite updateSIPStatus_run, db_updateSIPStatus_run, Hup, Huuid1.
    cbn [negb andb SipService.success]. do 3 f_equal.
    apply map_ext. intros row. apply apply_update_by_value.
  - unfold Route.PATCH, try_catch, bind at 1, await.
    destruct (verifySignature_valid_inv recover _ _ _ _ _ Hv Hvalid) as (-> & a & _ & ->).
    cbn [Route.sipId Route.status Route.message Route.signature].
    rewrite (truthy_Some sipId2 Hid2), (truthy_Some signature Hs),
      (truthy_text_Some message Hm), status_text_truthy.
    rewrite (bind_returns _ _ _ _ _ Hv). cbn [SignatureVerify.valid negb].
    rewrite updateSIPStatus_any_declared. unfold bind at 1.
    rewrite updateSIPStatus_run, db_updateSIPStatus_run, Hup, Huuid2.
    cbn [negb andb SipService.success]. do 3 f_equal.
    apply map_ext. intros row. apply apply_update_by_value.
Qed.
End RouteFacts.

(** Witness for C6: the message Alice signed at 1000 ms to pause her first
    plan, presented at 2000 ms with one body that cancels her second plan
    and one that resumes her cancelled first plan. *)
Lemma PATCH_signature_not_bound_to_body_witness :
  Route.PATCH Sample.pg Sample.recover
    (Returns (Route.mkPatch (Some Sample.other_plan_id) (Some "cancelled")
                (Some (Sample.update_message 1000 Sample.plan_id "paused"))
                (Some "0x5160"))) (Sample.server 2000)
  = (Returns (Route.mkResponse
                (Route.ResultJson (SipService.mkResult true None (Some "SIP cancelled") None))
                200),
     mkRuntime 2000 []
       (Db.mkDatabase [Sample.alice]
          [Sample.plan Db.cancelled 40;
           Db.mkSIP Sample.other_plan_id (Db.u_id Sample.alice) "ETH" 4 (Db.Num 2000)
                    Db.cancelled 25 2000] 3 []))
  /\ Route.PATCH Sample.pg Sample.recover
       (Returns (Route.mkPatch (Some Sample.plan_id) (Some "active")
                   (Some (Sample.update_message 1000 Sample.plan_id "paused"))
                   (Some "0x5160"))) (Sample.server 2000)
     = (Returns (Route.mkResponse
                   (Route.ResultJson (SipService.mkResult true None (Some "SIP resumed") None))
                   200),
        mkRuntime 2000 []
          (Db.mkDatabase [Sample.alice]
             [Sample.plan Db.active 2000; Sample.other_plan] 3 [])).
Proof.
  apply (PATCH_signature_not_bound_to_body Sample.pg Sample.recover
           (Sample.update_message 1000 Sample.plan_id "paused") "0x5160"
           (SignatureVerify.mkVerify true (Some "0xA11CE") None) (Sample.server 2000)
           Sample.other_plan_id Db.cancelled Sample.plan_id Db.active (Sample.server 2000)).
  - vm_compute. reflexivity.
  - reflexivity.
  - vm_compute. discriminate.
  - discriminate.
  - discriminate.
  - discriminate.
  - reflexivity.
  - reflexivity.
  - reflexivity.
Defined.

(** The id of the body is read as a uuid, and its status as any text.  The
    signature given for pausing the first plan resumes it when the body
    spells the id of the plan in upper case; a status that the column does
    not take is passed on to the database, which refuses it. *)
Example PATCH_replayed_signature_runs :
  Route.PATCH Sample.pg Sample.recover
    (Returns (Route.mkPatch (Some "5F0C2A9E-0000-4000-8000-000000000001") (Some "active")
                (Some (Sample.update_message 1000 Sample.plan_id "paused"))
                (Some "0x5160"))) (Sample.server 2000)
  = (Returns (Route.mkResponse
                (Route.ResultJson (SipService.mkResult true None (Some "SIP resumed") None))
                200),
     mkRuntime 2000 []
       (Db.mkDatabase [Sample.alice] [Sample.plan Db.active 2000; Sample.other_plan] 3 []))
  /\ Route.PATCH Sample.pg Sample.recover
       (Returns (Route.mkPatch (Some Sample.plan_id) (Some "archived")
                   (Some (Sample.update_message 1000 Sample.plan_id "paused"))
                   (Some "0x5160"))) (Sample.server 2000)
     = (Returns (Route.mkResponse (Route.ErrorJson (Some "Failed to update SIP status")) 500),
        mkRuntime 2000 [(ConsoleError, ["Failed to update SIP status:"])]
          (Db.mkDatabase [Sample.alice] [Sample.plan Db.cancelled 40; Sample.other_plan]
                         3 [])).
Proof. split; vm_compute; reflexivity. Qed.

(** ** Agent provisioning *)

Section AgentFacts.
Import AgentService.

Lemma find_agent_iff agentAddress (agents : list ExtraAgent) :
  (exists found,
     find (fun agent => String.eqb (agent_address agent) agentAddress) agents = Some found)
  <-> In agentAddress (map agent_address agents).
Proof.
  split.
  - intros [found Hf]. apply find_some in Hf as [Hin Heq].
    apply String.eqb_eq in Heq as <-. now apply in_map.
  - intros Hin. apply in_map_iff in Hin as (agent & Heq & Hin).
    destruct (find _ agents) as [found|] eqn:Hf; [now exists found|].
    exfalso. apply (find_none _ _ Hf) in Hin.
    rewrite Heq, String.eqb_refl in Hin. discriminate.
Qed.

(** C8.  [checkAgentApproval] returns a boolean and does not throw.  The
    boolean is [true] exactly when there is a client, its query for the
    user's delegates yields a list, and the agent address is the address
    of an entry of that list; so it is [false] when the client is absent,
    when the query throws, and when it yields no data. *)
Theorem checkAgentApproval_total infoClient userAddress agentAddress
    (w : Runtime Browser) :
  exists approved w',
    checkAgentApproval infoClient userAddress agentAddress w = (Returns approved, w')
    /\ (approved = true <->
        exists client agents,
          infoClient = Some client
          /\ extraAgents client userAddress = Returns (Some agents)
          /\ In agentAddress (map agent_address agents))
    /\ (infoClient = None -> approved = false)
    /\ (forall client e,
          infoClient = Some client -> extraAgents client userAddress = Throws e ->
          approved = false)
    /\ (forall client,
          infoClient = Some client -> extraAgents client userAddress = Returns None ->
          approved = false).
Proof.
  destruct infoClient as [client|]; cbn [checkAgentApproval].
  - unfold try_catch, bind, await.
    destruct (extraAgents client userAddress) as [[agents|]|e] eqn:Hq.
    + destruct (find _ agents) as [found|] eqn:Hf.
      * eexists _, _. split; [reflexivity|]. split; [|repeat split; congruence].
        split; [intros _|reflexivity]. exists client, agents. repeat split; auto.
        apply find_agent_iff. eauto.
      * eexists _, _. split; [reflexivity|]. split; [|repeat split; congruence].
        split; [discriminate|]. intros (c & a & [= <-] & Ha & Hin).
        rewrite Hq in Ha. injection Ha as <-.
        apply find_agent_iff in Hin as [found Hfound]. congruence.
    + eexists _, _. split; [reflexivity|]. split; [|repeat split; congruence].
      split; [discriminate|]. intros (c & a & [= <-] & Ha & _). congruence.
    + eexists _, _. split; [reflexivity|]. split; [|repeat split; congruence].
      split; [discriminate|]. intros (c & a & [= <-] & Ha & _). congruence.
  - eexists _, _. split; [reflexivity|]. split; [|repeat split; congruence].
    split; [discriminate|]. intros (c & a & [=] & _).
Qed.
End AgentFacts.

Section ApprovalFacts.
Import AgentService.

(** C5, as the service implements it.  With the agent already approved
    nothing is submitted and the call returns.  With the agent not yet
    approved and an exchange client at hand, the approval is submitted
    once and the call returns whether or not the submission fails; a
    failure is written to the console as a warning.  With the agent not
    yet approved and no exchange client, the call throws. *)
Theorem approveAgentIfNeeded_outcomes exchangeClient agentAddress isApproved
    (w : Runtime Browser) :
  (isApproved = true ->
   exists w',
     approveAgentIfNeeded exchangeClient agentAddress isApproved w = (Returns tt, w')
     /\ store w' = store w)
  /\ (isApproved = false ->
      forall client, exchangeClient = Some client ->
      exists w',
        approveAgentIfNeeded exchangeClient agentAddress isApproved w = (Returns tt, w')
        /\ approvals (store w')
           = (approvals (store w) ++ [(agentAddress, "EzDawg Agent")])%list
        /\ forall e,
             approveAgent client agentAddress "EzDawg Agent" = Throws e ->
             console w'
             = (console w
                  ++ [(ConsoleWarn,
                       ["Agent approval failed (might already be approved):"; e])])%list)
  /\ (isApproved = false -> exchangeClient = None ->
      approveAgentIfNeeded exchangeClient agentAddress isApproved w
      = (Throws "Exchange client not initialized", w)).
Proof.
  split; [|split].
  - intros ->. eexists. split; reflexivity.
  - intros -> client ->. cbn [approveAgentIfNeeded].
    unfold try_catch, bind, submit_approval, bind, get_store, put_store, await.
    destruct (approveAgent client agentAddress "EzDawg Agent") as [[]|e] eqn:Hq.
    + eexists. split; [reflexivity|]. split; [reflexivity|]. discriminate.
    + eexists. split; [reflexivity|]. split; [reflexivity|]. now intros e' [= <-].
  - intros -> ->. reflexivity.
Qed.
End ApprovalFacts.

(** Witness for C5 as amended: an agent already approved; a refused and an
    accepted approval; and no exchange client. *)
Lemma approveAgentIfNeeded_outcomes_witness :
  (exists w',
     AgentService.approveAgentIfNeeded None "0xA6E27" true Sample.browser = (Returns tt, w')
     /\ store w' = store Sample.browser)
  /\ (exists w',
        AgentService.approveAgentIfNeeded (Some Sample.refusing) "0xA6E27" false
                                          Sample.browser = (Returns tt, w')
        /\ approvals (store w')
           = (approvals (store Sample.browser) ++ [("0xA6E27", "EzDawg Agent")])%list
        /\ forall e,
             AgentService.approveAgent Sample.refusing "0xA6E27" "EzDawg Agent" = Throws e ->
             console w'
             = (console Sample.browser
                  ++ [(ConsoleWarn,
                       ["Agent approval failed (might already be approved):"; e])])%list)
  /\ AgentService.approveAgentIfNeeded None "0xA6E27" false Sample.browser
     = (Throws "Exchange client not initialized", Sample.browser).
Proof.
  split; [|split].
  - apply (proj1 (approveAgentIfNeeded_outcomes None "0xA6E27" true Sample.browser)).
    reflexivity.
  - apply (proj1 (proj2 (approveAgentIfNeeded_outcomes (Some Sample.refusing) "0xA6E27"
                           false Sample.browser)) eq_refl Sample.refusing).
    reflexivity.
  - apply (proj2 (proj2 (approveAgentIfNeeded_outcomes None "0xA6E27" false
                           Sample.browser))); reflexivity.
Defined.

(** Counterexample to C5: not yet approved and without an exchange client,
    [approveAgentIfNeeded] throws. *)
Lemma approveAgentIfNeeded_throws_without_client :
  AgentService.approveAgentIfNeeded None "0xA6E27" false Sample.browser
  = (Throws "Exchange client not initialized", Sample.browser).
Proof. reflexivity. Qed.

(** That input is the one [initializeAgent] produces on a cold start: the
    exchange client it passes on is the one it was called with, also after
    [initExchangeClient] has run. *)
Example initializeAgent_cold_start :
  fst (AgentService.initializeAgent Sample.generateAgentWallet Sample.privateKeyToAccount
         Sample.cold_start Sample.browser)
  = Throws "Exchange client not initialized".
Proof. vm_compute. reflexivity. Qed.

(** ** The agent key *)

Section KeyFacts.
Variable generateAgentWallet : nat -> string.

Lemma getAgentPrivateKey_run userAddress (w : Runtime Browser) :
  AgentStorage.getAgentPrivateKey userAddress w =
  (Returns (match localStorage (store w) with
            | Some items => items !! AgentStorage.storageKey userAddress
            | None => None
            end), w).
Proof.
  unfold AgentStorage.getAgentPrivateKey, bind, get_store.
  now destruct (localStorage (store w)).
Qed.

(** A call that finds a non-empty key returns it and changes nothing. *)
Lemma getOrCreateAgentPrivateKey_existing userAddress (w : Runtime Browser) items key :
  localStorage (store w) = Some items ->
  items !! AgentStorage.storageKey userAddress = Some key ->
  key <> "" ->
  AgentService.getOrCreateAgentPrivateKey generateAgentWallet userAddress w
  = (Returns key, w).
Proof.
  intros Hls Hkey Hne. unfold AgentService.getOrCreateAgentPrivateKey, bind.
  rewrite getAgentPrivateKey_run, Hls, Hkey, (truthy_Some key Hne). reflexivity.
Qed.

(** A call that finds no key, or an empty one, draws the next key, stores
    it under the user's storage key and returns it. *)
Lemma getOrCreateAgentPrivateKey_fresh userAddress (w : Runtime Browser) items :
  localStorage (store w) = Some items ->
  truthy (items !! AgentStorage.storageKey userAddress) = None ->
  AgentService.getOrCreateAgentPrivateKey generateAgentWallet userAddress w
  = (Returns (generateAgentWallet (keys_drawn (store w))),
     mkRuntime (clock w) (console w)
       (mkBrowser
          (Some (<[AgentStorage.storageKey userAddress
                   := generateAgentWallet (keys_drawn (store w))]> items))
          (S (keys_drawn (store w))) (approvals (store w)))).
Proof.
  intros Hls Hkey. unfold AgentService.getOrCreateAgentPrivateKey, bind at 1.
  rewrite getAgentPrivateKey_run, Hls, Hkey.
  unfold AgentService.draw_key, AgentStorage.saveAgentPrivateKey, bind, get_store,
    put_store, ret.
  cbn. rewrite Hls. reflexivity.
Qed.

(** C9.  In a browser, with a key generator that yields non-empty keys:
    a first call returns a key; a second call, made on what the first
    left behind, returns the same key and changes nothing, so it draws no
    new key; the key is the one stored for the address; and a key that
    was stored before the first call is the one returned. *)
Theorem getOrCreateAgentPrivateKey_idempotent userAddress (w : Runtime Browser) items :
  (forall n, generateAgentWallet n <> "") ->
  localStorage (store w) = Some items ->
  exists key w1,
    AgentService.getOrCreateAgentPrivateKey generateAgentWallet userAddress w
    = (Returns key, w1)
    /\ AgentService.getOrCreateAgentPrivateKey generateAgentWallet userAddress w1
       = (Returns key, w1)
    /\ (exists items1,
          localStorage (store w1) = Some items1
          /\ items1 !! AgentStorage.storageKey userAddress = Some key)
    /\ (forall key0,
          items !! AgentStorage.storageKey userAddress = Some key0 -> key0 <> "" ->
          key = key0 /\ w1 = w).
Proof.
  intros Hgen Hls.
  destruct (truthy (items !! AgentStorage.storageKey userAddress)) as [key0|] eqn:Ht.
  - assert (items !! AgentStorage.storageKey userAddress = Some key0 /\ key0 <> "")
      as [Hkey Hne].
    { destruct (items !! AgentStorage.storageKey userAddress) as [[|c k]|];
        cbn in Ht; [discriminate| |discriminate].
      injection Ht as <-. split; [reflexivity | discriminate]. }
    exists key0, w.
    rewrite (getOrCreateAgentPrivateKey_existing userAddress w items key0 Hls Hkey Hne).
    repeat split; eauto; congruence.
  - rewrite (getOrCreateAgentPrivateKey_fresh userAddress w items Hls Ht).
    eexists _, _. split; [reflexivity|]. split; [|split].
    + eapply getOrCreateAgentPrivateKey_existing;
        [reflexivity | apply lookup_insert_eq | apply Hgen].
    + eexists. split; [reflexivity | apply lookup_insert_eq].
    + intros key0 Hkey Hne. rewrite Hkey, (truthy_Some key0 Hne) in Ht. discriminate.
Qed.
End KeyFacts.

(** Witness for C9: Alice's first two calls in a browser whose storage is
    empty. *)
Lemma getOrCreateAgentPrivateKey_idempotent_witness :
  exists key w1,
    AgentService.getOrCreateAgentPrivateKey Sample.generateAgentWallet "0xA11CE"
                                            Sample.browser = (Returns key, w1)
    /\ AgentService.getOrCreateAgentPrivateKey Sample.generateAgentWallet "0xA11CE" w1
       = (Returns key, w1)
    /\ (exists items1,
          localStorage (store w1) = Some items1
          /\ items1 !! AgentStorage.storageKey "0xA11CE" = Some key)
    /\ (forall key0,
          (∅ : gmap string string) !! AgentStorage.storageKey "0xA11CE" = Some key0 ->
          key0 <> "" -> key = key0 /\ w1 = Sample.browser).
Proof.
  apply (getOrCreateAgentPrivateKey_idempotent Sample.generateAgentWallet "0xA11CE"
           Sample.browser ∅).
  - intros n. discriminate.
  - reflexivity.
Defined.

(** Without [window] there is no key store: the key is generated, and
    saving it throws. *)
Example getOrCreateAgentPrivateKey_no_window :
  AgentService.getOrCreateAgentPrivateKey Sample.generateAgentWallet "0xA11CE"
                                          Sample.no_window
  = (Throws "Cannot save private key in non-browser environment",
     mkRuntime 0 [] (mkBrowser None 1 [])).
Proof. reflexivity. Qed.

(** * Further properties *)

(** ** The signature codec *)

Section CodecFacts.
Import SignatureVerify.

Lemma while_true_all f s : forallb f s = true -> while_true f s = s.
Proof.
  induction s as [|c s IH]; simpl; [reflexivity|].
  intros H. apply andb_true_iff in H as [-> H]. now rewrite IH.
Qed.

Lemma skip_while_stop f c s : f c = false -> skip_while f (c :: s) = c :: s.
Proof. intros H. simpl. now rewrite H. Qed.

(** Reading back the digits written for [n] in front of [acc] continues
    from [n]. *)
Lemma parse_digits_of_pos fuel : forall n acc,
  0 <= n < 10 ^ Z.of_nat fuel ->
  fold_left (fun a c => 10 * a + (Z.of_N c - 48)) (digits_of_pos fuel n acc) 0
  = fold_left (fun a c => 10 * a + (Z.of_N c - 48)) acc n.
Proof.
  induction fuel as [|fuel IH]; intros n acc Hn.
  - simpl in *. assert (n = 0) as -> by lia. reflexivity.
  - cbn [digits_of_pos].
    assert (Hd : Z.of_N (Z.to_N (48 + n mod 10)) - 48 = n mod 10).
    { rewrite Z2N.id; [lia|]. pose proof (Z.mod_pos_bound n 10). lia. }
    pose proof (Z.div_mod n 10 ltac:(lia)) as Hdm.
    destruct (Z.eqb_spec (n / 10) 0) as [Hz|Hnz].
    + cbn [fold_left]. rewrite Hd. f_equal. lia.
    + rewrite IH.
      * cbn [fold_left]. rewrite Hd. f_equal. lia.
      * rewrite Nat2Z.inj_succ, Z.pow_succ_r in Hn by lia.
        split; [apply Z.div_pos; lia|]. apply Z.div_lt_upper_bound; lia.
Qed.

Lemma decimal_fuel n : 0 <= n -> n < 10 ^ Z.of_nat (Z.to_nat (Z.log2 n) + 1).
Proof.
  intros Hn. rewrite Nat2Z.inj_add, Z2Nat.id by apply Z.log2_nonneg.
  change (Z.of_nat 1) with 1.
  destruct (Z.eq_dec n 0) as [->|Hnz]; [reflexivity|].
  pose proof (Z.log2_spec n ltac:(lia)) as [_ Hlt].
  replace (Z.succ (Z.log2 n)) with (Z.log2 n + 1) in Hlt by lia.
  eapply Z.lt_le_trans; [exact Hlt|].
  apply Z.pow_le_mono_l. pose proof (Z.log2_nonneg n). lia.
Qed.

Lemma parseInt_decimal n : 0 <= n -> parseInt (decimal n) = n.
Proof.
  intros Hn. unfold parseInt, decimal.
  rewrite parse_digits_of_pos; [reflexivity|]. split; [lia | now apply decimal_fuel].
Qed.

Lemma digits_of_pos_digits fuel : forall n acc,
  0 <= n -> forallb is_digit acc = true ->
  forallb is_digit (digits_of_pos fuel n acc) = true.
Proof.
  induction fuel as [|fuel IH]; intros n acc Hn Hacc; [exact Hacc|].
  cbn [digits_of_pos].
  assert (Hd : is_digit (Z.to_N (48 + n mod 10)) = true).
  { pose proof (Z.mod_pos_bound n 10 ltac:(lia)). unfold is_digit.
    apply andb_true_iff. split; apply N.leb_le; lia. }
  destruct (n / 10 =? 0).
  - simpl. now rewrite Hd.
  - apply IH; [apply Z.div_pos; lia|]. simpl. now rewrite Hd.
Qed.

Lemma digits_of_pos_nonempty fuel : forall n acc,
  acc <> [] -> digits_of_pos fuel n acc <> [].
Proof.
  induction fuel as [|fuel IH]; intros n acc Hacc; [exact Hacc|].
  cbn [digits_of_pos]. destruct (n / 10 =? 0); [discriminate|]. now apply IH.
Qed.

Lemma decimal_digits n :
  0 <= n -> forallb is_digit (decimal n) = true /\ decimal n <> [].
Proof.
  intros Hn. unfold decimal. split.
  - now apply digits_of_pos_digits.
  - rewrite Nat.add_1_r. cbn [digits_of_pos].
    destruct (n / 10 =? 0); [discriminate|]. now apply digits_of_pos_nonempty.
Qed.

(** The last line of a message is matched by the pattern, and the capture
    is the run of digits. *)
Lemma nonce_here_final_line ds :
  forallb is_digit ds = true -> ds <> [] ->
  nonce_here (utf16 "Nonce: " ++ ds)%list = Some ds.
Proof.
  intros Hds Hne. destruct ds as [|d ds]; [congruence|].
  pose proof Hds as Hall. simpl in Hds. apply andb_true_iff in Hds as [Hd _].
  unfold nonce_here.
  change (utf16 "Nonce: " ++ d :: ds)%list
    with (utf16 "Nonce:" ++ 32%N :: d :: ds)%list.
  replace (strip_prefix (utf16 "Nonce:") (utf16 "Nonce:" ++ 32%N :: d :: ds)%list)
    with (Some (32%N :: d :: ds)) by (symmetry; now apply strip_prefix_Some).
  change (skip_while is_space (32%N :: d :: ds)) with (skip_while is_space (d :: ds)).
  rewrite skip_while_stop by now apply digit_not_space.
  now rewrite while_true_all.
Qed.

(** A literal without a line feed that starts before a line feed ends
    before it. *)
Lemma strip_prefix_before_newline p : forall s rest r,
  forallb (fun c => negb (c =? 10)%N) p = true ->
  strip_prefix p (s ++ 10%N :: rest) = Some r ->
  exists r', strip_prefix p s = Some r'.
Proof.
  induction p as [|a p IH]; intros s rest r Hp H; [now exists s|].
  simpl in Hp. apply andb_true_iff in Hp as [Ha Hp].
  destruct s as [|b s].
  - simpl in H. destruct (N.eqb_spec a 10) as [->|_]; [discriminate Ha | discriminate H].
  - simpl in *. destruct (a =? b)%N; [|discriminate]. eauto.
Qed.

Lemma nonce_here_no_literal s rest :
  strip_prefix (utf16 "Nonce:") s = None ->
  nonce_here (s ++ 10%N :: rest) = None.
Proof.
  intros Hs. unfold nonce_here.
  destruct (strip_prefix (utf16 "Nonce:") (s ++ 10%N :: rest)) as [r|] eqn:E;
    [|reflexivity].
  apply strip_prefix_before_newline in E as [r' E']; [congruence | reflexivity].
Qed.

(** Where the literal does not occur before a line feed, the search goes on
    after it. *)
Lemma nonceMatch_skips_header header rest :
  SipClient.has_literal header = false ->
  nonceMatch (header ++ 10%N :: rest) = nonceMatch rest.
Proof.
  induction header as [|c header IH]; intros H.
  - change ([] ++ 10%N :: rest)%list with (10%N :: rest).
    rewrite nonceMatch_cons. reflexivity.
  - cbn [SipClient.has_literal] in H.
    destruct (strip_prefix (utf16 "Nonce:") (c :: header)) eqn:E; [discriminate|].
    change ((c :: header) ++ 10%N :: rest)%list with (c :: (header ++ 10%N :: rest))%list.
    rewrite nonceMatch_cons.
    change (c :: (header ++ 10%N :: rest))%list with ((c :: header) ++ 10%N :: rest)%list.
    rewrite (nonce_here_no_literal (c :: header) rest E). now apply IH.
Qed.

Lemma nonceMatch_final_line ds :
  forallb is_digit ds = true -> ds <> [] ->
  nonceMatch (utf16 "Nonce: " ++ ds)%list = Some ds.
Proof.
  intros Hds Hne. change (utf16 "Nonce: " ++ ds)%list with (78%N :: (utf16 "once: " ++ ds))%list.
  rewrite nonceMatch_cons.
  change (78%N :: (utf16 "once: " ++ ds))%list with (utf16 "Nonce: " ++ ds)%list.
  now rewrite nonce_here_final_line.
Qed.

Lemma createSignatureMessage_split nonce action params :
  createSignatureMessage nonce action params
  = ((action ++ newline
        ++ join (utf16 ", ")
             (map (fun kv => (fst kv ++ utf16 ": " ++ snd kv)%list) params))
       ++ 10%N :: (utf16 "Nonce: " ++ decimal nonce))%list.
Proof.
  unfold createSignatureMessage, newline. now rewrite <- !app_assoc.
Qed.

Lemma nonceMatch_createSignatureMessage nonce action params :
  0 <= nonce ->
  SipClient.has_literal
    (action ++ newline
       ++ join (utf16 ", ")
            (map (fun kv => (fst kv ++ utf16 ": " ++ snd kv)%list) params))%list = false ->
  nonceMatch (createSignatureMessage nonce action params) = Some (decimal nonce).
Proof.
  intros Hn Hh. rewrite createSignatureMessage_split, nonceMatch_skips_header by exact Hh.
  destruct (decimal_digits nonce Hn). now apply nonceMatch_final_line.
Qed.
End CodecFacts.

Lemma verifySignature_accepts_built_message_aux {S}
    (recover : list N -> string -> outcome string) nonce action params signature a
    (w : Runtime S) :
  0 <= nonce < 10 ^ 21 ->
  SipClient.has_literal
    (action ++ newline
       ++ SignatureVerify.join (utf16 ", ")
            (map (fun kv => (fst kv ++ utf16 ": " ++ snd kv)%list) params))%list = false ->
  -5000 <= clock w - nonce <= 60000 ->
  recover (SignatureVerify.createSignatureMessage nonce action params) signature
  = Returns a ->
  SignatureVerify.verifySignature recover
    (SignatureVerify.createSignatureMessage nonce action params) signature w
  = (Returns (SignatureVerify.mkVerify true (Some a) None), w).
Proof.
  intros Hn Hh Hage Hrec. rewrite verifySignature_run.
  rewrite nonceMatch_createSignatureMessage by (lia || exact Hh).
  rewrite parseInt_decimal by lia. unfold SignatureVerify.SIGNATURE_EXPIRY_MS.
  destruct (Z.gtb_spec (clock w - nonce) 60000); [lia|].
  destruct (Z.ltb_spec (clock w - nonce) (-5000)); [lia|].
  now rewrite Hrec.
Qed.

Section CodecClaims.
Import SignatureVerify.
Context {S : Type}.
Variable recover : list N -> string -> outcome string.

(** X1.  The nonce survives the trip through the message: for a nonce that
    a template literal renders in plain digits, and an action and
    parameters that do not contain the text [Nonce:], the pattern finds
    the digits of the last line of the built message, and [parseInt] reads
    the nonce back from them. *)
Theorem createSignatureMessage_nonce_round_trip nonce action params :
  0 <= nonce < 10 ^ 21 ->
  SipClient.has_literal
    (action ++ newline
       ++ join (utf16 ", ")
            (map (fun kv => (fst kv ++ utf16 ": " ++ snd kv)%list) params))%list = false ->
  nonceMatch (createSignatureMessage nonce action params) = Some (decimal nonce)
  /\ parseInt (decimal nonce) = nonce.
Proof.
  intros Hn Hh. split.
  - apply nonceMatch_createSignatureMessage; [lia | exact Hh].
  - apply parseInt_decimal. lia.
Qed.

(** X2.  A message built by [createSignatureMessage] whose action and
    parameters do not contain the text [Nonce:] is accepted by
    [verifySignature] whenever the verifier's clock is at most 60000 ms
    after and at most 5000 ms before the nonce and the signature recovers
    to an address; the result carries that address, and nothing is written
    or changed. *)
Theorem verifySignature_accepts_built_message nonce action params signature a
    (w : Runtime S) :
  0 <= nonce < 10 ^ 21 ->
  SipClient.has_literal
    (action ++ newline
       ++ join (utf16 ", ")
            (map (fun kv => (fst kv ++ utf16 ": " ++ snd kv)%list) params))%list = false ->
  -5000 <= clock w - nonce <= 60000 ->
  recover (createSignatureMessage nonce action params) signature = Returns a ->
  verifySignature recover (createSignatureMessage nonce action params) signature w
  = (Returns (mkVerify true (Some a) None), w).
Proof.
  intros Hn Hh Hage Hrec. rewrite verifySignature_run.
  rewrite nonceMatch_createSignatureMessage by (lia || exact Hh).
  rewrite parseInt_decimal by lia. unfold SIGNATURE_EXPIRY_MS.
  destruct (Z.gtb_spec (clock w - nonce) 60000); [lia|].
  destruct (Z.ltb_spec (clock w - nonce) (-5000)); [lia|].
  now rewrite Hrec.
Qed.

(** X3.  [verifySignature] answers with the missing-nonce error exactly for
    the messages that contain no match of [Nonce:\s*(\d+)], whatever the
    clock and the signature. *)
Theorem verifySignature_missing_nonce_iff message signature (w : Runtime S) :
  fst (verifySignature recover message signature w)
  = Returns (mkVerify false None (Some "Message missing nonce"))
  <-> ~ contains_nonce_pattern message.
Proof.
  rewrite <- nonceMatch_None_iff, verifySignature_run.
  destruct (nonceMatch message) as [digits|]; [|now split].
  split; [|discriminate].
  destruct (_ >? _); [discriminate|]. destruct (_ <? _); [discriminate|].
  destruct (recover message signature); discriminate.
Qed.

(** X4.  [verifySignature] accepts exactly when the message has a nonce, the
    age of the nonce lies between -5000 and 60000 inclusive, and the address
    recovery returns; the accepted result carries the recovered address.
    Whatever the answer, the store and the clock are left as they were. *)
Theorem verifySignature_accepts_iff message signature (w : Runtime S) :
  exists r w',
    verifySignature recover message signature w = (Returns r, w')
    /\ (valid r = true <->
        exists digits a,
          nonceMatch message = Some digits
          /\ -5000 <= clock w - parseInt digits <= 60000
          /\ recover message signature = Returns a
          /\ address r = Some a)
    /\ store w' = store w /\ clock w' = clock w.
Proof.
  rewrite verifySignature_run. unfold SIGNATURE_EXPIRY_MS.
  destruct (nonceMatch message) as [digits|].
  - destruct (Z.gtb_spec (clock w - parseInt digits) 60000).
    { eexists _, _. split; [reflexivity|]. split; [|now split].
      split; [discriminate|]. intros (d & a & [= <-] & Hage & _). lia. }
    destruct (Z.ltb_spec (clock w - parseInt digits) (-5000)).
    { eexists _, _. split; [reflexivity|]. split; [|now split].
      split; [discriminate|]. intros (d & a & [= <-] & Hage & _). lia. }
    destruct (recover message signature) as [a|e] eqn:Hrec.
    + eexists _, _. split; [reflexivity|]. split; [|now split].
      split; [intros _|reflexivity]. exists digits, a. repeat split; auto; lia.
    + eexists _, _. split; [reflexivity|]. split; [|now split].
      split; [discriminate|]. intros (d & a & _ & _ & [=] & _).
  - eexists _, _. split; [reflexivity|]. split; [|now split].
    split; [discriminate|]. intros (d & a & [=] & _).
Qed.

(** X5.  The digits [message.match] captures are those of the leftmost
    position of the message at which the pattern matches: a result means
    that the pattern matches at some position with that capture and at no
    position before it. *)
Theorem nonceMatch_leftmost message ds :
  nonceMatch message = Some ds <->
  exists pre rest,
    message = (pre ++ rest)%list
    /\ nonce_here rest = Some ds
    /\ forall i, (i < length pre)%nat -> nonce_here (drop i message) = None.
Proof.
  split.
  - revert ds. induction message as [|c message IH]; intros ds.
    + rewrite nonceMatch_nil. discriminate.
    + rewrite nonceMatch_cons. destruct (nonce_here (c :: message)) eqn:E.
      * intros [= ->]. exists [], (c :: message). repeat split; auto.
        simpl. intros i Hi. lia.
      * intros H. destruct (IH ds H) as (pre & rest & -> & Hr & Hno).
        exists (c :: pre), rest. repeat split; auto.
        intros [|i] Hi; [exact E|]. simpl in Hi. apply Hno. lia.
  - intros (pre & rest & -> & Hr & Hno). induction pre as [|c pre IH].
    + destruct rest as [|c rest]; [discriminate Hr|].
      change ([] ++ c :: rest)%list with (c :: rest). now rewrite nonceMatch_cons, Hr.
    + change ((c :: pre) ++ rest)%list with (c :: (pre ++ rest))%list.
      rewrite nonceMatch_cons.
      pose proof (Hno 0%nat ltac:(simpl; lia)) as H0.
      change (drop 0 ((c :: pre) ++ rest)%list) with (c :: (pre ++ rest))%list in H0.
      rewrite H0. apply IH.
      intros i Hi. apply (Hno (Datatypes.S i)). simpl. lia.
Qed.
End CodecClaims.

(** Witness for X1: the message for pausing Alice's plan at 1700000000000. *)
Lemma createSignatureMessage_nonce_round_trip_witness :
  SignatureVerify.nonceMatch
    (SignatureVerify.createSignatureMessage 1700000000000 (utf16 "Update SIP")
       [(utf16 "sipId", utf16 Sample.plan_id); (utf16 "status", utf16 "paused")])
  = Some (SignatureVerify.decimal 1700000000000)
  /\ SignatureVerify.parseInt (SignatureVerify.decimal 1700000000000) = 1700000000000.
Proof.
  apply (createSignatureMessage_nonce_round_trip 1700000000000 (utf16 "Update SIP")
           [(utf16 "sipId", utf16 Sample.plan_id); (utf16 "status", utf16 "paused")]).
  - lia.
  - vm_compute. reflexivity.
Defined.

(** Witness for X2: that message, verified 59 seconds later. *)
Lemma verifySignature_accepts_built_message_witness :
  SignatureVerify.verifySignature Sample.recover
    (SignatureVerify.createSignatureMessage 1700000000000 (utf16 "Update SIP")
       [(utf16 "sipId", utf16 Sample.plan_id); (utf16 "status", utf16 "paused")])
    "0x5160" (mkRuntime 1700000059000 [] tt)
  = (Returns (SignatureVerify.mkVerify true (Some "0xA11CE") None),
     mkRuntime 1700000059000 [] tt).
Proof.
  apply (verifySignature_accepts_built_message Sample.recover 1700000000000
           (utf16 "Update SIP")
           [(utf16 "sipId", utf16 Sample.plan_id); (utf16 "status", utf16 "paused")]
           "0x5160" "0xA11CE" (mkRuntime 1700000059000 [] tt)).
  - lia.
  - vm_compute. reflexivity.
  - simpl. lia.
  - reflexivity.
Defined.

(** ** Reading the plans *)

Section ReadFacts.
Variable pg : Db.Postgres.

Lemma insert_newest_perm first row rows :
  Permutation (DbReads.insert_newest first row rows) (row :: rows).
Proof.
  induction rows as [|r rows IH]; simpl; [reflexivity|].
  destruct ((Db.created_at r <? Db.created_at row)
            || ((Db.created_at r =? Db.created_at row) && first row r)); [reflexivity|].
  rewrite IH. apply perm_swap.
Qed.

Lemma newest_first_perm first rows : Permutation (DbReads.newest_first first rows) rows.
Proof.
  induction rows as [|r rows IH]; simpl; [reflexivity|].
  rewrite insert_newest_perm. now apply perm_skip.
Qed.

(** Whatever Postgres does with rows created at the same time, the result
    is in order. *)
Lemma insert_newest_sorted first row rows :
  StronglySorted (fun a b => Db.created_at b <= Db.created_at a) rows ->
  StronglySorted (fun a b => Db.created_at b <= Db.created_at a)
                 (DbReads.insert_newest first row rows).
Proof.
  induction 1 as [|r rows Hs IH Hr]; simpl.
  - constructor; constructor.
  - destruct ((Db.created_at r <? Db.created_at row)
              || ((Db.created_at r =? Db.created_at row) && first row r)) eqn:Hc.
    + assert (Db.created_at r <= Db.created_at row) as Hle.
      { apply orb_true_iff in Hc as [Hc|Hc]; [apply Z.ltb_lt in Hc; lia|].
        apply andb_true_iff in Hc as [Hc _]. apply Z.eqb_eq in Hc. lia. }
      constructor; [now constructor|]. constructor; [assumption|].
      eapply Forall_impl; [exact Hr|]. cbn. intros b Hb. lia.
    + apply orb_false_iff in Hc as [Hc _]. apply Z.ltb_ge in Hc.
      constructor; [exact IH|].
      eapply Permutation_Forall; [symmetry; apply insert_newest_perm|].
      constructor; [lia | exact Hr].
Qed.

Lemma newest_first_sorted first rows :
  StronglySorted (fun a b => Db.created_at b <= Db.created_at a)
                 (DbReads.newest_first first rows).
Proof.
  induction rows as [|r rows IH]; simpl; [constructor | now apply insert_newest_sorted].
Qed.

Lemma Forall_filter_keeps {A} (P : A -> Prop) f (l : list A) :
  Forall P l -> Forall P (List.filter f l).
Proof.
  induction 1 as [|a l Ha _ IH]; simpl; [constructor|].
  destruct (f a); [now constructor | exact IH].
Qed.

Lemma filter_sorted {A} (R : A -> A -> Prop) f (l : list A) :
  StronglySorted R l -> StronglySorted R (List.filter f l).
Proof.
  induction 1 as [|a l Hs IH Ha]; simpl; [constructor|].
  destruct (f a); [|exact IH]. constructor; [exact IH|]. now apply Forall_filter_keeps.
Qed.

Lemma filter_perm {A} f (l l' : list A) :
  Permutation l l' -> Permutation (List.filter f l) (List.filter f l').
Proof.
  induction 1 as [|a l l' _ IH|a b l|l l' l'' _ IH1 _ IH2]; simpl.
  - constructor.
  - destruct (f a); [now constructor | exact IH].
  - destruct (f a), (f b); try reflexivity. apply perm_swap.
  - now rewrite IH1.
Qed.

(** Two lists with the same rows, both in order, are the same list when no
    two different rows were created at the same time. *)
Lemma sorted_perm_eq (l l' : list Db.SIP) :
  StronglySorted (fun a b => Db.created_at b <= Db.created_at a) l ->
  StronglySorted (fun a b => Db.created_at b <= Db.created_at a) l' ->
  Permutation l l' ->
  (forall a b, In a l -> In b l -> Db.created_at a = Db.created_at b -> a = b) ->
  l = l'.
Proof.
  intros Hl. revert l'. induction Hl as [|a l Hs IH Ha]; intros l' Hl' Hp Hone.
  - now apply Permutation_nil in Hp.
  - destruct Hl' as [|b l' Hs' Hb].
    { symmetry in Hp. now apply Permutation_nil in Hp. }
    assert (a = b) as <-.
    { assert (In a (b :: l')) as [Heq|Hin]
        by (eapply Permutation_in; [exact Hp | now left]); [now symmetry|].
      assert (In b (a :: l)) as [Heq|Hin']
        by (eapply Permutation_in; [symmetry; exact Hp | now left]); [exact Heq|].
      apply Hone; [now left | now right |].
      pose proof (proj1 (List.Forall_forall _ _) Ha b Hin').
      pose proof (proj1 (List.Forall_forall _ _) Hb a Hin). cbn in *. lia. }
    f_equal. apply IH; [exact Hs' | now apply Permutation_cons_inv in Hp |].
    intros x y Hx Hy. apply Hone; now right.
Qed.

(** [db.getUserSIPs], step by step. *)
Lemma db_getUserSIPs_run userId (w : Runtime Db.Database) :
  DbReads.getUserSIPs pg userId w =
  if negb (hd false (Db.outages (store w))) && Db.uuid_in pg userId then
    (Returns (DbReads.newest_first (Db.comes_first pg Db.UserPlans)
                (List.filter (fun row => Db.same_uuid pg (Db.user_id row) userId)
                             (Db.sips (store w)))),
     mkRuntime (clock w) (console w)
       (Db.mkDatabase (Db.users (store w)) (Db.sips (store w))
                      (Db.uuids_issued (store w)) (tl (Db.outages (store w)))))
  else
    (Returns [],
     mkRuntime (clock w) (console w ++ [(ConsoleError, ["Failed to get user SIPs:"])])
       (Db.mkDatabase (Db.users (store w)) (Db.sips (store w))
                      (Db.uuids_issued (store w)) (tl (Db.outages (store w))))).
Proof.
  unfold DbReads.getUserSIPs, bind. rewrite round_trip_run.
  destruct (negb (hd false (Db.outages (store w))) && Db.uuid_in pg userId); reflexivity.
Qed.

Lemma db_getActiveSIPs_run userId (w : Runtime Db.Database) :
  DbReads.getActiveSIPs pg userId w =
  if negb (hd false (Db.outages (store w))) && Db.uuid_in pg userId then
    (Returns (DbReads.newest_first (Db.comes_first pg Db.ActivePlans)
                (List.filter (fun row => DbReads.is_active (Db.status row))
                   (List.filter (fun row => Db.same_uuid pg (Db.user_id row) userId)
                                (Db.sips (store w))))),
     mkRuntime (clock w) (console w)
       (Db.mkDatabase (Db.users (store w)) (Db.sips (store w))
                      (Db.uuids_issued (store w)) (tl (Db.outages (store w)))))
  else
    (Returns [],
     mkRuntime (clock w) (console w ++ [(ConsoleError, ["Failed to get active SIPs:"])])
       (Db.mkDatabase (Db.users (store w)) (Db.sips (store w))
                      (Db.uuids_issued (store w)) (tl (Db.outages (store w))))).
Proof.
  unfold DbReads.getActiveSIPs, bind. rewrite round_trip_run.
  destruct (negb (hd false (Db.outages (store w))) && Db.uuid_in pg userId); reflexivity.
Qed.

(** X6.  With a client at hand, [db.getUserSIPs] for a [userId] that is a
    uuid, on a request that the database executes, returns the rows whose
    [user_id] has the value of [userId], in whatever spelling the id is
    given, each as often as the table has it and nothing else, newest
    first; the tables are left as they were.  When the request fails or
    [userId] is not a uuid, the answer is the empty list and the failure
    is written to the console. *)
Theorem db_getUserSIPs_newest_first userId (w : Runtime Db.Database) :
  (hd false (Db.outages (store w)) = false -> Db.uuid_in pg userId = true ->
   exists rows,
     DbReads.getUserSIPs pg userId w =
     (Returns rows,
      mkRuntime (clock w) (console w)
        (Db.mkDatabase (Db.users (store w)) (Db.sips (store w))
                       (Db.uuids_issued (store w)) (tl (Db.outages (store w)))))
     /\ StronglySorted (fun a b => Db.created_at b <= Db.created_at a) rows
     /\ Permutation rows
          (List.filter
             (fun row => match Db.uuid_value pg (Db.user_id row), Db.uuid_value pg userId with
                         | Some x, Some y => (x =? y)%N
                         | _, _ => false
                         end)
             (Db.sips (store w))))
  /\ (hd false (Db.outages (store w)) = true \/ Db.uuid_in pg userId = false ->
      DbReads.getUserSIPs pg userId w =
      (Returns [],
       mkRuntime (clock w) (console w ++ [(ConsoleError, ["Failed to get user SIPs:"])])
         (Db.mkDatabase (Db.users (store w)) (Db.sips (store w))
                        (Db.uuids_issued (store w)) (tl (Db.outages (store w)))))).
Proof.
  rewrite db_getUserSIPs_run. split.
  - intros -> ->. cbn [negb andb]. eexists. split; [reflexivity|].
    split; [apply newest_first_sorted | apply newest_first_perm].
  - intros [-> | ->]; [reflexivity|]. now rewrite andb_false_r.
Qed.

(** X7.  Whenever [db.getUserSIPs] returns a list, [db.getActiveSIPs] for
    the same id on the same database returns the active rows of that list:
    the same rows, each as often, newest first; and in the very order in
    which [db.getUserSIPs] has them whenever no two different rows of its
    list were created at the same time.  Both leave the same database
    behind. *)
Theorem db_getActiveSIPs_of_getUserSIPs userId (w : Runtime Db.Database) rows w1 :
  DbReads.getUserSIPs pg userId w = (Returns rows, w1) ->
  exists active w2,
    DbReads.getActiveSIPs pg userId w = (Returns active, w2)
    /\ store w2 = store w1
    /\ StronglySorted (fun a b => Db.created_at b <= Db.created_at a) active
    /\ Permutation active
         (List.filter (fun row => match Db.status row with
                                  | Db.active => true
                                  | _ => false
                                  end) rows)
    /\ ((forall a b, In a rows -> In b rows ->
                     Db.created_at a = Db.created_at b -> a = b) ->
        active = List.filter (fun row => match Db.status row with
                                         | Db.active => true
                                         | _ => false
                                         end) rows).
Proof.
  rewrite db_getUserSIPs_run, db_getActiveSIPs_run.
  destruct (negb (hd false (Db.outages (store w))) && Db.uuid_in pg userId);
    intros [= <- <-].
  - eexists _, _. split; [reflexivity|].
    split; [reflexivity|]. split; [apply newest_first_sorted|].
    assert (Permutation
              (DbReads.newest_first (Db.comes_first pg Db.ActivePlans)
                 (List.filter (fun row => DbReads.is_active (Db.status row))
                    (List.filter (fun row => Db.same_uuid pg (Db.user_id row) userId)
                                 (Db.sips (store w)))))
              (List.filter (fun row => DbReads.is_active (Db.status row))
                 (DbReads.newest_first (Db.comes_first pg Db.UserPlans)
                    (List.filter (fun row => Db.same_uuid pg (Db.user_id row) userId)
                                 (Db.sips (store w)))))) as Hperm.
    { rewrite newest_first_perm. apply filter_perm. symmetry. apply newest_first_perm. }
    split; [exact Hperm|]. intros Hone.
    apply sorted_perm_eq; [apply newest_first_sorted | | exact Hperm |].
    + apply filter_sorted, newest_first_sorted.
    + intros a b Ha Hb. apply Hone.
      * eapply (proj1 (filter_In _ _ _)), Permutation_in; [exact Hperm | exact Ha].
      * eapply (proj1 (filter_In _ _ _)), Permutation_in; [exact Hperm | exact Hb].
  - eexists _, _. split; [reflexivity|].
    split; [reflexivity|]. split; [constructor|]. split; [constructor|]. reflexivity.
Qed.
End ReadFacts.

(** Witness for X6: the plans of Alice, asked for under the upper-case
    spelling of her id, and under a text that is not a uuid. *)
Lemma db_getUserSIPs_newest_first_witness :
  (exists rows,
     DbReads.getUserSIPs Sample.pg "5F0C2A9E-0000-4000-8000-000000000000" (Sample.server 60)
     = (Returns rows,
        mkRuntime 60 []
          (Db.mkDatabase [Sample.alice] [Sample.plan Db.cancelled 40; Sample.other_plan]
                         3 []))
     /\ StronglySorted (fun a b => Db.created_at b <= Db.created_at a) rows
     /\ Permutation rows [Sample.plan Db.cancelled 40; Sample.other_plan])
  /\ DbReads.getUserSIPs Sample.pg "alice" (Sample.server 60)
     = (Returns [],
        mkRuntime 60 [(ConsoleError, ["Failed to get user SIPs:"])]
          (Db.mkDatabase [Sample.alice] [Sample.plan Db.cancelled 40; Sample.other_plan]
                         3 [])).
Proof.
  split.
  - apply (proj1 (db_getUserSIPs_newest_first Sample.pg
                    "5F0C2A9E-0000-4000-8000-000000000000" (Sample.server 60))
             eq_refl eq_refl).
  - apply (proj2 (db_getUserSIPs_newest_first Sample.pg "alice" (Sample.server 60))).
    right. reflexivity.
Defined.

(** Witness for X7: the plans of Alice once her second plan is active
    again, and the active ones among them. *)
Lemma db_getActiveSIPs_of_getUserSIPs_witness :
  exists active w2,
    DbReads.getActiveSIPs Sample.pg (Db.u_id Sample.alice)
      (mkRuntime 60 []
         (Db.mkDatabase [Sample.alice]
            [Sample.plan Db.cancelled 40;
             Db.mkSIP Sample.other_plan_id (Db.u_id Sample.alice) "ETH" 4 (Db.Num 2000)
                      Db.active 25 50] 3 []))
    = (Returns active, w2)
    /\ store w2 = Db.mkDatabase [Sample.alice]
                     [Sample.plan Db.cancelled 40;
                      Db.mkSIP Sample.other_plan_id (Db.u_id Sample.alice) "ETH" 4
                               (Db.Num 2000) Db.active 25 50] 3 []
    /\ StronglySorted (fun a b => Db.created_at b <= Db.created_at a) active
    /\ Permutation active
         [Db.mkSIP Sample.other_plan_id (Db.u_id Sample.alice) "ETH" 4 (Db.Num 2000)
                   Db.active 25 50]
    /\ ((forall a b,
           In a [Db.mkSIP Sample.other_plan_id (Db.u_id Sample.alice) "ETH" 4
                          (Db.Num 2000) Db.active 25 50;
                 Sample.plan Db.cancelled 40] ->
           In b [Db.mkSIP Sample.other_plan_id (Db.u_id Sample.alice) "ETH" 4
                          (Db.Num 2000) Db.active 25 50;
                 Sample.plan Db.cancelled 40] ->
           Db.created_at a = Db.created_at b -> a = b) ->
        active = [Db.mkSIP Sample.other_plan_id (Db.u_id Sample.alice) "ETH" 4
                           (Db.Num 2000) Db.active 25 50]).
Proof.
  apply (db_getActiveSIPs_of_getUserSIPs Sample.pg (Db.u_id Sample.alice)
           (mkRuntime 60 []
              (Db.mkDatabase [Sample.alice]
                 [Sample.plan Db.cancelled 40;
                  Db.mkSIP Sample.other_plan_id (Db.u_id Sample.alice) "ETH" 4 (Db.Num 2000)
                           Db.active 25 50] 3 []))
           [Db.mkSIP Sample.other_plan_id (Db.u_id Sample.alice) "ETH" 4 (Db.Num 2000)
                     Db.active 25 50;
            Sample.plan Db.cancelled 40]
           (mkRuntime 60 []
              (Db.mkDatabase [Sample.alice]
                 [Sample.plan Db.cancelled 40;
                  Db.mkSIP Sample.other_plan_id (Db.u_id Sample.alice) "ETH" 4 (Db.Num 2000)
                           Db.active 25 50] 3 []))).
  vm_compute. reflexivity.
Defined.

(** The first run of the witness for X6, evaluated: the newer plan comes
    first. *)
Example db_getUserSIPs_other_spelling :
  fst (DbReads.getUserSIPs Sample.pg "5F0C2A9E-0000-4000-8000-000000000000"
         (Sample.server 60))
  = Returns [Sample.other_plan; Sample.plan Db.cancelled 40].
Proof. vm_compute. reflexivity. Qed.

(** ** Users and plans in the tables *)

Section TableFacts.
Variable pg : Db.Postgres.

Lemma getUserByWallet_run walletAddress (w : Runtime Db.Database) :
  Db.getUserByWallet pg walletAddress w =
  if negb (hd false (Db.outages (store w))) then
    match find (fun u => String.eqb (Db.wallet_address u) walletAddress)
               (Db.users (store w)) with
    | Some u =>
        (Returns (Some u),
         mkRuntime (clock w) (console w)
           (Db.mkDatabase (Db.users (store w)) (Db.sips (store w))
                          (Db.uuids_issued (store w)) (tl (Db.outages (store w)))))
    | None =>
        match Db.respell walletAddress (Db.users (store w)) with
        | Some (u, merged) =>
            (Returns (Some u),
             mkRuntime (clock w) (console w)
               (Db.mkDatabase merged (Db.sips (store w))
                              (Db.uuids_issued (store w)) (tl (Db.outages (store w)))))
        | None =>
            (Returns (Some (Db.mkUser (Db.gen_random_uuid pg (Db.uuids_issued (store w)))
                                      walletAddress (clock w))),
             mkRuntime (clock w) (console w)
               (Db.mkDatabase
                  (Db.users (store w)
                     ++ [Db.mkUser (Db.gen_random_uuid pg (Db.uuids_issued (store w)))
                                   walletAddress (clock w)])%list
                  (Db.sips (store w)) (S (Db.uuids_issued (store w)))
                  (tl (Db.outages (store w)))))
        end
    end
  else
    (Returns None,
     mkRuntime (clock w) (console w ++ [(ConsoleError, ["Failed to get/create user:"])])
       (Db.mkDatabase (Db.users (store w)) (Db.sips (store w))
                      (Db.uuids_issued (store w)) (tl (Db.outages (store w))))).
Proof.
  unfold Db.getUserByWallet, bind. rewrite round_trip_run.
  destruct (negb (hd false (Db.outages (store w)))); [|reflexivity].
  unfold Db.users_upsert, bind. cbn [get_store store Db.users].
  destruct (find _ (Db.users (store w))); [reflexivity|].
  now destruct (Db.respell walletAddress (Db.users (store w))) as [[u merged]|].
Qed.

Lemma db_createSIP_run userId assetName assetIndex amount (w : Runtime Db.Database) :
  Db.createSIP pg userId assetName assetIndex amount w =
  if negb (hd false (Db.outages (store w)))
     && Db.sips_accepts pg (store w) userId assetName assetIndex amount then
    (Returns (Some (Db.mkSIP (Db.gen_random_uuid pg (Db.uuids_issued (store w))) userId
                             assetName assetIndex amount Db.active (clock w) (clock w))),
     mkRuntime (clock w) (console w)
       (Db.mkDatabase (Db.users (store w))
          (Db.sips (store w)
             ++ [Db.mkSIP (Db.gen_random_uuid pg (Db.uuids_issued (store w))) userId
                          assetName assetIndex amount Db.active (clock w) (clock w)])%list
          (S (Db.uuids_issued (store w))) (tl (Db.outages (store w)))))
  else
    (Returns None,
     mkRuntime (clock w) (console w ++ [(ConsoleError, ["Failed to create SIP:"])])
       (Db.mkDatabase (Db.users (store w)) (Db.sips (store w))
                      (Db.uuids_issued (store w)) (tl (Db.outages (store w))))).
Proof.
  unfold Db.createSIP, bind. rewrite round_trip_run. cbn [get_store store].
  unfold Db.sips_accepts at 1. cbn [Db.users].
  fold (Db.sips_accepts pg (store w) userId assetName assetIndex amount).
  destruct (negb (hd false (Db.outages (store w)))
            && Db.sips_accepts pg (store w) userId assetName assetIndex amount); reflexivity.
Qed.

Lemma find_app_fresh {A} (f : A -> bool) l a :
  find f l = None -> f a = true -> find f (l ++ [a]) = Some a.
Proof.
  induction l as [|b l IH]; simpl; intros Hl Ha; [now rewrite Ha|].
  destruct (f b); [discriminate | now apply IH].
Qed.

(** After a respelling the row with the new spelling is the one that is
    found by it. *)
Lemma find_respell walletAddress users u merged :
  find (fun u => String.eqb (Db.wallet_address u) walletAddress) users = None ->
  Db.respell walletAddress users = Some (u, merged) ->
  find (fun u => String.eqb (Db.wallet_address u) walletAddress) merged = Some u
  /\ Db.wallet_address u = walletAddress.
Proof.
  revert u merged. induction users as [|x rest IH]; intros u merged; [discriminate|].
  cbn [find Db.respell].
  destruct (String.eqb (Db.wallet_address x) walletAddress) eqn:Hx; [discriminate|].
  intros Hnone.
  destruct (Db.same_address (Db.wallet_address x) walletAddress).
  - intros [= <- <-]. cbn. now rewrite String.eqb_refl.
  - destruct (Db.respell walletAddress rest) as [[u' rest']|]; [|discriminate].
    intros [= <- <-]. cbn [find]. rewrite Hx. now apply IH.
Qed.

Lemma find_app_found {A} (f : A -> bool) l l' a :
  find f l = Some a -> find f (l ++ l') = Some a.
Proof.
  induction l as [|b l IH]; simpl; [discriminate|].
  destruct (f b); [trivial | exact IH].
Qed.


(** X9.  A status update touches nothing but the status and the update
    time of the rows with the id of the request, ids being compared as
    uuids.  With a client at hand: when the request is executed and the id
    is a uuid, the service reports success, the users are as before and the
    plans are the old ones, row by row: a row whose id has the value of the
    id of the request, in whatever spelling, is that row with the new
    status and the time of the request, and every other row is as it was.
    When the request fails or the id is not a uuid, the service reports the
    failure and both tables are as before. *)
Theorem updateSIPStatus_frame sipId status (w : Runtime Db.Database) :
  (hd false (Db.outages (store w)) = false -> Db.uuid_in pg sipId = true ->
   exists w',
     SipService.updateSIPStatus pg sipId status w
     = (Returns (SipService.mkResult true None
                   (Some ("SIP " ++ match status with
                                    | Db.active => "resumed"
                                    | _ => Db.status_text status
                                    end)%string) None), w')
     /\ Db.users (store w') = Db.users (store w)
     /\ Forall2
          (fun old new =>
             match Db.uuid_value pg (Db.id old), Db.uuid_value pg sipId with
             | Some x, Some y =>
                 if (x =? y)%N
                 then new = Db.mkSIP (Db.id old) (Db.user_id old) (Db.asset_name old)
                                     (Db.asset_index old) (Db.monthly_amount_usdc old)
                                     status (Db.created_at old) (clock w)
                 else new = old
             | _, _ => new = old
             end)
          (Db.sips (store w)) (Db.sips (store w')))
  /\ (hd false (Db.outages (store w)) = true \/ Db.uuid_in pg sipId = false ->
      exists w',
        SipService.updateSIPStatus pg sipId status w
        = (Returns (SipService.mkResult false None None
                      (Some "Failed to update SIP status")), w')
        /\ Db.users (store w') = Db.users (store w)
        /\ Db.sips (store w') = Db.sips (store w)).
Proof.
  rewrite updateSIPStatus_run, db_updateSIPStatus_run. split.
  - intros -> ->. cbn [negb andb]. eexists. split; [reflexivity|].
    cbn [store Db.users Db.sips]. split; [reflexivity|].
    induction (Db.sips (store w)) as [|row rows IH]; [constructor|].
    cbn [map]. constructor; [|exact IH].
    unfold Db.apply_update, Db.same_uuid.
    destruct (Db.uuid_value pg (Db.id row)), (Db.uuid_value pg sipId); try reflexivity.
    now destruct (_ =? _)%N.
  - intros Hfail.
    assert (negb (hd false (Db.outages (store w))) && Db.uuid_in pg sipId = false) as ->.
    { destruct Hfail as [-> | ->]; [reflexivity | apply andb_false_r]. }
    eexists. split; [reflexivity|]. now split.
Qed.

(** X10.  An update for an id that no plan has is not an error.  With a
    client at hand, when the request is executed, the id is a uuid and no
    plan has an id of that value, the service reports success and the two
    tables are as before. *)
Theorem updateSIPStatus_unknown_id sipId status (w : Runtime Db.Database) :
  (forall row, In row (Db.sips (store w)) ->
               Db.uuid_value pg (Db.id row) <> Db.uuid_value pg sipId) ->
  hd false (Db.outages (store w)) = false ->
  Db.uuid_in pg sipId = true ->
  SipService.updateSIPStatus pg sipId status w
  = (Returns (SipService.mkResult true None
                (Some ("SIP " ++ match status with
                                 | Db.active => "resumed"
                                 | _ => Db.status_text status
                                 end)%string) None),
     mkRuntime (clock w) (console w)
       (Db.mkDatabase (Db.users (store w)) (Db.sips (store w))
                      (Db.uuids_issued (store w)) (tl (Db.outages (store w))))).
Proof.
  intros Hnone Hup Huuid.
  rewrite updateSIPStatus_run, db_updateSIPStatus_run, Hup, Huuid. cbn [negb andb].
  replace (map (Db.apply_update pg sipId status (clock w)) (Db.sips (store w)))
    with (Db.sips (store w)); [reflexivity|].
  induction (Db.sips (store w)) as [|row rows IH]; [reflexivity|].
  cbn [map]. rewrite apply_update_miss.
  - f_equal. apply IH. intros r Hr. apply Hnone. now right.
  - specialize (Hnone row (or_introl eq_refl)). unfold Db.same_uuid.
    destruct (Db.uuid_value pg (Db.id row)), (Db.uuid_value pg sipId); try reflexivity.
    apply N.eqb_neq. congruence.
Qed.
End TableFacts.


(** Witness for X9: Alice's second plan paused at time 50 under the
    upper-case spelling of its id, and the same request with an id that is
    not a uuid. *)
Lemma updateSIPStatus_frame_witness :
  (exists w',
     SipService.updateSIPStatus Sample.pg "5F0C2A9E-0000-4000-8000-000000000001"
                                Db.paused (Sample.server 50)
     = (Returns (SipService.mkResult true None (Some "SIP paused") None), w')
     /\ Db.users (store w') = [Sample.alice]
     /\ Db.sips (store w') = [Sample.plan Db.paused 50; Sample.other_plan])
  /\ (exists w',
        SipService.updateSIPStatus Sample.pg "plan-1" Db.paused (Sample.server 50)
        = (Returns (SipService.mkResult false None None
                      (Some "Failed to update SIP status")), w')
        /\ Db.users (store w') = [Sample.alice]
        /\ Db.sips (store w') = [Sample.plan Db.cancelled 40; Sample.other_plan]).
Proof.
  split.
  - destruct (proj1 (updateSIPStatus_frame Sample.pg "5F0C2A9E-0000-4000-8000-000000000001"
                       Db.paused (Sample.server 50)) eq_refl eq_refl)
      as (w' & Hrun & Husers & Hrows).
    exists w'. split; [exact Hrun|]. split; [exact Husers|].
    revert Hrows. generalize (Db.sips (store w')). intros rows Hrows.
    inversion Hrows as [|? r1 ? rest1 H1 Hrest1]; subst.
    inversion Hrest1 as [|? r2 ? rest2 H2 Hrest2]; subst.
    inversion Hrest2; subst.
    vm_compute in H1. vm_compute in H2. now subst.
  - apply (proj2 (updateSIPStatus_frame Sample.pg "plan-1" Db.paused (Sample.server 50))).
    right. reflexivity.
Defined.

(** Witness for X10: an update for a plan id that Alice's server does not
    have. *)
Lemma updateSIPStatus_unknown_id_witness :
  SipService.updateSIPStatus Sample.pg "5f0c2a9e-0000-4000-8000-000000000009"
                             Db.paused (Sample.server 50)
  = (Returns (SipService.mkResult true None (Some "SIP paused") None),
     mkRuntime 50 []
       (Db.mkDatabase [Sample.alice] [Sample.plan Db.cancelled 40; Sample.other_plan]
                      3 [])).
Proof.
  apply (updateSIPStatus_unknown_id Sample.pg "5f0c2a9e-0000-4000-8000-000000000009"
           Db.paused (Sample.server 50)).
  - intros row [<-|[<-|[]]]; vm_compute; discriminate.
  - reflexivity.
  - reflexivity.
Defined.

Section ConstraintFacts.
Variable pg : Db.Postgres.

Lemma row_ok_more_users users u row :
  DbReads.row_ok pg users row -> DbReads.row_ok pg (users ++ [u])%list row.
Proof.
  intros ((v & Hin & Hid) & Hidx & Hamount). split; [|now split].
  exists v. split; [apply in_app_iff; now left | exact Hid].
Qed.

(** A respelling of an address keeps the ids, and with them the owners of
    the plans. *)
Lemma row_ok_same_ids users users' row :
  map Db.u_id users' = map Db.u_id users ->
  DbReads.row_ok pg users row -> DbReads.row_ok pg users' row.
Proof.
  intros Hids ((v & Hin & Hid) & Hidx & Hamount). split; [|now split].
  apply (in_map Db.u_id) in Hin. rewrite <- Hids in Hin.
  apply in_map_iff in Hin as (v' & Heq & Hin'). exists v'. split; [exact Hin'|].
  now rewrite Heq.
Qed.

Lemma sips_accepts_row_ok db rowId userId assetName assetIndex amount st c u :
  Db.sips_accepts pg db userId assetName assetIndex amount = true ->
  DbReads.row_ok pg (Db.users db)
    (Db.mkSIP rowId userId assetName assetIndex amount st c u).
Proof.
  unfold Db.sips_accepts. rewrite !andb_true_iff. intros [[[[Hu _] Hlo] Hhi] Hq].
  apply existsb_exists in Hu as (v & Hin & Heq).
  apply Z.leb_le in Hlo. apply Z.ltb_lt in Hhi.
  split; [now exists v|]. cbn. split; [lia|].
  destruct amount as [q| |]; try discriminate. now exists q.
Qed.

Lemma apply_update_row_ok users sipId status now row :
  DbReads.row_ok pg users row ->
  DbReads.row_ok pg users (Db.apply_update pg sipId status now row).
Proof.
  unfold Db.apply_update. now destruct (Db.same_uuid pg (Db.id row) sipId).
Qed.

Lemma getUserByWallet_keeps walletAddress (w : Runtime Db.Database) :
  DbReads.constraints_hold pg (store w) ->
  DbReads.constraints_hold pg (store (snd (Db.getUserByWallet pg walletAddress w))).
Proof.
  unfold DbReads.constraints_hold. intros H. rewrite getUserByWallet_run.
  destruct (negb (hd false (Db.outages (store w)))); [|exact H].
  destruct (find _ (Db.users (store w))); cbn; [exact H|].
  destruct (Db.respell walletAddress (Db.users (store w))) as [[u merged]|] eqn:Hre; cbn.
  - apply respell_Some in Hre as (_ & Hids & _).
    eapply Forall_impl; [exact H|]. intros row. now apply row_ok_same_ids.
  - eapply Forall_impl; [exact H|]. intros row. apply row_ok_more_users.
Qed.

Lemma db_createSIP_keeps userId assetName assetIndex amount (w : Runtime Db.Database) :
  DbReads.constraints_hold pg (store w) ->
  DbReads.constraints_hold pg
    (store (snd (Db.createSIP pg userId assetName assetIndex amount w))).
Proof.
  unfold DbReads.constraints_hold. intros H. rewrite db_createSIP_run.
  destruct (negb (hd false (Db.outages (store w)))) ; cbn [andb]; [|exact H].
  destruct (Db.sips_accepts pg (store w) userId assetName assetIndex amount) eqn:Hacc;
    [|exact H].
  cbn. apply Forall_app. split; [exact H|]. constructor; [|constructor].
  now apply (sips_accepts_row_ok (store w)).
Qed.

(** X11.  The plan service keeps what the [sips] table demands: if every
    stored plan belongs to a stored user, has an index that fits an [int]
    and an amount of at least 1000, then so it is after [createSIP] and
    after [updateSIPStatus], whatever their arguments and outcome. *)
Theorem service_keeps_constraints params sipId status (w : Runtime Db.Database) :
  DbReads.constraints_hold pg (store w) ->
  DbReads.constraints_hold pg (store (snd (SipService.createSIP pg params w)))
  /\ DbReads.constraints_hold pg
       (store (snd (SipService.updateSIPStatus pg sipId status w))).
Proof.
  intros H. split.
  - unfold SipService.createSIP.
    destruct (Db.number_lt (SipService.monthlyAmountUsdc params) 1000); [exact H|].
    unfold bind at 1. pose proof (getUserByWallet_keeps (SipService.walletAddress params) w H) as H1.
    destruct (Db.getUserByWallet pg (SipService.walletAddress params) w) as [[[user|]|e] w1];
      cbn [snd] in H1; [|exact H1|exact H1].
    unfold bind.
    pose proof (db_createSIP_keeps (Db.u_id user) (SipService.assetName params)
                  (SipService.assetIndex params) (SipService.monthlyAmountUsdc params)
                  w1 H1) as H2.
    destruct (Db.createSIP pg (Db.u_id user) (SipService.assetName params)
                (SipService.assetIndex params) (SipService.monthlyAmountUsdc params) w1)
      as [[[row|]|e] w2]; exact H2.
  - rewrite updateSIPStatus_run, db_updateSIPStatus_run.
    destruct (negb (hd false (Db.outages (store w))) && Db.uuid_in pg sipId); [|exact H].
    unfold DbReads.constraints_hold in *. cbn.
    apply Forall_map. eapply Forall_impl; [exact H|].
    intros row. apply apply_update_row_ok.
Qed.

Lemma createSIP_success_inv params (w : Runtime Db.Database) r w1 :
  SipService.createSIP pg params w = (Returns r, w1) ->
  SipService.success r = true ->
  exists user wa row,
    Db.getUserByWallet pg (SipService.walletAddress params) w = (Returns (Some user), wa)
    /\ Db.createSIP pg (Db.u_id user) (SipService.assetName params)
                    (SipService.assetIndex params) (SipService.monthlyAmountUsdc params) wa
       = (Returns (Some row), w1)
    /\ r = SipService.mkResult true (Some row) (Some "SIP created successfully") None.
Proof.
  unfold SipService.createSIP.
  destruct (Db.number_lt (SipService.monthlyAmountUsdc params) 1000);
    [intros [= <- <-]; discriminate|].
  unfold bind at 1.
  destruct (Db.getUserByWallet pg (SipService.walletAddress params) w)
    as [[[user|]|e] wa]; [|intros [= <- <-]; discriminate|discriminate].
  unfold bind.
  destruct (Db.createSIP pg (Db.u_id user) (SipService.assetName params)
              (SipService.assetIndex params) (SipService.monthlyAmountUsdc params) wa)
    as [[[row|]|e] w2] eqn:Hrow; [|intros [= <- <-]; discriminate|discriminate].
  intros [= <- <-] _. now exists user, wa, row.
Qed.

(** X12.  A plan that [createSIP] reports created is listed for its owner:
    when the two requests of [getUserSIPs] reach the database and the
    user's id is a uuid, the list [getUserSIPs] returns for the same wallet
    address contains the created record. *)
Theorem created_plan_is_listed params row message (w w1 : Runtime Db.Database) :
  SipService.createSIP pg params w
  = (Returns (SipService.mkResult true (Some row) message None), w1) ->
  hd false (Db.outages (store w1)) = false ->
  hd false (tl (Db.outages (store w1))) = false ->
  Db.uuid_in pg (Db.user_id row) = true ->
  exists rows w2,
    SipReads.getUserSIPs pg (SipService.walletAddress params) w1 = (Returns rows, w2)
    /\ In row rows.
Proof.
  intros Hcreate Hup1 Hup2 Huuid.
  destruct (createSIP_success_inv params w _ w1 Hcreate eq_refl)
    as (user & wa & row' & Huser & Hrow & [= <- _]).
  assert (Hfind : find (fun u => String.eqb (Db.wallet_address u)
                                            (SipService.walletAddress params))
                       (Db.users (store wa)) = Some user).
  { revert Huser. rewrite getUserByWallet_run.
    destruct (negb (hd false (Db.outages (store w)))); [|discriminate].
    destruct (find _ (Db.users (store w))) as [u|] eqn:Hf.
    - intros [= <- <-]. exact Hf.
    - destruct (Db.respell _ (Db.users (store w))) as [[u merged]|] eqn:Hre.
      + intros [= <- <-]. cbn. now apply (find_respell _ _ _ _ Hf Hre).
      + intros [= <- <-]. cbn. apply find_app_fresh; [exact Hf|]. cbn.
        apply String.eqb_refl. }
  revert Hrow. rewrite db_createSIP_run.
  destruct (negb (hd false (Db.outages (store wa)))
            && Db.sips_accepts pg (store wa) (Db.u_id user) (SipService.assetName params)
                               (SipService.assetIndex params)
                               (SipService.monthlyAmountUsdc params));
    [|discriminate].
  intros [= <- <-]. cbn [Db.user_id] in Huuid. cbn [store Db.outages] in Hup1, Hup2.
  unfold SipReads.getUserSIPs, bind at 1.
  rewrite getUserByWallet_run. cbn [store Db.outages Db.users]. rewrite Hup1. cbn [negb].
  rewrite Hfind. unfold bind. rewrite db_getUserSIPs_run.
  cbn [store Db.outages]. rewrite Hup2, Huuid. cbn [negb andb].
  eexists _, _. split; [reflexivity|].
  eapply Permutation_in; [symmetry; apply newest_first_perm|].
  apply filter_In. cbn. split; [|now apply same_uuid_refl].
  apply in_app_iff. right. now left.
Qed.
End ConstraintFacts.

(** Witness for X11: Alice's server, before and after a creation and an
    update. *)
Lemma service_keeps_constraints_witness :
  DbReads.constraints_hold Sample.pg
    (store (snd (SipService.createSIP Sample.pg
                   (SipService.mkParams "0xA11CE" "SOL" 5 (Db.Num 1200)) (Sample.server 50))))
  /\ DbReads.constraints_hold Sample.pg
       (store (snd (SipService.updateSIPStatus Sample.pg Sample.other_plan_id Db.cancelled
                      (Sample.server 50)))).
Proof.
  apply (service_keeps_constraints Sample.pg
           (SipService.mkParams "0xA11CE" "SOL" 5 (Db.Num 1200))
           Sample.other_plan_id Db.cancelled (Sample.server 50)).
  unfold DbReads.constraints_hold. cbn.
  constructor; [|constructor; [|constructor]].
  - split; [exists Sample.alice; split; [now left | reflexivity]|].
    split; [cbn; lia|]. exists 1500%Q. split; reflexivity.
  - split; [exists Sample.alice; split; [now left | reflexivity]|].
    split; [cbn; lia|]. exists 2000%Q. split; reflexivity.
Defined.

(** Witness for X12: Alice's first plan on a server that has never seen
    her, and her list afterwards. *)
Lemma created_plan_is_listed_witness :
  exists rows w2,
    SipReads.getUserSIPs Sample.pg "0xA11CE"
      (mkRuntime 30 []
         (Db.mkDatabase
            [Db.mkUser "5f0c2a9e-0000-4000-8000-000000000000" "0xA11CE" 30]
            [Db.mkSIP "5f0c2a9e-0000-4000-8000-000000000001"
                      "5f0c2a9e-0000-4000-8000-000000000000" "BTC" 3 (Db.Num 1000)
                      Db.active 30 30] 2 []))
    = (Returns rows, w2)
    /\ In (Db.mkSIP "5f0c2a9e-0000-4000-8000-000000000001"
                    "5f0c2a9e-0000-4000-8000-000000000000" "BTC" 3 (Db.Num 1000)
                    Db.active 30 30) rows.
Proof.
  apply (created_plan_is_listed Sample.pg
           (SipService.mkParams "0xA11CE" "BTC" 3 (Db.Num 1000))
           (Db.mkSIP "5f0c2a9e-0000-4000-8000-000000000001"
                     "5f0c2a9e-0000-4000-8000-000000000000" "BTC" 3 (Db.Num 1000)
                     Db.active 30 30)
           (Some "SIP created successfully") (Sample.fresh_server 30)).
  - vm_compute. reflexivity.
  - reflexivity.
  - reflexivity.
  - reflexivity.
Defined.

(** ** The handlers *)

Section HandlerFacts.
Variable pg : Db.Postgres.
Variable recover : list N -> string -> outcome string.

(** [verifySignature] returns, leaves store and clock alone, and leaves
    everything alone when it accepts. *)
Lemma verifySignature_returns {S} message signature (w : Runtime S) :
  exists v w1,
    SignatureVerify.verifySignature recover message signature w = (Returns v, w1)
    /\ store w1 = store w /\ clock w1 = clock w
    /\ (SignatureVerify.valid v = true ->
        w1 = w /\ exists a, recover message signature = Returns a
                            /\ v = SignatureVerify.mkVerify true (Some a) None).
Proof.
  rewrite verifySignature_run. destruct (SignatureVerify.nonceMatch message) as [digits|].
  - destruct (_ >? _);
      [eexists _, _; split; [reflexivity|]; repeat split; discriminate|].
    destruct (_ <? _);
      [eexists _, _; split; [reflexivity|]; repeat split; discriminate|].
    destruct (recover message signature) as [a|e].
    + eexists _, _. split; [reflexivity|]. repeat split. now exists a.
    + eexists _, _. split; [reflexivity|]. repeat split; discriminate.
  - eexists _, _. split; [reflexivity|]. repeat split; discriminate.
Qed.

Lemma createSIP_returns params (w : Runtime Db.Database) :
  exists r w', SipService.createSIP pg params w = (Returns r, w').
Proof.
  unfold SipService.createSIP.
  destruct (Db.number_lt (SipService.monthlyAmountUsdc params) 1000); [eauto|].
  unfold bind at 1. rewrite getUserByWallet_run.
  destruct (negb (hd false (Db.outages (store w)))); [|eauto].
  destruct (find _ (Db.users (store w)));
    [|destruct (Db.respell _ (Db.users (store w))) as [[u merged]|]];
    unfold bind; rewrite db_createSIP_run;
    match goal with |- context [if ?c then _ else _] => destruct c end; eauto.
Qed.

Lemma service_getUserSIPs_returns walletAddress (w : Runtime Db.Database) :
  exists rows w', SipReads.getUserSIPs pg walletAddress w = (Returns rows, w').
Proof.
  unfold SipReads.getUserSIPs, bind at 1. rewrite getUserByWallet_run.
  destruct (negb (hd false (Db.outages (store w)))); [|eauto].
  destruct (find _ (Db.users (store w))) as [u|];
    [|destruct (Db.respell _ (Db.users (store w))) as [[u merged]|]];
    unfold bind; rewrite db_getUserSIPs_run;
    match goal with |- context [if ?c then _ else _] => destruct c end; eauto.
Qed.

End HandlerFacts.


(** The run of that lower-case request, evaluated: Alice's row takes the
    spelling of the request and keeps its id, and no row is added. *)
Example GET_other_spelling_runs :
  RouteMore.GET Sample.pg (Some "0xa11ce") (Sample.server 60)
  = (Returns (RouteMore.mkGet
                (RouteMore.SipsJson [Sample.other_plan; Sample.plan Db.cancelled 40]) 200),
     mkRuntime 60 []
       (Db.mkDatabase [Db.mkUser (Db.u_id Sample.alice) "0xa11ce" 10]
                      [Sample.plan Db.cancelled 40; Sample.other_plan] 3 [])).
Proof. vm_compute. reflexivity. Qed.

Section WriteHandlerFacts.
Variable pg : Db.Postgres.
Variable recover : list N -> string -> outcome string.

(** X14.  A request whose signature [verifySignature] does not accept is
    answered 401 with the error of the verification, by [PATCH] and by
    [POST] alike, and the database is as it was before the request. *)
Theorem rejected_signature_changes_nothing message signature v w1
    sipId status assetName assetIndex amount (w : Runtime Db.Database) :
  SignatureVerify.verifySignature recover message signature w = (Returns v, w1) ->
  SignatureVerify.valid v = false ->
  truthy_text (Some message) = Some message ->
  truthy (Some signature) = Some signature ->
  truthy (Some sipId) = Some sipId ->
  truthy (Some assetName) = Some assetName ->
  RouteMore.truthy_number (Some amount) = Some amount ->
  Route.PATCH pg recover
    (Returns (Route.mkPatch (Some sipId) (Some (Db.status_text status))
                            (Some message) (Some signature))) w
  = (Returns (Route.mkResponse
                (Route.ErrorJson
                   (Some (Route.or_else (SignatureVerify.error v) "Invalid signature")))
                401), w1)
  /\ RouteMore.POST pg recover
       (Returns (RouteMore.mkPost (Some assetName) (Some assetIndex) (Some amount)
                                  (Some message) (Some signature))) w
     = (Returns (Route.mkResponse
                   (Route.ErrorJson
                      (Some (Route.or_else (SignatureVerify.error v) "Invalid signature")))
                   401), w1)
  /\ store w1 = store w.
Proof.
  intros Hv Hvalid Hm Hs Hid Han Hamt. split; [|split].
  - unfold Route.PATCH, try_catch, bind at 1, await.
    cbn [Route.sipId Route.status Route.message Route.signature].
    rewrite Hid, Hm, Hs, status_text_truthy.
    rewrite (bind_returns _ _ _ _ _ Hv), Hvalid. reflexivity.
  - unfold RouteMore.POST, try_catch, bind at 1, await.
    cbn [RouteMore.assetName RouteMore.assetIndex RouteMore.monthlyAmountUsdc
         RouteMore.message RouteMore.signature].
    rewrite Han, Hamt, Hm, Hs. rewrite (bind_returns _ _ _ _ _ Hv), Hvalid. reflexivity.
  - destruct (verifySignature_returns recover message signature w)
      as (v' & w1' & Hv' & Hstore & _).
    rewrite Hv in Hv'. now injection Hv' as <- <-.
Qed.

(** X15.  [PATCH] and [POST] always answer and never throw, with a status
    among 200, 400, 401 and 500; a body that cannot be parsed is answered
    500 with the message of the parse error, or [Internal server error]
    when it has none. *)
Theorem write_handlers_always_answer patch post (w : Runtime Db.Database) :
  (exists resp w',
     Route.PATCH pg recover patch w = (Returns resp, w')
     /\ In (Route.http_status resp) [200; 400; 401; 500]
     /\ forall e, patch = Throws e ->
                  resp = Route.mkResponse
                           (Route.ErrorJson
                              (Some (Route.or_else (Some e) "Internal server error")))
                           500)
  /\ (exists resp w',
        RouteMore.POST pg recover post w = (Returns resp, w')
        /\ In (Route.http_status resp) [200; 400; 401; 500]
        /\ forall e, post = Throws e ->
                     resp = Route.mkResponse
                              (Route.ErrorJson
                                 (Some (Route.or_else (Some e) "Internal server error")))
                              500).
Proof.
  split.
  - unfold Route.PATCH, try_catch, bind at 1, await.
    destruct patch as [json|e].
    2:{ eexists _, _. split; [reflexivity|]. split; [cbn; tauto|]. now intros e' [= <-]. }
    destruct (truthy (Route.sipId json)) as [sipId|],
      (truthy (Route.status json)) as [status|],
      (truthy_text (Route.message json)) as [message|],
      (truthy (Route.signature json)) as [signature|];
      try (eexists _, _; split; [reflexivity|]; split; [cbn; tauto | discriminate]).
    unfold bind at 1.
    destruct (verifySignature_returns recover message signature w) as (v & w1 & -> & _).
    destruct (negb (SignatureVerify.valid v));
      [eexists _, _; split; [reflexivity|]; split; [cbn; tauto | discriminate]|].
    unfold bind.
    destruct (updateSIPStatus_any_returns pg sipId status w1) as (r & w2 & -> & _).
    destruct (negb (SipService.success r));
      eexists _, _; (split; [reflexivity|]); (split; [cbn; tauto | discriminate]).
  - unfold RouteMore.POST, try_catch, bind at 1, await.
    destruct post as [json|e].
    2:{ eexists _, _. split; [reflexivity|]. split; [cbn; tauto|]. now intros e' [= <-]. }
    destruct (truthy (RouteMore.assetName json)) as [assetName|],
      (RouteMore.assetIndex json) as [assetIndex|],
      (RouteMore.truthy_number (RouteMore.monthlyAmountUsdc json)) as [amount|],
      (truthy_text (RouteMore.message json)) as [message|],
      (truthy (RouteMore.signature json)) as [signature|];
      try (eexists _, _; split; [reflexivity|]; split; [cbn; tauto | discriminate]).
    unfold bind at 1.
    destruct (verifySignature_returns recover message signature w) as (v & w1 & -> & _).
    destruct (negb (SignatureVerify.valid v));
      [eexists _, _; split; [reflexivity|]; split; [cbn; tauto | discriminate]|].
    unfold bind.
    match goal with
    | |- context [SipService.createSIP pg ?p w1] =>
        destruct (createSIP_returns pg p w1) as (r & w2 & ->)
    end.
    destruct (negb (SipService.success r));
      eexists _, _; (split; [reflexivity|]); (split; [cbn; tauto | discriminate]).
Qed.
End WriteHandlerFacts.

(** Witness for X14: Alice's signature over a stale message, on a status
    update and on a creation. *)
Lemma rejected_signature_changes_nothing_witness :
  Route.PATCH Sample.pg Sample.recover
    (Returns (Route.mkPatch (Some Sample.plan_id) (Some "active")
                (Some (Sample.update_message 1000 Sample.plan_id "active"))
                (Some "0x5160"))) (Sample.server 100000)
  = (Returns (Route.mkResponse
                (Route.ErrorJson
                   (Some (Route.or_else
                            (SignatureVerify.error
                               (SignatureVerify.mkVerify false None (Some "Signature expired")))
                            "Invalid signature")))
                401), Sample.server 100000)
  /\ RouteMore.POST Sample.pg Sample.recover
       (Returns (RouteMore.mkPost (Some "BTC") (Some 3) (Some (Db.Num 1500))
                   (Some (Sample.update_message 1000 Sample.plan_id "active"))
                   (Some "0x5160"))) (Sample.server 100000)
     = (Returns (Route.mkResponse
                   (Route.ErrorJson
                      (Some (Route.or_else
                               (SignatureVerify.error
                                  (SignatureVerify.mkVerify false None
                                     (Some "Signature expired")))
                               "Invalid signature")))
                   401), Sample.server 100000)
  /\ store (Sample.server 100000) = store (Sample.server 100000).
Proof.
  apply (rejected_signature_changes_nothing Sample.pg Sample.recover
           (Sample.update_message 1000 Sample.plan_id "active") "0x5160"
           (SignatureVerify.mkVerify false None (Some "Signature expired"))
           (Sample.server 100000) Sample.plan_id Db.active "BTC" 3 (Db.Num 1500)
           (Sample.server 100000)).
  - vm_compute. reflexivity.
  - reflexivity.
  - reflexivity.
  - reflexivity.
  - reflexivity.
  - reflexivity.
  - reflexivity.
Defined.

Section PostFacts.
Variable pg : Db.Postgres.
Variable recover : list N -> string -> outcome string.

Lemma truthy_inv x y : truthy x = Some y -> x = Some y.
Proof. destruct x as [[|c s]|]; cbn; congruence. Qed.

Lemma truthy_text_inv x y : truthy_text x = Some y -> x = Some y.
Proof. destruct x as [[|c s]|]; cbn; congruence. Qed.

Lemma truthy_number_inv x y : RouteMore.truthy_number x = Some y -> x = Some y.
Proof.
  destruct x as [[q| |b]|]; cbn; try congruence. destruct (Qeq_bool q 0); congruence.
Qed.

Lemma getUserByWallet_Some walletAddress (w : Runtime Db.Database) user wa :
  Db.getUserByWallet pg walletAddress w = (Returns (Some user), wa) ->
  Db.wallet_address user = walletAddress /\ In user (Db.users (store wa)).
Proof.
  rewrite getUserByWallet_run.
  destruct (negb (hd false (Db.outages (store w)))); [|discriminate].
  destruct (find _ (Db.users (store w))) as [u|] eqn:Hf.
  - intros [= <- <-]; cbn.
    apply find_some in Hf as [Hin Heq]. apply String.eqb_eq in Heq. now split.
  - destruct (Db.respell walletAddress (Db.users (store w))) as [[u merged]|] eqn:Hre;
      intros [= <- <-]; cbn.
    + apply respell_Some in Hre as (Hin & _ & old & _ & _ & ->). now split.
    + split; [reflexivity|]. apply in_app_iff. right. now left.
Qed.

(** X16.  A plan created through [POST] belongs to the signer: when [POST]
    answers 200, the signature of the body recovers to an address, the
    answer carries a record that is stored with status [active] and the
    asset, index and amount of the body, and the owner of the record is a
    stored user whose wallet address is the recovered one. *)
Theorem POST_creates_for_signer json r (w w' : Runtime Db.Database) :
  RouteMore.POST pg recover (Returns json) w
  = (Returns (Route.mkResponse (Route.ResultJson r) 200), w') ->
  exists message signature a row user,
    RouteMore.message json = Some message
    /\ RouteMore.signature json = Some signature
    /\ recover message signature = Returns a
    /\ SipService.sip r = Some row
    /\ In row (Db.sips (store w'))
    /\ Db.status row = Db.active
    /\ RouteMore.assetName json = Some (Db.asset_name row)
    /\ RouteMore.assetIndex json = Some (Db.asset_index row)
    /\ RouteMore.monthlyAmountUsdc json = Some (Db.monthly_amount_usdc row)
    /\ In user (Db.users (store w'))
    /\ Db.wallet_address user = a
    /\ Db.user_id row = Db.u_id user.
Proof.
  unfold RouteMore.POST, try_catch, bind at 1, await.
  destruct (truthy (RouteMore.assetName json)) as [assetName|] eqn:Han;
    [|discriminate].
  destruct (RouteMore.assetIndex json) as [assetIndex|] eqn:Hai; [|discriminate].
  destruct (RouteMore.truthy_number (RouteMore.monthlyAmountUsdc json)) as [amount|] eqn:Ham;
    [|discriminate].
  destruct (truthy_text (RouteMore.message json)) as [message|] eqn:Hm; [|discriminate].
  destruct (truthy (RouteMore.signature json)) as [signature|] eqn:Hs; [|discriminate].
  apply truthy_inv in Han, Hs. apply truthy_text_inv in Hm. apply truthy_number_inv in Ham.
  unfold bind at 1.
  destruct (verifySignature_returns recover message signature w)
    as (v & w1 & -> & _ & _ & Hvalid).
  destruct (SignatureVerify.valid v); cbn [negb]; [|discriminate].
  destruct (Hvalid eq_refl) as (-> & a & Hrec & ->). cbn [SignatureVerify.address RouteMore.asserted].
  unfold bind.
  destruct (SipService.createSIP pg (SipService.mkParams a assetName assetIndex amount) w)
    as [[r0|e] w2] eqn:Hcreate; [|discriminate].
  destruct (SipService.success r0) eqn:Hok; cbn [negb]; [|discriminate].
  intros [= <- <-].
  destruct (createSIP_success_inv pg _ w r0 w2 Hcreate Hok)
    as (user & wa & row & Huser & Hrow & ->).
  cbn [SipService.walletAddress SipService.assetName SipService.assetIndex
       SipService.monthlyAmountUsdc] in Huser, Hrow.
  apply getUserByWallet_Some in Huser as [Hwallet Hin].
  revert Hrow. rewrite db_createSIP_run.
  destruct (negb (hd false (Db.outages (store wa))) && Db.sips_accepts _ _ _ _ _ _);
    [|discriminate].
  intros [= <- <-].
  exists message, signature, a. eexists. exists user. cbn.
  repeat split; auto. apply in_app_iff. right. now left.
Qed.

(** X17.  Two answers of [POST] to amounts that are too small.  An amount
    of zero counts as a missing field: 400, before the signature is looked
    at, and nothing changes.  Any other amount below 1000, with an accepted
    signature, is answered 500 with the minimum-amount error, and nothing
    changes either. *)
Theorem POST_small_amounts assetName assetIndex q message signature
    (w : Runtime Db.Database) :
  (Qeq_bool q 0 = true ->
   RouteMore.POST pg recover
     (Returns (RouteMore.mkPost assetName assetIndex (Some (Db.Num q)) message signature)) w
   = (Returns (Route.mkResponse (Route.ErrorJson (Some "Missing required fields")) 400), w))
  /\ (Qeq_bool q 0 = false ->
      Qle_bool 1000 q = false ->
      forall an ai m s a,
        truthy assetName = Some an -> assetIndex = Some ai ->
        truthy_text message = Some m -> truthy signature = Some s ->
        SignatureVerify.verifySignature recover m s w
        = (Returns (SignatureVerify.mkVerify true (Some a) None), w) ->
        RouteMore.POST pg recover
          (Returns (RouteMore.mkPost assetName assetIndex (Some (Db.Num q)) message signature))
          w
        = (Returns (Route.mkResponse
                      (Route.ErrorJson
                         (Some "Monthly investment must be at least 1000 USDC")) 500), w)).
Proof.
  split.
  - intros Hz. unfold RouteMore.POST, try_catch, bind, await.
    cbn [RouteMore.assetName RouteMore.assetIndex RouteMore.monthlyAmountUsdc
         RouteMore.message RouteMore.signature RouteMore.truthy_number].
    rewrite Hz. now destruct (truthy assetName), assetIndex.
  - intros Hnz Hlow an ai m s a Han -> Hm Hs Hv.
    unfold RouteMore.POST, try_catch, bind at 1, await.
    cbn [RouteMore.assetName RouteMore.assetIndex RouteMore.monthlyAmountUsdc
         RouteMore.message RouteMore.signature RouteMore.truthy_number].
    rewrite Hnz, Han, Hm, Hs. rewrite (bind_returns _ _ _ _ _ Hv).
    cbn [SignatureVerify.valid negb SignatureVerify.address RouteMore.asserted].
    unfold bind, SipService.createSIP.
    cbn [SipService.monthlyAmountUsdc Db.number_lt]. rewrite Hlow. reflexivity.
Qed.
End PostFacts.

(** Witness for X16: Alice's signed creation of a plan of 1500 USDC a month
    in BTC, on a server that has never seen her. *)
Lemma POST_creates_for_signer_witness :
  exists message signature a row user,
    RouteMore.message
      (RouteMore.mkPost (Some "BTC") (Some 3) (Some (Db.Num 1500))
         (Some (Scenario.create_message 1000 "BTC" "1500 USDC")) (Some "0x5160"))
    = Some message
    /\ RouteMore.signature
         (RouteMore.mkPost (Some "BTC") (Some 3) (Some (Db.Num 1500))
            (Some (Scenario.create_message 1000 "BTC" "1500 USDC")) (Some "0x5160"))
       = Some signature
    /\ Sample.recover message signature = Returns a
    /\ SipService.sip
         (SipService.mkResult true
            (Some (Db.mkSIP "5f0c2a9e-0000-4000-8000-000000000001"
                            "5f0c2a9e-0000-4000-8000-000000000000" "BTC" 3 (Db.Num 1500)
                            Db.active 2000 2000))
            (Some "SIP created successfully") None)
       = Some row
    /\ In row
         (Db.sips
            (store
               (mkRuntime 2000 []
                  (Db.mkDatabase
                     [Db.mkUser "5f0c2a9e-0000-4000-8000-000000000000" "0xA11CE" 2000]
                     [Db.mkSIP "5f0c2a9e-0000-4000-8000-000000000001"
                               "5f0c2a9e-0000-4000-8000-000000000000" "BTC" 3
                               (Db.Num 1500) Db.active 2000 2000] 2 []))))
    /\ Db.status row = Db.active
    /\ Some "BTC" = Some (Db.asset_name row)
    /\ Some 3 = Some (Db.asset_index row)
    /\ Some (Db.Num 1500) = Some (Db.monthly_amount_usdc row)
    /\ In user
         (Db.users
            (store
               (mkRuntime 2000 []
                  (Db.mkDatabase
                     [Db.mkUser "5f0c2a9e-0000-4000-8000-000000000000" "0xA11CE" 2000]
                     [Db.mkSIP "5f0c2a9e-0000-4000-8000-000000000001"
                               "5f0c2a9e-0000-4000-8000-000000000000" "BTC" 3
                               (Db.Num 1500) Db.active 2000 2000] 2 []))))
    /\ Db.wallet_address user = a
    /\ Db.user_id row = Db.u_id user.
Proof.
  apply (POST_creates_for_signer Sample.pg Sample.recover
           (RouteMore.mkPost (Some "BTC") (Some 3) (Some (Db.Num 1500))
              (Some (Scenario.create_message 1000 "BTC" "1500 USDC")) (Some "0x5160"))
           (SipService.mkResult true
              (Some (Db.mkSIP "5f0c2a9e-0000-4000-8000-000000000001"
                              "5f0c2a9e-0000-4000-8000-000000000000" "BTC" 3 (Db.Num 1500)
                              Db.active 2000 2000))
              (Some "SIP created successfully") None)
           (Sample.fresh_server 2000)).
  vm_compute. reflexivity.
Defined.

(** Witness for X17: amounts of 0 and of 999 USDC. *)
Lemma POST_small_amounts_witness :
  RouteMore.POST Sample.pg Sample.recover
    (Returns (RouteMore.mkPost (Some "BTC") (Some 3) (Some (Db.Num 0))
                (Some (Scenario.create_message 1000 "BTC" "0 USDC")) (Some "0x5160")))
    (Sample.fresh_server 2000)
  = (Returns (Route.mkResponse (Route.ErrorJson (Some "Missing required fields")) 400),
     Sample.fresh_server 2000)
  /\ RouteMore.POST Sample.pg Sample.recover
       (Returns (RouteMore.mkPost (Some "BTC") (Some 3) (Some (Db.Num 999))
                   (Some (Scenario.create_message 1000 "BTC" "999 USDC")) (Some "0x5160")))
       (Sample.fresh_server 2000)
     = (Returns (Route.mkResponse
                   (Route.ErrorJson (Some "Monthly investment must be at least 1000 USDC"))
                   500), Sample.fresh_server 2000).
Proof.
  split.
  - apply (proj1 (POST_small_amounts Sample.pg Sample.recover (Some "BTC") (Some 3) 0
                    (Some (Scenario.create_message 1000 "BTC" "0 USDC")) (Some "0x5160")
                    (Sample.fresh_server 2000))).
    reflexivity.
  - apply (proj2 (POST_small_amounts Sample.pg Sample.recover (Some "BTC") (Some 3) 999
                    (Some (Scenario.create_message 1000 "BTC" "999 USDC")) (Some "0x5160")
                    (Sample.fresh_server 2000))
             eq_refl eq_refl "BTC" 3 (Scenario.create_message 1000 "BTC" "999 USDC")
             "0x5160" "0xA11CE" eq_refl eq_refl eq_refl eq_refl).
    vm_compute. reflexivity.
Defined.

(** ** From the browser to the database *)

Section ClientFacts.
Context {S : Type}.
Variable pg : Db.Postgres.
Variable recover : list N -> string -> outcome string.
Variable signMessage : list N -> outcome string.

(** X18.  A status update sent by the client goes through: when the wallet
    signs the message, the signature recovers to an address, the plan id is
    a uuid and does not contain the text [Nonce:], the server's clock is at
    most 60000 ms ahead of and at most 5000 ms behind the browser's, and
    the database executes the request, then the client's [updateSIPStatus],
    with the server's [PATCH] answering its request, returns the success
    result of the service and leaves the browser as it was; and the server
    is left with every plan whose id has the value of [sipId] in the status
    asked for, stamped with the server's time, and with every other plan and
    every user as before. *)
Theorem client_update_goes_through sipId status signature a
    (wb : Runtime S) (ws : Runtime Db.Database) :
  0 <= clock wb < 10 ^ 21 ->
  SipClient.has_literal (SipClient.update_header sipId status) = false ->
  sipId <> "" -> signature <> "" ->
  signMessage
    (SignatureVerify.createSignatureMessage (clock wb) (utf16 "Update SIP")
       [(utf16 "sipId", utf16 sipId); (utf16 "status", utf16 (Db.status_text status))])
  = Returns signature ->
  recover
    (SignatureVerify.createSignatureMessage (clock wb) (utf16 "Update SIP")
       [(utf16 "sipId", utf16 sipId); (utf16 "status", utf16 (Db.status_text status))])
    signature
  = Returns a ->
  -5000 <= clock ws - clock wb <= 60000 ->
  hd false (Db.outages (store ws)) = false ->
  Db.uuid_in pg sipId = true ->
  SipClient.updateSIPStatus
    (fun request => fst (Route.PATCH pg recover (Returns request) ws)) signMessage
    sipId status wb
  = (Returns (SipService.mkResult true None
                (Some ("SIP " ++ match status with
                                 | Db.active => "resumed"
                                 | _ => Db.status_text status
                                 end)%string) None), wb)
  /\ snd (Route.PATCH pg recover
            (Returns
               (Route.mkPatch (Some sipId) (Some (Db.status_text status))
                  (Some (SignatureVerify.createSignatureMessage (clock wb)
                           (utf16 "Update SIP")
                           [(utf16 "sipId", utf16 sipId);
                            (utf16 "status", utf16 (Db.status_text status))]))
                  (Some signature))) ws)
     = mkRuntime (clock ws) (console ws)
         (Db.mkDatabase (Db.users (store ws))
            (map (fun row =>
                    match Db.uuid_value pg (Db.id row), Db.uuid_value pg sipId with
                    | Some x, Some y =>
                        if (x =? y)%N
                        then Db.mkSIP (Db.id row) (Db.user_id row) (Db.asset_name row)
                                      (Db.asset_index row) (Db.monthly_amount_usdc row)
                                      status (Db.created_at row) (clock ws)
                        else row
                    | _, _ => row
                    end)
                 (Db.sips (store ws)))
            (Db.uuids_issued (store ws)) (tl (Db.outages (store ws)))).
Proof.
  intros Hnonce Hlit Hid Hsig Hsign Hrec Hskew Hup Huuid.
  set (message := SignatureVerify.createSignatureMessage (clock wb) (utf16 "Update SIP")
                    [(utf16 "sipId", utf16 sipId);
                     (utf16 "status", utf16 (Db.status_text status))]) in *.
  assert (Hv : SignatureVerify.verifySignature recover message signature ws
               = (Returns (SignatureVerify.mkVerify true (Some a) None), ws)).
  { apply verifySignature_accepts_built_message_aux; auto. }
  assert (Hm : message <> []) by discriminate.
  pose proof (PATCH_applies_body pg recover message signature _ ws sipId status ws
                Hv eq_refl Hm Hsig Hid Hup Huuid) as Hpatch.
  split.
  - unfold SipClient.updateSIPStatus, try_catch, bind, Date_now, await.
    fold message. rewrite Hsign, Hpatch. reflexivity.
  - rewrite Hpatch. reflexivity.
Qed.
End ClientFacts.

(** Witness for X18: Alice pauses her second plan, whose id her browser
    spells in upper case; the browser is 300 ms behind the server. *)
Lemma client_update_goes_through_witness :
  SipClient.updateSIPStatus
    (fun request =>
       fst (Route.PATCH Sample.pg Sample.recover (Returns request)
              (Sample.server 1700000000300)))
    Scenario.signMessage "5F0C2A9E-0000-4000-8000-000000000002" Db.paused
    (Scenario.browser 1700000000000)
  = (Returns (SipService.mkResult true None (Some "SIP paused") None),
     Scenario.browser 1700000000000)
  /\ snd (Route.PATCH Sample.pg Sample.recover
            (Returns
               (Route.mkPatch (Some "5F0C2A9E-0000-4000-8000-000000000002") (Some "paused")
                  (Some (SignatureVerify.createSignatureMessage 1700000000000
                           (utf16 "Update SIP")
                           [(utf16 "sipId", utf16 "5F0C2A9E-0000-4000-8000-000000000002");
                            (utf16 "status", utf16 "paused")]))
                  (Some "0x5160"))) (Sample.server 1700000000300))
     = mkRuntime 1700000000300 []
         (Db.mkDatabase [Sample.alice]
            [Sample.plan Db.cancelled 40;
             Db.mkSIP Sample.other_plan_id (Db.u_id Sample.alice) "ETH" 4 (Db.Num 2000)
                      Db.paused 25 1700000000300] 3 []).
Proof.
  apply (client_update_goes_through Sample.pg Sample.recover Scenario.signMessage
           "5F0C2A9E-0000-4000-8000-000000000002" Db.paused "0x5160" "0xA11CE"
           (Scenario.browser 1700000000000) (Sample.server 1700000000300)).
  - cbn. lia.
  - vm_compute. reflexivity.
  - discriminate.
  - discriminate.
  - reflexivity.
  - reflexivity.
  - cbn. lia.
  - reflexivity.
  - reflexivity.
Defined.

(** ** The key store *)

Section StorageFacts.
Variable generateAgentWallet : nat -> string.

Lemma storageKey_inj a b : AgentStorage.storageKey a = AgentStorage.storageKey b -> a = b.
Proof. unfold AgentStorage.storageKey. cbn. now intros [=]. Qed.

Lemma saveAgentPrivateKey_run userAddress privateKey (w : Runtime Browser) items :
  localStorage (store w) = Some items ->
  AgentStorage.saveAgentPrivateKey userAddress privateKey w
  = (Returns tt,
     mkRuntime (clock w) (console w)
       (mkBrowser (Some (<[AgentStorage.storageKey userAddress := privateKey]> items))
                  (keys_drawn (store w)) (approvals (store w)))).
Proof.
  intros Hls. unfold AgentStorage.saveAgentPrivateKey, bind, get_store. now rewrite Hls.
Qed.

(** X19.  In a browser a saved key is read back: after
    [saveAgentPrivateKey] for an address, [getAgentPrivateKey] for that
    address returns the key and [hasAgentPrivateKey] answers true, and what
    is read for any other address is what was read before. *)
Theorem saved_key_is_read_back userAddress other privateKey (w : Runtime Browser) items :
  localStorage (store w) = Some items ->
  exists w1,
    AgentStorage.saveAgentPrivateKey userAddress privateKey w = (Returns tt, w1)
    /\ fst (AgentStorage.getAgentPrivateKey userAddress w1) = Returns (Some privateKey)
    /\ fst (AgentStorageMore.hasAgentPrivateKey userAddress w1) = Returns true
    /\ (other <> userAddress ->
        fst (AgentStorage.getAgentPrivateKey other w1)
        = fst (AgentStorage.getAgentPrivateKey other w)).
Proof.
  intros Hls. rewrite (saveAgentPrivateKey_run _ _ _ _ Hls). eexists. split; [reflexivity|].
  unfold AgentStorageMore.hasAgentPrivateKey, bind. rewrite !getAgentPrivateKey_run.
  cbn [store localStorage fst]. rewrite Hls, lookup_insert_eq.
  repeat split. intros Hne. rewrite lookup_insert_ne; [reflexivity|].
  intros Heq. apply storageKey_inj in Heq. congruence.
Qed.

(** X20.  In a browser a removed key is gone for good: after
    [removeAgentPrivateKey], [hasAgentPrivateKey] answers false and the
    next [getOrCreateAgentPrivateKey] returns a newly drawn key; the keys
    of other addresses are not affected. *)
Theorem removed_key_is_regenerated userAddress other (w : Runtime Browser) items :
  localStorage (store w) = Some items ->
  exists w1,
    AgentStorageMore.removeAgentPrivateKey userAddress w = (Returns tt, w1)
    /\ fst (AgentStorageMore.hasAgentPrivateKey userAddress w1) = Returns false
    /\ fst (AgentService.getOrCreateAgentPrivateKey generateAgentWallet userAddress w1)
       = Returns (generateAgentWallet (keys_drawn (store w)))
    /\ (other <> userAddress ->
        fst (AgentStorage.getAgentPrivateKey other w1)
        = fst (AgentStorage.getAgentPrivateKey other w)).
Proof.
  intros Hls. unfold AgentStorageMore.removeAgentPrivateKey, bind at 1, get_store.
  rewrite Hls. unfold put_store. eexists. split; [reflexivity|].
  unfold AgentStorageMore.hasAgentPrivateKey, bind. rewrite !getAgentPrivateKey_run.
  cbn [store localStorage fst]. rewrite Hls, lookup_delete_eq.
  split; [reflexivity|]. split.
  - erewrite getOrCreateAgentPrivateKey_fresh; [reflexivity|reflexivity|].
    now rewrite lookup_delete_eq.
  - intros Hne. rewrite lookup_delete_ne; [reflexivity|].
    intros Heq. apply storageKey_inj in Heq. congruence.
Qed.

(** X21.  In a browser [getOrCreateAgentPrivateKey] returns a key, and it
    draws a new one exactly when the storage holds no entry for the address
    or an empty one; [hasAgentPrivateKey] answers true exactly when there
    is an entry, the empty one included. *)
Theorem getOrCreateAgentPrivateKey_draws_iff userAddress (w : Runtime Browser) items :
  localStorage (store w) = Some items ->
  exists key w1,
    AgentService.getOrCreateAgentPrivateKey generateAgentWallet userAddress w
    = (Returns key, w1)
    /\ (w1 = w /\ items !! AgentStorage.storageKey userAddress = Some key /\ key <> ""
        \/ keys_drawn (store w1) = S (keys_drawn (store w))
           /\ key = generateAgentWallet (keys_drawn (store w))
           /\ (items !! AgentStorage.storageKey userAddress = None
               \/ items !! AgentStorage.storageKey userAddress = Some ""))
    /\ (fst (AgentStorageMore.hasAgentPrivateKey userAddress w) = Returns true
        <-> items !! AgentStorage.storageKey userAddress <> None).
Proof.
  intros Hls.
  assert (Hhas : fst (AgentStorageMore.hasAgentPrivateKey userAddress w) = Returns true
                 <-> items !! AgentStorage.storageKey userAddress <> None).
  { unfold AgentStorageMore.hasAgentPrivateKey, bind. rewrite getAgentPrivateKey_run, Hls.
    destruct (items !! AgentStorage.storageKey userAddress); cbn; split; congruence. }
  destruct (items !! AgentStorage.storageKey userAddress) as [[|c k]|] eqn:Hkey.
  - erewrite getOrCreateAgentPrivateKey_fresh; [|exact Hls|now rewrite Hkey].
    eexists _, _. split; [reflexivity|]. split; [|exact Hhas]. right. cbn. auto.
  - erewrite getOrCreateAgentPrivateKey_existing; [|exact Hls|exact Hkey|discriminate].
    eexists _, _. split; [reflexivity|]. split; [|exact Hhas]. left.
    repeat split. discriminate.
  - erewrite getOrCreateAgentPrivateKey_fresh; [|exact Hls|now rewrite Hkey].
    eexists _, _. split; [reflexivity|]. split; [|exact Hhas]. right. cbn. auto.
Qed.

(** X22.  Where there is no [window], reading answers that there is no key,
    removing does nothing, saving throws, and
    [getOrCreateAgentPrivateKey] throws the error of saving after it has
    drawn a key that is then lost. *)
Theorem key_store_without_window userAddress privateKey (w : Runtime Browser) :
  localStorage (store w) = None ->
  AgentStorage.getAgentPrivateKey userAddress w = (Returns None, w)
  /\ AgentStorageMore.hasAgentPrivateKey userAddress w = (Returns false, w)
  /\ AgentStorageMore.removeAgentPrivateKey userAddress w = (Returns tt, w)
  /\ AgentStorage.saveAgentPrivateKey userAddress privateKey w
     = (Throws "Cannot save private key in non-browser environment", w)
  /\ exists w1,
       AgentService.getOrCreateAgentPrivateKey generateAgentWallet userAddress w
       = (Throws "Cannot save private key in non-browser environment", w1)
       /\ keys_drawn (store w1) = S (keys_drawn (store w))
       /\ localStorage (store w1) = None.
Proof.
  intros Hls.
  assert (Hget : AgentStorage.getAgentPrivateKey userAddress w = (Returns None, w))
    by (now rewrite getAgentPrivateKey_run, Hls).
  split; [exact Hget|]. split.
  { unfold AgentStorageMore.hasAgentPrivateKey, bind. now rewrite Hget. }
  split.
  { unfold AgentStorageMore.removeAgentPrivateKey, bind, get_store. now rewrite Hls. }
  split.
  { unfold AgentStorage.saveAgentPrivateKey, bind, get_store. now rewrite Hls. }
  unfold AgentService.getOrCreateAgentPrivateKey, bind at 1. rewrite Hget. cbn [truthy].
  unfold AgentService.draw_key, AgentStorage.saveAgentPrivateKey, bind, get_store,
    put_store, ret, throw.
  cbn. rewrite Hls. eexists. split; [reflexivity|]. now split.
Qed.
End StorageFacts.

(** Witness for X19: a key saved for Alice in an empty storage. *)
Lemma saved_key_is_read_back_witness :
  exists w1,
    AgentStorage.saveAgentPrivateKey "0xA11CE" "0x01" Sample.browser = (Returns tt, w1)
    /\ fst (AgentStorage.getAgentPrivateKey "0xA11CE" w1) = Returns (Some "0x01")
    /\ fst (AgentStorageMore.hasAgentPrivateKey "0xA11CE" w1) = Returns true
    /\ ("0xB0B" <> "0xA11CE" ->
        fst (AgentStorage.getAgentPrivateKey "0xB0B" w1)
        = fst (AgentStorage.getAgentPrivateKey "0xB0B" Sample.browser)).
Proof.
  apply (saved_key_is_read_back "0xA11CE" "0xB0B" "0x01" Sample.browser ∅).
  reflexivity.
Defined.

(** Witness for X20: Alice's key removed from a storage that holds it. *)
Lemma removed_key_is_regenerated_witness :
  exists w1,
    AgentStorageMore.removeAgentPrivateKey "0xA11CE"
      (mkRuntime 0 [] (mkBrowser (Some {[AgentStorage.storageKey "0xA11CE" := "0x01"]}) 1 []))
    = (Returns tt, w1)
    /\ fst (AgentStorageMore.hasAgentPrivateKey "0xA11CE" w1) = Returns false
    /\ fst (AgentService.getOrCreateAgentPrivateKey Sample.generateAgentWallet "0xA11CE" w1)
       = Returns (Sample.generateAgentWallet 1)
    /\ ("0xB0B" <> "0xA11CE" ->
        fst (AgentStorage.getAgentPrivateKey "0xB0B" w1)
        = fst (AgentStorage.getAgentPrivateKey "0xB0B"
                 (mkRuntime 0 []
                    (mkBrowser (Some {[AgentStorage.storageKey "0xA11CE" := "0x01"]}) 1 [])))).
Proof.
  apply (removed_key_is_regenerated Sample.generateAgentWallet "0xA11CE" "0xB0B"
           (mkRuntime 0 [] (mkBrowser (Some {[AgentStorage.storageKey "0xA11CE" := "0x01"]}) 1 []))
           {[AgentStorage.storageKey "0xA11CE" := "0x01"]}).
  reflexivity.
Defined.

(** Witness for X21: a storage that holds the empty text for Alice. *)
Lemma getOrCreateAgentPrivateKey_draws_iff_witness :
  exists key w1,
    AgentService.getOrCreateAgentPrivateKey Sample.generateAgentWallet "0xA11CE"
      (mkRuntime 0 [] (mkBrowser (Some {[AgentStorage.storageKey "0xA11CE" := ""]}) 0 []))
    = (Returns key, w1)
    /\ (w1 = mkRuntime 0 []
               (mkBrowser (Some {[AgentStorage.storageKey "0xA11CE" := ""]}) 0 [])
        /\ ({[AgentStorage.storageKey "0xA11CE" := ""]} : gmap string string)
             !! AgentStorage.storageKey "0xA11CE" = Some key
        /\ key <> ""
        \/ keys_drawn (store w1) = 1%nat
           /\ key = Sample.generateAgentWallet 0
           /\ (({[AgentStorage.storageKey "0xA11CE" := ""]} : gmap string string)
                 !! AgentStorage.storageKey "0xA11CE" = None
               \/ ({[AgentStorage.storageKey "0xA11CE" := ""]} : gmap string string)
                    !! AgentStorage.storageKey "0xA11CE" = Some ""))
    /\ (fst (AgentStorageMore.hasAgentPrivateKey "0xA11CE"
               (mkRuntime 0 []
                  (mkBrowser (Some {[AgentStorage.storageKey "0xA11CE" := ""]}) 0 [])))
        = Returns true
        <-> ({[AgentStorage.storageKey "0xA11CE" := ""]} : gmap string string)
              !! AgentStorage.storageKey "0xA11CE" <> None).
Proof.
  apply (getOrCreateAgentPrivateKey_draws_iff Sample.generateAgentWallet "0xA11CE"
           (mkRuntime 0 [] (mkBrowser (Some {[AgentStorage.storageKey "0xA11CE" := ""]}) 0 []))
           {[AgentStorage.storageKey "0xA11CE" := ""]}).
  reflexivity.
Defined.

(** Witness for X22: the sample process without [window]. *)
Lemma key_store_without_window_witness :
  AgentStorage.getAgentPrivateKey "0xA11CE" Sample.no_window = (Returns None, Sample.no_window)
  /\ AgentStorageMore.hasAgentPrivateKey "0xA11CE" Sample.no_window
     = (Returns false, Sample.no_window)
  /\ AgentStorageMore.removeAgentPrivateKey "0xA11CE" Sample.no_window
     = (Returns tt, Sample.no_window)
  /\ AgentStorage.saveAgentPrivateKey "0xA11CE" "0x01" Sample.no_window
     = (Throws "Cannot save private key in non-browser environment", Sample.no_window)
  /\ exists w1,
       AgentService.getOrCreateAgentPrivateKey Sample.generateAgentWallet "0xA11CE"
                                               Sample.no_window
       = (Throws "Cannot save private key in non-browser environment", w1)
       /\ keys_drawn (store w1) = S (keys_drawn (store Sample.no_window))
       /\ localStorage (store w1) = None.
Proof.
  apply (key_store_without_window Sample.generateAgentWallet "0xA11CE" "0x01"
           Sample.no_window).
  reflexivity.
Defined.

(** ** The bootstrap of the agent *)

Section BootstrapFacts.
Import AgentService.
Variable generateAgentWallet : nat -> string.
Variable privateKeyToAccount : string -> outcome string.

Lemma checkAgentApproval_run infoClient userAddress agentAddress (w : Runtime Browser) :
  checkAgentApproval infoClient userAddress agentAddress w =
  match infoClient with
  | None => (Returns false, w)
  | Some client =>
      match extraAgents client userAddress with
      | Returns (Some agents) =>
          (Returns (match find (fun agent => String.eqb (agent_address agent) agentAddress)
                               agents with
                    | Some _ => true
                    | None => false
                    end), w)
      | Returns None => (Returns false, w)
      | Throws e =>
          (Returns false,
           mkRuntime (clock w)
             (console w ++ [(ConsoleWarn, ["Failed to check agent approval status:"; e])])
             (store w))
      end
  end.
Proof.
  destruct infoClient as [client|]; [|reflexivity].
  cbn [checkAgentApproval]. unfold try_catch, bind, await.
  now destruct (extraAgents client userAddress) as [[agents|]|e].
Qed.

(** The steps of [initializeAgent] up to the approval check, for callbacks
    that return and leave the browser's store alone. *)
Lemma initializeAgent_prefix params (w w1 : Runtime Browser) key address :
  getOrCreateAgentPrivateKey generateAgentWallet (userAddress params) w = (Returns key, w1) ->
  privateKeyToAccount key = Returns address ->
  (exchangeClient params = None ->
   forall w0, exists w0', initExchangeClient params w0 = (Returns tt, w0')
                          /\ store w0' = store w0) ->
  exists w2 approved w3,
    store w2 = store w1
    /\ checkAgentApproval (infoClient params) (userAddress params) address w2
       = (Returns approved, w3)
    /\ store w3 = store w1
    /\ initializeAgent generateAgentWallet privateKeyToAccount params w
       = (let* _ := approveAgentIfNeeded (exchangeClient params) address approved in
          let* _ := initAgentClient params (mkAccount address key) in
          ret (mkInit address true)) w3.
Proof.
  intros Hkey Haddr Hinit.
  assert (exists w2, store w2 = store w1
                     /\ (match exchangeClient params with
                         | None => initExchangeClient params
                         | Some _ => ret tt
                         end) w1 = (Returns tt, w2)) as (w2 & Hs2 & Hstep2).
  { destruct (exchangeClient params).
    - now exists w1.
    - destruct (Hinit eq_refl w1) as (w2 & H & Hs). now exists w2. }
  exists w2.
  pose proof (checkAgentApproval_run (infoClient params) (userAddress params) address w2)
    as Hcheck.
  destruct (checkAgentApproval (infoClient params) (userAddress params) address w2)
    as [o w3] eqn:Hc.
  assert (exists approved, o = Returns approved /\ store w3 = store w2)
    as (approved & -> & Hs3).
  { destruct (infoClient params) as [client|]; [|injection Hcheck as -> ->; eauto].
    destruct (extraAgents client (userAddress params)) as [[agents|]|e];
      injection Hcheck as -> ->; eauto. }
  exists approved, w3. split; [exact Hs2|]. split; [reflexivity|].
  split; [congruence|].
  unfold initializeAgent. rewrite (bind_returns _ _ _ _ _ Hkey).
  rewrite (bind_returns _ _ _ _ _ Hstep2).
  unfold createAgentAccount. unfold bind at 1. unfold bind at 1, await. rewrite Haddr.
  cbn [ret account_address]. unfold bind at 1. rewrite Hc. reflexivity.
Qed.

(** X23.  When the exchange already lists the agent as a delegate of the
    user, [initializeAgent] submits no approval and returns the agent's
    address as initialized, with or without an exchange client. *)
Theorem initializeAgent_already_approved params (w w1 : Runtime Browser) key address
    client agents :
  getOrCreateAgentPrivateKey generateAgentWallet (userAddress params) w = (Returns key, w1) ->
  privateKeyToAccount key = Returns address ->
  (forall w0, exists w0', initExchangeClient params w0 = (Returns tt, w0')
                          /\ store w0' = store w0) ->
  (forall account w0, exists w0', initAgentClient params account w0 = (Returns tt, w0')
                                  /\ store w0' = store w0) ->
  infoClient params = Some client ->
  extraAgents client (userAddress params) = Returns (Some agents) ->
  In address (map agent_address agents) ->
  exists w',
    initializeAgent generateAgentWallet privateKeyToAccount params w
    = (Returns (mkInit address true), w')
    /\ approvals (store w') = approvals (store w1).
Proof.
  intros Hkey Haddr Hinit Hagent Hinfo Hq Hin.
  destruct (initializeAgent_prefix params w w1 key address Hkey Haddr (fun _ => Hinit))
    as (w2 & approved & w3 & Hs2 & Hcheck & Hs3 & ->).
  rewrite checkAgentApproval_run, Hinfo, Hq in Hcheck.
  apply find_agent_iff in Hin as [found Hfound]. rewrite Hfound in Hcheck.
  injection Hcheck as <- <-.
  unfold bind at 1. cbn [approveAgentIfNeeded]. unfold console_write at 1.
  unfold bind at 1.
  destruct (Hagent (mkAccount address key)
              (mkRuntime (clock w2)
                 (console w2 ++ [(ConsoleLog, ["Agent already approved, skipping approval step"])])
                 (store w2))) as (w4 & -> & Hs4).
  eexists. split; [reflexivity|]. cbn in Hs4. congruence.
Qed.

(** X24.  On a cold start that needs an approval [initializeAgent] fails:
    called without an exchange client for an agent that the approval check
    does not find approved, it throws [Exchange client not initialized],
    also when [initExchangeClient] has just run. *)
Theorem initializeAgent_without_client params (w w1 : Runtime Browser) key address :
  getOrCreateAgentPrivateKey generateAgentWallet (userAddress params) w = (Returns key, w1) ->
  privateKeyToAccount key = Returns address ->
  (forall w0, exists w0', initExchangeClient params w0 = (Returns tt, w0')
                          /\ store w0' = store w0) ->
  exchangeClient params = None ->
  (forall w0, fst (checkAgentApproval (infoClient params) (userAddress params) address w0)
              = Returns false) ->
  fst (initializeAgent generateAgentWallet privateKeyToAccount params w)
  = Throws "Exchange client not initialized".
Proof.
  intros Hkey Haddr Hinit Hnone Hnot.
  destruct (initializeAgent_prefix params w w1 key address Hkey Haddr (fun _ => Hinit))
    as (w2 & approved & w3 & Hs2 & Hcheck & Hs3 & ->).
  specialize (Hnot w2). rewrite Hcheck in Hnot. injection Hnot as ->.
  rewrite Hnone. reflexivity.
Qed.

(** X25.  With an exchange client, for an agent that the approval check
    does not find approved, [initializeAgent] submits one approval, for the
    agent's address under the name [EzDawg Agent], and returns the address
    as initialized whether the exchange accepts or refuses it. *)
Theorem initializeAgent_submits_one_approval params (w w1 : Runtime Browser) key address
    client :
  getOrCreateAgentPrivateKey generateAgentWallet (userAddress params) w = (Returns key, w1) ->
  privateKeyToAccount key = Returns address ->
  (forall account w0, exists w0', initAgentClient params account w0 = (Returns tt, w0')
                                  /\ store w0' = store w0) ->
  exchangeClient params = Some client ->
  (forall w0, fst (checkAgentApproval (infoClient params) (userAddress params) address w0)
              = Returns false) ->
  exists w',
    initializeAgent generateAgentWallet privateKeyToAccount params w
    = (Returns (mkInit address true), w')
    /\ approvals (store w') = (approvals (store w1) ++ [(address, "EzDawg Agent")])%list.
Proof.
  intros Hkey Haddr Hagent Hsome Hnot.
  destruct (initializeAgent_prefix params w w1 key address Hkey Haddr)
    as (w2 & approved & w3 & Hs2 & Hcheck & Hs3 & ->); [congruence|].
  specialize (Hnot w2). rewrite Hcheck in Hnot. injection Hnot as ->.
  rewrite Hsome. unfold bind at 1. cbn [approveAgentIfNeeded].
  unfold try_catch, bind at 1, submit_approval, bind at 1, get_store, bind at 1,
    put_store, await.
  destruct (approveAgent client address "EzDawg Agent") as [[]|e].
  - unfold console_write at 1. unfold bind at 1.
    match goal with
    | |- context [initAgentClient params ?acc ?w0] =>
        destruct (Hagent acc w0) as (w4 & -> & Hs4)
    end.
    eexists. split; [reflexivity|]. cbn in Hs4. cbn. rewrite Hs4. cbn. now rewrite Hs3.
  - unfold console_write at 1. unfold bind at 1.
    match goal with
    | |- context [initAgentClient params ?acc ?w0] =>
        destruct (Hagent acc w0) as (w4 & -> & Hs4)
    end.
    eexists. split; [reflexivity|]. cbn in Hs4. cbn. rewrite Hs4. cbn. now rewrite Hs3.
Qed.
End BootstrapFacts.

(** Witness for X23: Alice's first start, her agent already a delegate. *)
Lemma initializeAgent_already_approved_witness :
  exists w',
    AgentService.initializeAgent Sample.generateAgentWallet Sample.privateKeyToAccount
      Scenario.approved_start Sample.browser
    = (Returns (AgentService.mkInit "0xA6E27" true), w')
    /\ approvals (store w') = approvals (store Scenario.browser_with_key).
Proof.
  apply (initializeAgent_already_approved Sample.generateAgentWallet
           Sample.privateKeyToAccount Scenario.approved_start Sample.browser
           Scenario.browser_with_key (Sample.generateAgentWallet 0) "0xA6E27"
           Scenario.approving_info [AgentService.mkAgent "0xA6E27" "EzDawg Agent" 0]).
  - reflexivity.
  - reflexivity.
  - intros w0. exists w0. split; reflexivity.
  - intros account w0. exists w0. split; reflexivity.
  - reflexivity.
  - reflexivity.
  - simpl. left. reflexivity.
Defined.

(** Witness for X24: the sample cold start. *)
Lemma initializeAgent_without_client_witness :
  fst (AgentService.initializeAgent Sample.generateAgentWallet Sample.privateKeyToAccount
         Sample.cold_start Sample.browser)
  = Throws "Exchange client not initialized".
Proof.
  apply (initializeAgent_without_client Sample.generateAgentWallet
           Sample.privateKeyToAccount Sample.cold_start Sample.browser
           Scenario.browser_with_key (Sample.generateAgentWallet 0) "0xA6E27").
  - reflexivity.
  - reflexivity.
  - intros w0. exists w0. split; reflexivity.
  - reflexivity.
  - intros w0. reflexivity.
Defined.

(** Witness for X25: a start whose approval the exchange refuses. *)
Lemma initializeAgent_submits_one_approval_witness :
  exists w',
    AgentService.initializeAgent Sample.generateAgentWallet Sample.privateKeyToAccount
      Scenario.refused_start Sample.browser
    = (Returns (AgentService.mkInit "0xA6E27" true), w')
    /\ approvals (store w')
       = (approvals (store Scenario.browser_with_key) ++ [("0xA6E27", "EzDawg Agent")])%list.
Proof.
  apply (initializeAgent_submits_one_approval Sample.generateAgentWallet
           Sample.privateKeyToAccount Scenario.refused_start Sample.browser
           Scenario.browser_with_key (Sample.generateAgentWallet 0) "0xA6E27"
           Sample.refusing).
  - reflexivity.
  - reflexivity.
  - intros account w0. exists w0. split; reflexivity.
  - reflexivity.
  - intros w0. reflexivity.
Defined.

(** ** The query hooks *)

(** X26.  The retry delay of the bootstrap query is a capped doubling: it
    is 1000 ms for the first retry, each further delay is twice the one
    before unless that exceeds 30000 ms, which is then the delay; so the
    delays never decrease, stay between 1000 and 30000, and are 30000 from
    the sixth retry on. *)
Theorem retryDelay_capped_doubling (attemptIndex : nat) :
  Hooks.retryDelay 0 = 1000
  /\ Hooks.retryDelay (S attemptIndex) = Z.min (2 * Hooks.retryDelay attemptIndex) 30000
  /\ 1000 <= Hooks.retryDelay attemptIndex <= 30000
  /\ Hooks.retryDelay attemptIndex <= Hooks.retryDelay (S attemptIndex)
  /\ ((5 <= attemptIndex)%nat -> Hooks.retryDelay attemptIndex = 30000).
Proof.
  unfold Hooks.retryDelay.
  assert (Hpos : 1 <= 2 ^ Z.of_nat attemptIndex).
  { change 1 with (2 ^ 0). apply Z.pow_le_mono_r; lia. }
  assert (Hsucc : 2 ^ Z.of_nat (S attemptIndex) = 2 * 2 ^ Z.of_nat attemptIndex).
  { rewrite Nat2Z.inj_succ. apply Z.pow_succ_r. lia. }
  rewrite Hsucc. split; [reflexivity|]. repeat split; try lia.
  intros Hfive.
  assert (32 <= 2 ^ Z.of_nat attemptIndex).
  { change 32 with (2 ^ 5). apply Z.pow_le_mono_r; lia. }
  lia.
Qed.

Section StatusHookFacts.
Import AgentService.

(** X27.  The status hook and the bootstrap's approval check agree, except
    on failure: for a connected wallet and an agent address,
    [useGetAgentStatus]'s query returns what [checkAgentApproval] returns
    whenever the exchange answers or there is no client; when the exchange
    query throws, the hook's query throws the same error while
    [checkAgentApproval] returns false with a warning. *)
Theorem agentStatus_agrees_with_checkAgentApproval infoClient address agentAddress
    (w : Runtime Browser) :
  address <> "" -> agentAddress <> "" ->
  ((forall client e, infoClient = Some client -> extraAgents client address <> Throws e) ->
   Hooks.agentStatus infoClient (Some address) (Some agentAddress) w
   = checkAgentApproval infoClient address agentAddress w)
  /\ (forall client e,
        infoClient = Some client -> extraAgents client address = Throws e ->
        Hooks.agentStatus infoClient (Some address) (Some agentAddress) w = (Throws e, w)
        /\ fst (checkAgentApproval infoClient address agentAddress w) = Returns false).
Proof.
  intros Ha Hb. rewrite checkAgentApproval_run. unfold Hooks.agentStatus.
  rewrite (truthy_Some address Ha), (truthy_Some agentAddress Hb).
  destruct infoClient as [client|].
  - unfold bind, await. destruct (extraAgents client address) as [[agents|]|e] eqn:Hq.
    + split; [reflexivity|]. intros c e' [= <-]. congruence.
    + split; [reflexivity|]. intros c e' [= <-]. congruence.
    + split.
      * intros Hno. now destruct (Hno client e eq_refl).
      * intros c e' [= <-] Hq'. rewrite Hq in Hq'. injection Hq' as <-. now split.
  - split; [reflexivity|]. intros c e [=].
Qed.
End StatusHookFacts.

(** Witness for X27: the exchange that lists Alice's agent. *)
Lemma agentStatus_agrees_with_checkAgentApproval_witness :
  Hooks.agentStatus (Some Scenario.approving_info) (Some "0xA11CE") (Some "0xA6E27")
                    Sample.browser
  = AgentService.checkAgentApproval (Some Scenario.approving_info) "0xA11CE" "0xA6E27"
                                    Sample.browser.
Proof.
  apply (proj1 (agentStatus_agrees_with_checkAgentApproval (Some Scenario.approving_info)
                  "0xA11CE" "0xA6E27" Sample.browser ltac:(discriminate)
                  ltac:(discriminate))).
  intros client e [= <-]. discriminate.
Defined.

(** ** The agent wallets *)

Section WalletFacts.
Import AgentWallets.
Variable pg : Db.Postgres.
Variable agent_wallets_accepts : list AgentWallet -> AgentWallet -> bool.

Lemma on_base_round_trip (w : Runtime Vault) :
  on_base Db.round_trip w =
  (Returns (negb (hd false (Db.outages (base (store w))))),
   mkRuntime (clock w) (console w)
     (mkVault
        (Db.mkDatabase (Db.users (base (store w))) (Db.sips (base (store w)))
                       (Db.uuids_issued (base (store w)))
                       (tl (Db.outages (base (store w)))))
        (agent_wallets (store w)))).
Proof. reflexivity. Qed.

Lemma getAgentWallet_run userId (w : Runtime Vault) :
  getAgentWallet pg userId w =
  (Returns (if negb (hd false (Db.outages (base (store w)))) && Db.uuid_in pg userId
            then single (List.filter (fun row => Db.same_uuid pg (user_id row) userId)
                                     (agent_wallets (store w)))
            else None),
   mkRuntime (clock w) (console w)
     (mkVault
        (Db.mkDatabase (Db.users (base (store w))) (Db.sips (base (store w)))
                       (Db.uuids_issued (base (store w)))
                       (tl (Db.outages (base (store w)))))
        (agent_wallets (store w)))).
Proof.
  unfold getAgentWallet, bind. rewrite on_base_round_trip.
  now destruct (negb (hd false (Db.outages (base (store w)))) && Db.uuid_in pg userId).
Qed.

Lemma same_uuid_values a b :
  Db.uuid_in pg b = true ->
  Db.uuid_value pg a <> Db.uuid_value pg b -> Db.same_uuid pg a b = false.
Proof.
  unfold Db.uuid_in, Db.same_uuid.
  destruct (Db.uuid_value pg a), (Db.uuid_value pg b); try reflexivity; try discriminate.
  intros _ Hne. apply N.eqb_neq. congruence.
Qed.

Lemma filter_none_app userId (rows : list AgentWallet) row :
  (forall r, In r rows -> Db.same_uuid pg (user_id r) userId = false) ->
  Db.same_uuid pg (user_id row) userId = true ->
  List.filter (fun r => Db.same_uuid pg (user_id r) userId) (rows ++ [row]) = [row].
Proof.
  intros Hnone Hrow. induction rows as [|r rows IH]; cbn.
  - now rewrite Hrow.
  - rewrite (Hnone r (or_introl eq_refl)). apply IH. intros r' Hr'. apply Hnone. now right.
Qed.

Lemma set_approved_user userId value row :
  user_id (set_approved pg userId value row) = user_id row.
Proof. unfold set_approved. now destruct (Db.same_uuid pg (user_id row) userId). Qed.

Lemma filter_set_approved userId value (rows : list AgentWallet) :
  List.filter (fun r => Db.same_uuid pg (user_id r) userId)
              (map (set_approved pg userId value) rows)
  = map (set_approved pg userId value)
        (List.filter (fun r => Db.same_uuid pg (user_id r) userId) rows).
Proof.
  induction rows as [|r rows IH]; [reflexivity|].
  cbn [map List.filter]. rewrite set_approved_user.
  destruct (Db.same_uuid pg (user_id r) userId); [cbn [map]; now f_equal | exact IH].
Qed.

(** X28.  A created agent wallet is read back: for a user without a wallet
    row, when the table takes the new row and the requests reach the
    database, [createAgentWallet] returns the row, which is not approved,
    and afterwards [getAgentPrivateKey] for the user returns the key that
    was stored and [getAgentWallet] the row.  The user is without a wallet
    row when no row has a [user_id] of the value of [userId]. *)
Theorem created_wallet_is_read_back userId agentAddress encryptedPrivateKey
    (w : Runtime Vault) :
  (forall r, In r (agent_wallets (store w)) ->
             Db.uuid_value pg (user_id r) <> Db.uuid_value pg userId) ->
  hd false (Db.outages (base (store w))) = false ->
  hd false (tl (Db.outages (base (store w)))) = false ->
  Db.uuid_in pg userId = true ->
  agent_wallets_accepts (agent_wallets (store w))
    (mkWallet (Db.gen_random_uuid pg (Db.uuids_issued (base (store w)))) userId
              agentAddress encryptedPrivateKey false (clock w)) = true ->
  exists row w1,
    createAgentWallet pg agent_wallets_accepts userId agentAddress encryptedPrivateKey w
    = (Returns (Some row), w1)
    /\ approved row = false
    /\ agent_address row = agentAddress
    /\ fst (getAgentPrivateKey pg userId w1) = Returns (Some encryptedPrivateKey)
    /\ fst (getAgentWallet pg userId w1) = Returns (Some row).
Proof.
  intros Hnone Hup1 Hup2 Huuid Hacc.
  unfold createAgentWallet, bind at 1. rewrite on_base_round_trip, Hup1.
  cbn [negb]. unfold bind at 1, get_store. unfold bind at 1, Date_now.
  cbn [store clock base agent_wallets Db.uuids_issued andb]. rewrite Hacc.
  unfold bind, put_store, ret. cbn [store clock console base agent_wallets].
  eexists _, _. split; [reflexivity|]. split; [reflexivity|]. split; [reflexivity|].
  unfold getAgentPrivateKey, bind. rewrite getAgentWallet_run.
  cbn [store base agent_wallets Db.outages]. rewrite Hup2, Huuid. cbn [negb andb].
  rewrite filter_none_app.
  - split; reflexivity.
  - intros r Hr. apply same_uuid_values; auto.
  - cbn [user_id]. unfold Db.same_uuid, Db.uuid_in in *.
    destruct (Db.uuid_value pg userId); [apply N.eqb_refl | discriminate].
Qed.

(** X29.  [updateAgentApproval] sets the flag of the wallets of the user,
    ids being compared as uuids, and nothing else, and reports success also
    when the user has no wallet.  With a client at hand, when the request
    is executed and the id is a uuid it returns true, and it leaves every
    wallet row whose [user_id] has the value of [userId] with the new flag
    and its other columns unchanged, and every other row and the other
    tables as they were; a wallet that was the user's only one is
    afterwards read back by [getAgentWallet] with the new flag. *)
Theorem updateAgentApproval_sets_flag userId value (w : Runtime Vault) :
  hd false (Db.outages (base (store w))) = false ->
  Db.uuid_in pg userId = true ->
  updateAgentApproval pg userId value w
  = (Returns true,
     mkRuntime (clock w) (console w)
       (mkVault
          (Db.mkDatabase (Db.users (base (store w))) (Db.sips (base (store w)))
                         (Db.uuids_issued (base (store w)))
                         (tl (Db.outages (base (store w)))))
          (map (fun row =>
                  match Db.uuid_value pg (user_id row), Db.uuid_value pg userId with
                  | Some x, Some y =>
                      if (x =? y)%N
                      then mkWallet (id row) (user_id row) (agent_address row)
                                    (encrypted_private_key row) value (created_at row)
                      else row
                  | _, _ => row
                  end)
               (agent_wallets (store w)))))
  /\ (hd false (tl (Db.outages (base (store w)))) = false ->
      forall row,
        single (List.filter
                  (fun r => match Db.uuid_value pg (user_id r), Db.uuid_value pg userId with
                            | Some x, Some y => (x =? y)%N
                            | _, _ => false
                            end)
                  (agent_wallets (store w))) = Some row ->
        fst (getAgentWallet pg userId
               (snd (updateAgentApproval pg userId value w)))
        = Returns (Some (mkWallet (id row) (user_id row) (agent_address row)
                                  (encrypted_private_key row) value (created_at row)))).
Proof.
  intros Hup1 Huuid.
  assert (updateAgentApproval pg userId value w
          = (Returns true,
             mkRuntime (clock w) (console w)
               (mkVault
                  (Db.mkDatabase (Db.users (base (store w))) (Db.sips (base (store w)))
                                 (Db.uuids_issued (base (store w)))
                                 (tl (Db.outages (base (store w)))))
                  (map (set_approved pg userId value) (agent_wallets (store w)))))) as Hrun.
  { unfold updateAgentApproval, bind at 1. rewrite on_base_round_trip, Hup1, Huuid.
    reflexivity. }
  split.
  - rewrite Hrun. do 3 f_equal. apply map_ext. intros row.
    unfold set_approved, Db.same_uuid.
    destruct (Db.uuid_value pg (user_id row)), (Db.uuid_value pg userId); reflexivity.
  - intros Hup2 row Hsingle. rewrite Hrun. cbn [snd]. rewrite getAgentWallet_run.
    cbn [store base agent_wallets Db.outages fst]. rewrite Hup2, Huuid. cbn [negb andb].
    f_equal.
    rewrite filter_set_approved.
    change (single (List.filter (fun r => Db.same_uuid pg (user_id r) userId)
                                (agent_wallets (store w))) = Some row) in Hsingle.
    destruct (List.filter _ (agent_wallets (store w))) as [|r [|r' rest]] eqn:Hrows;
      try discriminate.
    injection Hsingle as ->. cbn [map single]. unfold set_approved.
    assert (In row (List.filter (fun r => Db.same_uuid pg (user_id r) userId)
                                (agent_wallets (store w)))) as Hin
      by (rewrite Hrows; now left).
    apply filter_In in Hin as [_ ->]. reflexivity.
Qed.
End WalletFacts.

(** Witness for X28: the first agent wallet of Alice. *)
Lemma created_wallet_is_read_back_witness :
  exists row w1,
    AgentWallets.createAgentWallet Sample.pg Scenario.one_per_user
      (Db.u_id Sample.alice) "0xA6E27" "c1ph3r" (Scenario.vault 70)
    = (Returns (Some row), w1)
    /\ AgentWallets.approved row = false
    /\ AgentWallets.agent_address row = "0xA6E27"
    /\ fst (AgentWallets.getAgentPrivateKey Sample.pg (Db.u_id Sample.alice) w1)
       = Returns (Some "c1ph3r")
    /\ fst (AgentWallets.getAgentWallet Sample.pg (Db.u_id Sample.alice) w1)
       = Returns (Some row).
Proof.
  apply (created_wallet_is_read_back Sample.pg Scenario.one_per_user
           (Db.u_id Sample.alice) "0xA6E27" "c1ph3r" (Scenario.vault 70)).
  - intros r [].
  - reflexivity.
  - reflexivity.
  - reflexivity.
  - reflexivity.
Defined.

(** Witness for X29: approval recorded for Alice's wallet, under the
    upper-case spelling of her id. *)
Lemma updateAgentApproval_sets_flag_witness :
  AgentWallets.updateAgentApproval Sample.pg "5F0C2A9E-0000-4000-8000-000000000000" true
                                   (Scenario.vault_with_wallet 80)
  = (Returns true,
     mkRuntime 80 []
       (AgentWallets.mkVault (Db.mkDatabase [Sample.alice] [] 2 [])
          [AgentWallets.mkWallet "5f0c2a9e-0000-4000-8000-000000000001"
             (Db.u_id Sample.alice) "0xA6E27" "c1ph3r" true 70]))
  /\ fst (AgentWallets.getAgentWallet Sample.pg "5F0C2A9E-0000-4000-8000-000000000000"
            (snd (AgentWallets.updateAgentApproval Sample.pg
                    "5F0C2A9E-0000-4000-8000-000000000000" true
                    (Scenario.vault_with_wallet 80))))
     = Returns (Some (AgentWallets.mkWallet "5f0c2a9e-0000-4000-8000-000000000001"
                        (Db.u_id Sample.alice) "0xA6E27" "c1ph3r" true 70)).
Proof.
  destruct (updateAgentApproval_sets_flag Sample.pg "5F0C2A9E-0000-4000-8000-000000000000"
              true (Scenario.vault_with_wallet 80) eq_refl eq_refl) as [Hrun Hread].
  split; [exact Hrun|].
  exact (Hread eq_refl Scenario.alice_wallet eq_refl).
Defined.

(** The first case of that witness, evaluated: Alice's wallet is read back
    approved. *)
Example updateAgentApproval_then_getAgentWallet :
  fst (AgentWallets.getAgentWallet Sample.pg (Db.u_id Sample.alice)
         (snd (AgentWallets.updateAgentApproval Sample.pg (Db.u_id Sample.alice) true
                 (Scenario.vault_with_wallet 80))))
  = Returns (Some (AgentWallets.mkWallet "5f0c2a9e-0000-4000-8000-000000000001"
                     (Db.u_id Sample.alice) "0xA6E27" "c1ph3r" true 70)).
Proof. vm_compute. reflexivity. Qed.
